(** * vLLM metrics toolkit: the tracing client, the rate-controlled
      scheduler and the summary aggregator

    A shallow embedding of [vllm_metrics_client.py] and of the
    [RateLimitedBenchmark] driver of [scripts/benchmark_sharegpt.py].

    Conventions.
    - Python [float] values are idealised as rationals ([Q]); [==] on floats
      is [Qeq].  The one place where the binary64 rounding is examined is
      module [Binary64] below.
    - Python [int] values are [Z]; [None] is [None] of an [option], or
      [PyNone] where the attribute holds an arbitrary value.
    - A Python [str] is held as the bytes of its UTF-8 encoding: [len]
      counts the code points, [strip] removes the white space of Unicode,
      and prefixes, slices after an ASCII prefix and concatenation are
      those of the bytes. A [str] that has no UTF-8 encoding, which
      [json.loads] makes of an unpaired UTF-16 escape, is not covered.
    - A mutable [RequestMetrics] object is threaded explicitly: a function
      that mutates its argument returns the mutated record, also when it
      raises.
    - The network, the clocks and the trace store are oracles supplied by
      the environment. *)

From Stdlib Require Import QArith Floats Ascii.
From stdpp Require Import gmap strings list fin_maps pretty.

Local Open Scope Z_scope.
Set Warnings "-register-all,-inexact-float".

(** ** Dynamically typed values (JSON scalars, lists and dictionaries) *)

Inductive pyval : Type :=
| PyNone
| PyBool (b : bool)
| PyInt (z : Z)
| PyFloat (q : Q)
| PyStr (s : string)
| PyList (l : list pyval)
| PyDict (d : list (string * pyval)).

Definition opt_float (o : option Q) : pyval := from_option PyFloat PyNone o.
Definition opt_int (o : option Z) : pyval := from_option PyInt PyNone o.
Definition opt_str (o : option string) : pyval := from_option PyStr PyNone o.

(** ** Strings *)

(** A byte that continues the encoding of a code point (10xxxxxx). *)
Definition is_continuation (c : ascii) : bool :=
  let n := nat_of_ascii c in (128 <=? n)%nat && (n <=? 191)%nat.

(** [len(s)]: the number of code points. *)
Fixpoint str_len (s : string) : nat :=
  match s with
  | EmptyString => 0
  | String c s' => ((if is_continuation c then 0 else 1) + str_len s')%nat
  end.

(** The characters of [s], each with the bytes that continue it. *)
Fixpoint chars (s : string) : list string :=
  match s with
  | EmptyString => []
  | String c s' =>
      let rest := chars s' in
      match s' with
      | String c' _ =>
          if is_continuation c' then
            match rest with
            | g :: gs => String c g :: gs
            | [] => [String c ""]
            end
          else String c "" :: rest
      | EmptyString => [String c ""]
      end
  end.

(** White space in the sense of [str.isspace], which is what [str.strip()]
    removes: the code points U+0009 to U+000D and U+001C to U+0020, encoded
    in one byte; U+0085 and U+00A0, in two; U+1680, U+2000 to U+200A, U+2028,
    U+2029, U+202F, U+205F and U+3000, in three. *)
Definition is_space (c : ascii) : bool :=
  let n := nat_of_ascii c in
  ((9 <=? n)%nat && (n <=? 13)%nat) || ((28 <=? n)%nat && (n <=? 32)%nat).

Definition is_space2 (c1 c2 : ascii) : bool :=
  let n2 := nat_of_ascii c2 in
  (nat_of_ascii c1 =? 194)%nat && ((n2 =? 133)%nat || (n2 =? 160)%nat).

Definition is_space3 (c1 c2 c3 : ascii) : bool :=
  let n1 := nat_of_ascii c1 in
  let n2 := nat_of_ascii c2 in
  let n3 := nat_of_ascii c3 in
  ((n1 =? 225)%nat && (n2 =? 154)%nat && (n3 =? 128)%nat)
  || ((n1 =? 226)%nat && (n2 =? 128)%nat
      && (((128 <=? n3)%nat && (n3 <=? 138)%nat)
          || (n3 =? 168)%nat || (n3 =? 169)%nat || (n3 =? 175)%nat))
  || ((n1 =? 226)%nat && (n2 =? 129)%nat && (n3 =? 159)%nat)
  || ((n1 =? 227)%nat && (n2 =? 128)%nat && (n3 =? 128)%nat).

(** Removal of the leading white space, for the tests [sp2] and [sp3] of the
    characters of two and of three bytes. *)
Fixpoint lstrip_by (sp2 : ascii → ascii → bool) (sp3 : ascii → ascii → ascii → bool)
    (s : string) : string :=
  match s with
  | EmptyString => EmptyString
  | String c1 s1 =>
      if is_space c1 then lstrip_by sp2 sp3 s1
      else
        match s1 with
        | EmptyString => s
        | String c2 s2 =>
            if sp2 c1 c2 then lstrip_by sp2 sp3 s2
            else
              match s2 with
              | EmptyString => s
              | String c3 s3 => if sp3 c1 c2 c3 then lstrip_by sp2 sp3 s3 else s
              end
        end
  end.

(** [s.lstrip()], [s.rstrip()] and [s.strip()]; the trailing white space is
    the leading one of the reversed string, its bytes read backwards. *)
Definition lstrip (s : string) : string := lstrip_by is_space2 is_space3 s.

Definition rstrip (s : string) : string :=
  String.rev
    (lstrip_by (λ c2 c1, is_space2 c1 c2) (λ c3 c2 c1, is_space3 c1 c2 c3)
       (String.rev s)).

Definition strip (s : string) : string := rstrip (lstrip s).

(** ** [RequestMetrics] *)

Record RequestMetrics : Type := mkRequestMetrics {
  request_id : string;
  trace_id : string;
  success : bool;
  error_message : string;
  send_time : option Q;
  client_e2e_latency : Q;
  client_ttft : option Q;
  client_tpot : option Q;
  client_itl : option Q;
  server_queue_time : option Q;
  server_prefill_time : option Q;
  server_decode_time : option Q;
  server_inference_time : option Q;
  server_e2e_time : option Q;
  server_ttft : option Q;
  prompt_tokens : option Z;
  completion_tokens : option Z;
  model_name : pyval;
  temperature : option Q;
  top_p : option Q;
  max_tokens : option Z;
  generated_text : string;
  client_itl_list : list Q
}.

(** The dataclass constructor with every defaulted field at its default. *)
Definition new_RequestMetrics (rid tid : string) (ok : bool) (err : string)
    (sent : option Q) : RequestMetrics :=
  mkRequestMetrics rid tid ok err sent 0%Q None None None
    None None None None None None None None PyNone None None None "" [].

(** Attribute assignments [metrics.f = v]. *)
Definition set_success (v : bool) (m : RequestMetrics) : RequestMetrics :=
  mkRequestMetrics (request_id m) (trace_id m) v (error_message m)
    (send_time m) (client_e2e_latency m) (client_ttft m) (client_tpot m)
    (client_itl m) (server_queue_time m) (server_prefill_time m)
    (server_decode_time m) (server_inference_time m) (server_e2e_time m)
    (server_ttft m) (prompt_tokens m) (completion_tokens m) (model_name m)
    (temperature m) (top_p m) (max_tokens m) (generated_text m)
    (client_itl_list m).
Definition set_error_message (v : string) (m : RequestMetrics) : RequestMetrics :=
  mkRequestMetrics (request_id m) (trace_id m) (success m) v (send_time m)
    (client_e2e_latency m) (client_ttft m) (client_tpot m) (client_itl m)
    (server_queue_time m) (server_prefill_time m) (server_decode_time m)
    (server_inference_time m) (server_e2e_time m) (server_ttft m)
    (prompt_tokens m) (completion_tokens m) (model_name m) (temperature m)
    (top_p m) (max_tokens m) (generated_text m) (client_itl_list m).
Definition set_client_e2e_latency (v : Q) (m : RequestMetrics) : RequestMetrics :=
  mkRequestMetrics (request_id m) (trace_id m) (success m) (error_message m)
    (send_time m) v (client_ttft m) (client_tpot m) (client_itl m)
    (server_queue_time m) (server_prefill_time m) (server_decode_time m)
    (server_inference_time m) (server_e2e_time m) (server_ttft m)
    (prompt_tokens m) (completion_tokens m) (model_name m) (temperature m)
    (top_p m) (max_tokens m) (generated_text m) (client_itl_list m).
Definition set_client_ttft (v : option Q) (m : RequestMetrics) : RequestMetrics :=
  mkRequestMetrics (request_id m) (trace_id m) (success m) (error_message m)
    (send_time m) (client_e2e_latency m) v (client_tpot m) (client_itl m)
    (server_queue_time m) (server_prefill_time m) (server_decode_time m)
    (server_inference_time m) (server_e2e_time m) (server_ttft m)
    (prompt_tokens m) (completion_tokens m) (model_name m) (temperature m)
    (top_p m) (max_tokens m) (generated_text m) (client_itl_list m).
Definition set_client_tpot (v : option Q) (m : RequestMetrics) : RequestMetrics :=
  mkRequestMetrics (request_id m) (trace_id m) (success m) (error_message m)
    (send_time m) (client_e2e_latency m) (client_ttft m) v (client_itl m)
    (server_queue_time m) (server_prefill_time m) (server_decode_time m)
    (server_inference_time m) (server_e2e_time m) (server_ttft m)
    (prompt_tokens m) (completion_tokens m) (model_name m) (temperature m)
    (top_p m) (max_tokens m) (generated_text m) (client_itl_list m).
Definition set_client_itl (v : option Q) (m : RequestMetrics) : RequestMetrics :=
  mkRequestMetrics (request_id m) (trace_id m) (success m) (error_message m)
    (send_time m) (client_e2e_latency m) (client_ttft m) (client_tpot m) v
    (server_queue_time m) (server_prefill_time m) (server_decode_time m)
    (server_inference_time m) (server_e2e_time m) (server_ttft m)
    (prompt_tokens m) (completion_tokens m) (model_name m) (temperature m)
    (top_p m) (max_tokens m) (generated_text m) (client_itl_list m).
Definition set_server_queue_time (v : option Q) (m : RequestMetrics) : RequestMetrics :=
  mkRequestMetrics (request_id m) (trace_id m) (success m) (error_message m)
    (send_time m) (client_e2e_latency m) (client_ttft m) (client_tpot m)
    (client_itl m) v (server_prefill_time m) (server_decode_time m)
    (server_inference_time m) (server_e2e_time m) (server_ttft m)
    (prompt_tokens m) (completion_tokens m) (model_name m) (temperature m)
    (top_p m) (max_tokens m) (generated_text m) (client_itl_list m).
Definition set_server_prefill_time (v : option Q) (m : RequestMetrics) : RequestMetrics :=
  mkRequestMetrics (request_id m) (trace_id m) (success m) (error_message m)
    (send_time m) (client_e2e_latency m) (client_ttft m) (client_tpot m)
    (client_itl m) (server_queue_time m) v (server_decode_time m)
    (server_inference_time m) (server_e2e_time m) (server_ttft m)
    (prompt_tokens m) (completion_tokens m) (model_name m) (temperature m)
    (top_p m) (max_tokens m) (generated_text m) (client_itl_list m).
Definition set_server_decode_time (v : option Q) (m : RequestMetrics) : RequestMetrics :=
  mkRequestMetrics (request_id m) (trace_id m) (success m) (error_message m)
    (send_time m) (client_e2e_latency m) (client_ttft m) (client_tpot m)
    (client_itl m) (server_queue_time m) (server_prefill_time m) v
    (server_inference_time m) (server_e2e_time m) (server_ttft m)
    (prompt_tokens m) (completion_tokens m) (model_name m) (temperature m)
    (top_p m) (max_tokens m) (generated_text m) (client_itl_list m).
Definition set_server_inference_time (v : option Q) (m : RequestMetrics) : RequestMetrics :=
  mkRequestMetrics (request_id m) (trace_id m) (success m) (error_message m)
    (send_time m) (client_e2e_latency m) (client_ttft m) (client_tpot m)
    (client_itl m) (server_queue_time m) (server_prefill_time m)
    (server_decode_time m) v (server_e2e_time m) (server_ttft m)
    (prompt_tokens m) (completion_tokens m) (model_name m) (temperature m)
    (top_p m) (max_tokens m) (generated_text m) (client_itl_list m).
Definition set_server_e2e_time (v : option Q) (m : RequestMetrics) : RequestMetrics :=
  mkRequestMetrics (request_id m) (trace_id m) (success m) (error_message m)
    (send_time m) (client_e2e_latency m) (client_ttft m) (client_tpot m)
    (client_itl m) (server_queue_time m) (server_prefill_time m)
    (server_decode_time m) (server_inference_time m) v (server_ttft m)
    (prompt_tokens m) (completion_tokens m) (model_name m) (temperature m)
    (top_p m) (max_tokens m) (generated_text m) (client_itl_list m).
Definition set_server_ttft (v : option Q) (m : RequestMetrics) : RequestMetrics :=
  mkRequestMetrics (request_id m) (trace_id m) (success m) (error_message m)
    (send_time m) (client_e2e_latency m) (client_ttft m) (client_tpot m)
    (client_itl m) (server_queue_time m) (server_prefill_time m)
    (server_decode_time m) (server_inference_time m) (server_e2e_time m) v
    (prompt_tokens m) (completion_tokens m) (model_name m) (temperature m)
    (top_p m) (max_tokens m) (generated_text m) (client_itl_list m).
Definition set_prompt_tokens (v : option Z) (m : RequestMetrics) : RequestMetrics :=
  mkRequestMetrics (request_id m) (trace_id m) (success m) (error_message m)
    (send_time m) (client_e2e_latency m) (client_ttft m) (client_tpot m)
    (client_itl m) (server_queue_time m) (server_prefill_time m)
    (server_decode_time m) (server_inference_time m) (server_e2e_time m)
    (server_ttft m) v (completion_tokens m) (model_name m) (temperature m)
    (top_p m) (max_tokens m) (generated_text m) (client_itl_list m).
Definition set_completion_tokens (v : option Z) (m : RequestMetrics) : RequestMetrics :=
  mkRequestMetrics (request_id m) (trace_id m) (success m) (error_message m)
    (send_time m) (client_e2e_latency m) (client_ttft m) (client_tpot m)
    (client_itl m) (server_queue_time m) (server_prefill_time m)
    (server_decode_time m) (server_inference_time m) (server_e2e_time m)
    (server_ttft m) (prompt_tokens m) v (model_name m) (temperature m)
    (top_p m) (max_tokens m) (generated_text m) (client_itl_list m).
Definition set_model_name (v : pyval) (m : RequestMetrics) : RequestMetrics :=
  mkRequestMetrics (request_id m) (trace_id m) (success m) (error_message m)
    (send_time m) (client_e2e_latency m) (client_ttft m) (client_tpot m)
    (client_itl m) (server_queue_time m) (server_prefill_time m)
    (server_decode_time m) (server_inference_time m) (server_e2e_time m)
    (server_ttft m) (prompt_tokens m) (completion_tokens m) v (temperature m)
    (top_p m) (max_tokens m) (generated_text m) (client_itl_list m).
Definition set_temperature (v : option Q) (m : RequestMetrics) : RequestMetrics :=
  mkRequestMetrics (request_id m) (trace_id m) (success m) (error_message m)
    (send_time m) (client_e2e_latency m) (client_ttft m) (client_tpot m)
    (client_itl m) (server_queue_time m) (server_prefill_time m)
    (server_decode_time m) (server_inference_time m) (server_e2e_time m)
    (server_ttft m) (prompt_tokens m) (completion_tokens m) (model_name m) v
    (top_p m) (max_tokens m) (generated_text m) (client_itl_list m).
Definition set_top_p (v : option Q) (m : RequestMetrics) : RequestMetrics :=
  mkRequestMetrics (request_id m) (trace_id m) (success m) (error_message m)
    (send_time m) (client_e2e_latency m) (client_ttft m) (client_tpot m)
    (client_itl m) (server_queue_time m) (server_prefill_time m)
    (server_decode_time m) (server_inference_time m) (server_e2e_time m)
    (server_ttft m) (prompt_tokens m) (completion_tokens m) (model_name m)
    (temperature m) v (max_tokens m) (generated_text m) (client_itl_list m).
Definition set_max_tokens (v : option Z) (m : RequestMetrics) : RequestMetrics :=
  mkRequestMetrics (request_id m) (trace_id m) (success m) (error_message m)
    (send_time m) (client_e2e_latency m) (client_ttft m) (client_tpot m)
    (client_itl m) (server_queue_time m) (server_prefill_time m)
    (server_decode_time m) (server_inference_time m) (server_e2e_time m)
    (server_ttft m) (prompt_tokens m) (completion_tokens m) (model_name m)
    (temperature m) (top_p m) v (generated_text m) (client_itl_list m).
Definition set_generated_text (v : string) (m : RequestMetrics) : RequestMetrics :=
  mkRequestMetrics (request_id m) (trace_id m) (success m) (error_message m)
    (send_time m) (client_e2e_latency m) (client_ttft m) (client_tpot m)
    (client_itl m) (server_queue_time m) (server_prefill_time m)
    (server_decode_time m) (server_inference_time m) (server_e2e_time m)
    (server_ttft m) (prompt_tokens m) (completion_tokens m) (model_name m)
    (temperature m) (top_p m) (max_tokens m) v (client_itl_list m).
Definition set_client_itl_list (v : list Q) (m : RequestMetrics) : RequestMetrics :=
  mkRequestMetrics (request_id m) (trace_id m) (success m) (error_message m)
    (send_time m) (client_e2e_latency m) (client_ttft m) (client_tpot m)
    (client_itl m) (server_queue_time m) (server_prefill_time m)
    (server_decode_time m) (server_inference_time m) (server_e2e_time m)
    (server_ttft m) (prompt_tokens m) (completion_tokens m) (model_name m)
    (temperature m) (top_p m) (max_tokens m) (generated_text m) v.

(** *** [RequestMetrics.to_dict] *)

Section ToDict.
(** [time.strftime('%Y-%m-%d %H:%M:%S', time.localtime(t))], a function of
    the standard library and of the machine's time zone. *)
Variable strftime_localtime : Q → string.

(** [[itl * 1000 for itl in self.client_itl_list] if self.client_itl_list
    else []] *)
Definition itl_list_ms (l : list Q) : list Q :=
  match l with
  | [] => []
  | _ :: _ => map (λ itl, itl * 1000)%Q l
  end.

(** [... if self.send_time else None]: a float is falsy when it is zero. *)
Definition send_time_iso (m : RequestMetrics) : option string :=
  match send_time m with
  | Some t => if Qeq_bool t 0 then None else Some (strftime_localtime t)
  | None => None
  end.

Definition to_dict (m : RequestMetrics) : pyval :=
  PyDict [
    ("request_id", PyStr (request_id m));
    ("trace_id", PyStr (trace_id m));
    ("success", PyBool (success m));
    ("error_message", PyStr (error_message m));
    ("timestamp", opt_float (send_time m));
    ("send_time_iso", opt_str (send_time_iso m));
    ("client_metrics", PyDict [
       ("e2e_latency_ms", PyFloat (client_e2e_latency m));
       ("ttft_ms", opt_float (client_ttft m));
       ("tpot_ms", opt_float (client_tpot m));
       ("itl_ms", opt_float (client_itl m)) ]);
    ("server_metrics", PyDict [
       ("queue_time_ms", opt_float (server_queue_time m));
       ("prefill_time_ms", opt_float (server_prefill_time m));
       ("decode_time_ms", opt_float (server_decode_time m));
       ("inference_time_ms", opt_float (server_inference_time m));
       ("e2e_time_ms", opt_float (server_e2e_time m));
       ("ttft_ms", opt_float (server_ttft m)) ]);
    ("tokens", PyDict [
       ("prompt_tokens", opt_int (prompt_tokens m));
       ("completion_tokens", opt_int (completion_tokens m)) ]);
    ("request_params", PyDict [
       ("model", model_name m);
       ("temperature", opt_float (temperature m));
       ("top_p", opt_float (top_p m));
       ("max_tokens", opt_int (max_tokens m)) ]);
    ("content", PyDict [
       ("generated_text", PyStr (generated_text m));
       ("text_length", PyInt (Z.of_nat (str_len (generated_text m)))) ]);
    ("detailed_data", PyDict [
       ("itl_list_seconds", PyList (map PyFloat (client_itl_list m)));
       ("itl_list_ms", PyList (map PyFloat (itl_list_ms (client_itl_list m)))) ])
  ].

(** Reading the persisted dictionary: [d[k]] and [d[k1][k2]]. *)
Fixpoint assoc (k : string) (d : list (string * pyval)) : option pyval :=
  match d with
  | [] => None
  | (k', v) :: d' => if String.eqb k' k then Some v else assoc k d'
  end.

Definition dict_get (k : string) (v : pyval) : option pyval :=
  match v with
  | PyDict d => assoc k d
  | _ => None
  end.

Definition dict_get2 (k1 k2 : string) (v : pyval) : option pyval :=
  dict_get k1 v ≫= dict_get k2.
End ToDict.

(** The same comprehension on IEEE 754 binary64 numbers, as CPython
    evaluates it. *)
Module Binary64.
Definition itl_list_ms (l : list float) : list float :=
  match l with
  | [] => []
  | _ :: _ => map (λ itl, itl * 1000)%float l
  end.
End Binary64.

(** ** The tracing client *)

(** A call that may raise; [Raised err] carries [str(e)]. *)
Inductive outcome (A : Type) : Type :=
| Returned (a : A)
| Raised (err : string).
Arguments Returned {A} a.
Arguments Raised {A} err.

(** Sequencing: the second call is made only if the first returns. *)
Definition and_then {A B : Type} (x : outcome A) (f : A → outcome B) : outcome B :=
  match x with
  | Returned a => f a
  | Raised err => Raised err
  end.

(** *** Operations on parsed JSON, with the text of the exception they raise
    (CPython 3.11) *)

Definition py_type_name (v : pyval) : string :=
  match v with
  | PyNone => "NoneType"
  | PyBool _ => "bool"
  | PyInt _ => "int"
  | PyFloat _ => "float"
  | PyStr _ => "str"
  | PyList _ => "list"
  | PyDict _ => "dict"
  end.

(** Truth value of an object. *)
Definition py_truthy (v : pyval) : bool :=
  match v with
  | PyNone => false
  | PyBool b => b
  | PyInt z => negb (z =? 0)
  | PyFloat q => negb (Qeq_bool q 0)
  | PyStr s => negb (String.eqb s "")
  | PyList l => match l with [] => false | _ :: _ => true end
  | PyDict d => match d with [] => false | _ :: _ => true end
  end.

(** [v[k]] for a string key. *)
Definition py_getitem (k : string) (v : pyval) : outcome pyval :=
  match v with
  | PyDict d =>
      match assoc k d with
      | Some x => Returned x
      | None => Raised ("'" +:+ k +:+ "'")
      end
  | PyList _ => Raised "list indices must be integers or slices, not str"
  | PyStr _ => Raised "string indices must be integers, not 'str'"
  | _ => Raised ("'" +:+ py_type_name v +:+ "' object is not subscriptable")
  end.

(** [v[0]]; a dictionary parsed from JSON has no key 0. *)
Definition py_getitem_0 (v : pyval) : outcome pyval :=
  match v with
  | PyList (x :: _) => Returned x
  | PyList [] => Raised "list index out of range"
  | PyStr s =>
      match chars s with
      | c :: _ => Returned (PyStr c)
      | [] => Raised "string index out of range"
      end
  | PyDict _ => Raised "0"
  | _ => Raised ("'" +:+ py_type_name v +:+ "' object is not subscriptable")
  end.

(** [v.get(k)] *)
Definition py_get (k : string) (v : pyval) : outcome pyval :=
  match v with
  | PyDict d => Returned (default PyNone (assoc k d))
  | _ => Raised ("'" +:+ py_type_name v +:+ "' object has no attribute 'get'")
  end.

Definition dquote : string := String (ascii_of_nat 34) "".

(** The [TypeError] of [generated_text += v] when [v] is not a string. *)
Definition concat_error (v : pyval) : string :=
  "can only concatenate str (not " +:+ dquote +:+ py_type_name v +:+ dquote +:+ ") to str".

(** [response_data] of a non-streamed reply, as far as the code inspects it.
    The content of the message is taken to be a string, which is the type
    [generated_text] is declared with; a reply whose content is another JSON
    value ([null] when the model calls a tool) is not covered. *)
Inductive chat_body : Type :=
| NoChoices
    (* "choices" is absent or falsy *)
| FirstChoice (content : outcome string).
    (* [response_data["choices"][0]["message"]["content"]] *)

Record http_response : Type := mkResponse {
  status : Z;
  text : outcome string;            (* [await response.text()] *)
  content : list (outcome string);  (* [response.content], each line decoded *)
  json : outcome chat_body          (* [await response.json()] *)
}.

Inductive post_outcome : Type :=
| PostRaised (err : string)
| PostResponse (r : http_response).

Record request_data : Type := mkRequestData {
  rd_messages : pyval;
  rd_stream : bool;
  rd_temperature : Q;
  rd_max_tokens : Z;
  rd_top_p : Q;
  rd_model : option string
}.

Record headers : Type := mkHeaders {
  content_type : string;
  traceparent : string;
  x_request_id : string
}.

(** What the environment supplies to one [send_request] call. *)
Record client_env : Type := mkClientEnv {
  uuid4 : nat → string;         (* [str(uuid.uuid4())], k-th draw *)
  time_time : Q;                (* [time.time()] at submission *)
  perf_counter : nat → Q;       (* [time.perf_counter()], k-th reading *)
  json_loads : string → option pyval;  (* [json.loads]; [None]: JSONDecodeError *)
  post : request_data → headers → post_outcome
}.

Record trace_context : Type := mkTraceContext {
  tc_traceparent : string;
  tc_trace_id : string;
  tc_span_id : string
}.

Fixpoint remove_dashes (s : string) : string :=
  match s with
  | EmptyString => EmptyString
  | String c s' =>
      if Ascii.eqb c "-"%char then remove_dashes s' else String c (remove_dashes s')
  end.

Definition _generate_trace_context (u_trace u_span : string) : trace_context :=
  let trace_id := String.substring 0 32 (remove_dashes u_trace) in
  let span_id := String.substring 0 16 (remove_dashes u_span) in
  mkTraceContext ("00-" +:+ trace_id +:+ "-" +:+ span_id +:+ "-01") trace_id span_id.

(** *** [_process_streaming_response] *)

Section Streaming.
Variable clock : nat → Q.        (* [time.perf_counter()] *)
Variable loads : string → option pyval.   (* [json.loads] *)
Variable start_time : Q.

(** The local variables of the loop, the record being filled, and the
    number of clock readings taken so far. *)
Record stream_state : Type := mkStreamState {
  st_metrics : RequestMetrics;
  st_generated_text : string;
  st_first_token_time : option Q;
  st_inter_token_latencies : list Q;
  st_most_recent_timestamp : Q;
  st_tick : nat
}.

Inductive loop_ctl : Type :=
| Continue (st : stream_state)
| Break (st : stream_state)
| Throw (err : string) (st : stream_state).

(** [data["choices"][0]["delta"].get("content")] *)
Definition delta_content (data : pyval) : outcome pyval :=
  and_then (and_then (and_then (py_getitem "choices" data) py_getitem_0)
              (py_getitem "delta")) (py_get "content").

(** The body of [if data["choices"][0]["delta"].get("content"):], for the
    content [c]. *)
Definition on_token (c : pyval) (st : stream_state) : loop_ctl :=
  let current_time := clock (st_tick st) in
  let '(m, first, itls) :=
    match st_first_token_time st with
    | None =>
        (set_client_ttft (Some ((current_time - start_time) * 1000)%Q) (st_metrics st),
         Some current_time, st_inter_token_latencies st)
    | Some _ =>
        let itl := (current_time - st_most_recent_timestamp st)%Q in
        (st_metrics st, st_first_token_time st, st_inter_token_latencies st ++ [itl])
    end in
  match c with
  | PyStr s =>
      Continue
        (mkStreamState m (st_generated_text st +:+ s) first itls current_time
           (S (st_tick st)))
  | _ =>
      (* generated_text += c raises TypeError *)
      Throw (concat_error c)
        (mkStreamState m (st_generated_text st) first itls
           (st_most_recent_timestamp st) (S (st_tick st)))
  end.

(** One iteration of [async for line in response.content]. *)
Definition stream_body (item : outcome string) (st : stream_state) : loop_ctl :=
  match item with
  | Raised err => Throw err st
  | Returned decoded =>
      let line := strip decoded in
      if String.prefix "data: " line then
        let data_str := String.substring 6 (String.length line - 6) line in
        if String.eqb data_str "[DONE]" then Break st
        else
          match loads data_str with
          | None => (* except json.JSONDecodeError: continue *) Continue st
          | Some data =>
              match delta_content data with
              | Raised err => Throw err st
              | Returned c => if py_truthy c then on_token c st else Continue st
              end
          end
      else Continue st
  end.

Fixpoint stream_loop (items : list (outcome string)) (st : stream_state)
    : stream_state * option string :=
  match items with
  | [] => (st, None)
  | item :: items' =>
      match stream_body item st with
      | Continue st' => stream_loop items' st'
      | Break st' => (st', None)
      | Throw err st' => (st', Some err)
      end
  end.

(** [sum(l) / len(l)] *)
Definition py_sum (l : list Q) : Q := fold_left Qplus l 0%Q.
Definition py_mean (l : list Q) : Q := (py_sum l / inject_Z (Z.of_nat (length l)))%Q.

(** The statements after the loop. *)
Definition stream_epilogue (st : stream_state) : RequestMetrics * nat :=
  let end_time := clock (st_tick st) in
  let m := set_client_e2e_latency ((end_time - start_time) * 1000)%Q (st_metrics st) in
  let m := set_generated_text (st_generated_text st) m in
  let m := set_client_itl_list (st_inter_token_latencies st) m in
  let m :=
    match st_inter_token_latencies st with
    | [] => m
    | _ :: _ =>
        let m := set_client_tpot
                   (Some (py_mean (st_inter_token_latencies st) * 1000)%Q) m in
        set_client_itl (client_tpot m) m
    end in
  (m, S (st_tick st)).

(** The record after the call, the clock readings consumed, and the
    exception if one escaped. [tick] readings were already taken by the
    caller. *)
Definition _process_streaming_response (items : list (outcome string))
    (metrics : RequestMetrics) (tick : nat) : RequestMetrics * nat * option string :=
  let st0 := mkStreamState metrics "" None [] start_time tick in
  match stream_loop items st0 with
  | (st, Some err) => (st_metrics st, st_tick st, Some err)
  | (st, None) => let '(m, t) := stream_epilogue st in (m, t, None)
  end.

(** *** [_process_non_streaming_response] *)
Definition _process_non_streaming_response (body : outcome chat_body)
    (metrics : RequestMetrics) (tick : nat) : RequestMetrics * nat * option string :=
  match body with
  | Raised err => (metrics, tick, Some err)
  | Returned response_data =>
      let end_time := clock tick in
      let m := set_client_e2e_latency ((end_time - start_time) * 1000)%Q metrics in
      match response_data with
      | NoChoices => (m, S tick, None)
      | FirstChoice (Returned s) => (set_generated_text s m, S tick, None)
      | FirstChoice (Raised err) => (m, S tick, Some err)
      end
  end.
End Streaming.

(** *** [send_request] *)

Definition send_request (env : client_env) (messages : pyval) (model : string)
    (temperature : Q) (max_tokens : Z) (top_p : Q) (stream : bool) : RequestMetrics :=
  let request_id := uuid4 env 0%nat in
  let trace_context := _generate_trace_context (uuid4 env 1%nat) (uuid4 env 2%nat) in
  let metrics :=
    new_RequestMetrics request_id (tc_trace_id trace_context) false ""
      (Some (time_time env)) in
  (* try: *)
  let start_time := perf_counter env 0%nat in
  let request_data :=
    mkRequestData messages stream temperature max_tokens top_p
      (if String.eqb model "auto" then None else Some model) in
  let hdrs :=
    mkHeaders "application/json" (tc_traceparent trace_context) request_id in
  match post env request_data hdrs with
  | PostRaised err => set_error_message err metrics
  | PostResponse response =>
      if negb (status response =? 200) then
        match text response with
        | Returned error_text =>
            set_error_message
              ("HTTP " +:+ pretty (status response) +:+ ": " +:+ error_text) metrics
        | Raised err => set_error_message err metrics
        end
      else
        let '(m, _, exn) :=
          if stream then
            _process_streaming_response (perf_counter env) (json_loads env)
              start_time (content response) metrics 1%nat
          else
            _process_non_streaming_response (perf_counter env) start_time
              (json response) metrics 1%nat in
        match exn with
        | None => set_success true m
        | Some err => set_error_message err m
        end
  end.

(** ** Server-metric enrichment *)

(** The JSON graph returned by the trace store, as far as the code reads it:
    [trace_data.get("data", [])] is a list of traces, [trace.get("spans", [])]
    a list of spans. A tag whose "key" or "value" entry is missing makes the
    dictionary comprehension raise [KeyError]. *)
Record raw_tag : Type := mkTag {
  tag_key : option string;
  tag_value : option pyval
}.

Record span : Type := mkSpan {
  operationName : option string;     (* [span.get("operationName")] *)
  tags : list raw_tag                (* [span.get("tags", [])] *)
}.

Inductive get_outcome : Type :=
| GetRaised
    (* [requests.get] raises *)
| GetResponse (status_code : Z) (body : option (list (list span))).
    (* [body = None]: [response.json()] raises *)

Section Enrichment.
(** The built-in conversions [float(s)] and [int(s)] on strings; [None] when
    they raise [ValueError]. The values are finite: a tag whose text
    [float] takes to an infinity or to a NaN ("inf", "nan", "1e999"), and a
    JSON number that is not finite, have no image among the rationals and
    are not covered. *)
Variable parse_float : string → option Q.
Variable parse_int : string → option Z.

(** [float(value)]; [None] when it raises. An integer that rounds to
    2^1024 or beyond, that is one of magnitude 2^1024 - 2^970 or more, raises
    [OverflowError]. *)
Definition py_float (value : pyval) : option Q :=
  match value with
  | PyBool b => Some (if b then 1 else 0)%Q
  | PyInt z => if Z.abs z <? 2 ^ 1024 - 2 ^ 970 then Some (inject_Z z) else None
  | PyFloat q => Some q
  | PyStr s => parse_float s
  | PyNone | PyList _ | PyDict _ => None
  end.

(** [int(value)]; a float is truncated toward zero. *)
Definition py_int (value : pyval) : option Z :=
  match value with
  | PyBool b => Some (if b then 1 else 0)
  | PyInt z => Some z
  | PyFloat q => Some (Z.quot (Qnum q) (Zpos (Qden q)))
  | PyStr s => parse_int s
  | PyNone | PyList _ | PyDict _ => None
  end.

Definition _safe_float_ms (value : pyval) : option Q :=
  match value with
  | PyNone => None
  | _ => (λ x, x * 1000)%Q <$> py_float value
  end.

Definition _safe_float (value : pyval) : option Q :=
  match value with
  | PyNone => None
  | _ => py_float value
  end.

Definition _safe_int (value : pyval) : option Z :=
  match value with
  | PyNone => None
  | _ => py_int value
  end.

(** [{tag["key"]: tag["value"] for tag in ...}]: later tags overwrite earlier
    ones; [None] when a subscript raises. *)
Fixpoint tags_dict (ts : list raw_tag) (acc : gmap string pyval)
    : option (gmap string pyval) :=
  match ts with
  | [] => Some acc
  | t :: ts' =>
      match tag_key t, tag_value t with
      | Some k, Some v => tags_dict ts' (<[k := v]> acc)
      | _, _ => None
      end
  end.

(** [d.get(k)]: [None] for a missing key. *)
Definition dict_get_or_none (d : gmap string pyval) (k : string) : pyval :=
  default PyNone (d !! k).

(** The dictionary literal returned for the span that matches. *)
Definition span_metrics (tags : gmap string pyval) : gmap string pyval :=
  let get := dict_get_or_none tags in
  <["queue_time" := opt_float (_safe_float_ms (get "gen_ai.latency.time_in_queue"))]> (
  <["prefill_time" := opt_float (_safe_float_ms (get "gen_ai.latency.time_in_model_prefill"))]> (
  <["decode_time" := opt_float (_safe_float_ms (get "gen_ai.latency.time_in_model_decode"))]> (
  <["inference_time" := opt_float (_safe_float_ms (get "gen_ai.latency.time_in_model_inference"))]> (
  <["e2e_time" := opt_float (_safe_float_ms (get "gen_ai.latency.e2e"))]> (
  <["ttft" := opt_float (_safe_float_ms (get "gen_ai.latency.time_to_first_token"))]> (
  <["prompt_tokens" := opt_int (_safe_int (get "gen_ai.usage.prompt_tokens"))]> (
  <["completion_tokens" := opt_int (_safe_int (get "gen_ai.usage.completion_tokens"))]> (
  <["model" := get "gen_ai.response.model"]> (
  <["temperature" := opt_float (_safe_float (get "gen_ai.request.temperature"))]> (
  <["top_p" := opt_float (_safe_float (get "gen_ai.request.top_p"))]> (
  <["max_tokens" := opt_int (_safe_int (get "gen_ai.request.max_tokens"))]> ∅))))))))))).

(** The two nested [for] loops; [Some d] when the function returns [d] from
    inside them (the literal above, or [{}] after the [except] clause). *)
Fixpoint scan_spans (spans : list span) : option (gmap string pyval) :=
  match spans with
  | [] => None
  | sp :: spans' =>
      if bool_decide (operationName sp = Some "llm_request") then
        match tags_dict (tags sp) ∅ with
        | Some tags => Some (span_metrics tags)
        | None => Some ∅
        end
      else scan_spans spans'
  end.

Fixpoint scan_traces (data : list (list span)) : option (gmap string pyval) :=
  match data with
  | [] => None
  | trace :: data' =>
      match scan_spans trace with
      | Some d => Some d
      | None => scan_traces data'
      end
  end.

Definition _extract_server_metrics_from_trace (trace_data : list (list span))
    : gmap string pyval :=
  default ∅ (scan_traces trace_data).

(** Truth value of a dictionary: non-empty. *)
Definition dict_truthy (d : gmap string pyval) : bool :=
  match map_to_list d with
  | [] => false
  | _ :: _ => true
  end.

(** Values read back at the attribute's declared type. *)
Definition as_float (v : pyval) : option Q :=
  match v with PyFloat q => Some q | _ => None end.
Definition as_int (v : pyval) : option Z :=
  match v with PyInt z => Some z | _ => None end.

(** The trace store and the wall clock: [time.time()] is read once before
    the loop ([now 0]) and once per loop test; [jaeger k] answers the k-th
    GET. *)
Variable now : nat → Q.
Variable jaeger : nat → get_outcome.

(** The body of the [try]: the new value of [server_data], which the
    [except] clause leaves as it was (still [{}] while the loop runs). *)
Definition poll_once (k : nat) : gmap string pyval :=
  match jaeger k with
  | GetRaised => ∅
  | GetResponse status_code body =>
      if status_code =? 200 then
        match body with
        | Some trace_data => _extract_server_metrics_from_trace trace_data
        | None => ∅
        end
      else ∅
  end.

(** The [while] loop, [k] iterations done; [None] when [fuel] runs out. *)
Fixpoint poll_loop (timeout : Q) (fuel k : nat) : option (gmap string pyval) :=
  match fuel with
  | O => None
  | S fuel' =>
      if Qlt_le_dec (now (S k) - now 0) timeout then
        let server_data := poll_once k in
        if dict_truthy server_data then Some server_data
        else (* time.sleep(0.5) *) poll_loop timeout fuel' (S k)
      else Some ∅
  end.

Definition apply_server_data (server_data : gmap string pyval)
    (metrics : RequestMetrics) : RequestMetrics :=
  let get := dict_get_or_none server_data in
  let metrics := set_server_queue_time (as_float (get "queue_time")) metrics in
  let metrics := set_server_prefill_time (as_float (get "prefill_time")) metrics in
  let metrics := set_server_decode_time (as_float (get "decode_time")) metrics in
  let metrics := set_server_inference_time (as_float (get "inference_time")) metrics in
  let metrics := set_server_e2e_time (as_float (get "e2e_time")) metrics in
  let metrics := set_server_ttft (as_float (get "ttft")) metrics in
  let metrics := set_prompt_tokens (as_int (get "prompt_tokens")) metrics in
  let metrics := set_completion_tokens (as_int (get "completion_tokens")) metrics in
  let metrics := set_model_name (get "model") metrics in
  let metrics := set_temperature (as_float (get "temperature")) metrics in
  let metrics := set_top_p (as_float (get "top_p")) metrics in
  set_max_tokens (as_int (get "max_tokens")) metrics.

(** [enrich_with_server_metrics]: the returned boolean and the record after
    the call; [None] when [fuel] iterations did not finish the loop. *)
Definition enrich_with_server_metrics (fuel : nat) (metrics : RequestMetrics)
    (timeout : Q) : option (bool * RequestMetrics) :=
  match poll_loop timeout fuel 0 with
  | None => None
  | Some server_data =>
      if negb (dict_truthy server_data) then Some (false, metrics)
      else Some (true, apply_server_data server_data metrics)
  end.

(** [RateLimitedBenchmark._collect_single_server_metrics]: the call with a
    timeout of 20 seconds; the boolean is dropped. *)
Definition _collect_single_server_metrics (fuel : nat) (metrics : RequestMetrics)
    : option RequestMetrics :=
  snd <$> enrich_with_server_metrics fuel metrics 20%Q.
End Enrichment.

(** ** The rate-controlled scheduler ([RateLimitedBenchmark]) *)

(** [a / b] on floats raises [ZeroDivisionError] when [b] is zero. *)
Definition py_truediv (a b : Q) : outcome Q :=
  if Qeq_bool b 0 then Raised "float division by zero" else Returned (a / b)%Q.

(** [self.interval = 1.0 / rps if rps > 0 else 0] *)
Definition interval (rps : Q) : Q :=
  if Qlt_le_dec 0 rps then (1 / rps)%Q else 0%Q.

(** What a unit of work does, in order. *)
Inductive unit_step : Type :=
| Sleep (delay : Q)
    (* [await asyncio.sleep(delay)] *)
| SendRequest (prompt : string) (index : nat).
    (* [await self.client.send_request] with the prompt as the one user message *)

Definition _send_single_request (prompt : string) (index : nat) : list unit_step :=
  [SendRequest prompt index].

Definition _send_request_with_delay (prompt : string) (index : nat) (delay : Q)
    : list unit_step :=
  Sleep delay :: _send_single_request prompt index.

(** Time a unit spends suspended before its request is issued. *)
Fixpoint start_delay (u : list unit_step) : Q :=
  match u with
  | Sleep d :: u' => (d + start_delay u')%Q
  | _ => 0%Q
  end.

(** What [run_benchmark] asks of the event loop, in program order, up to the
    point where it waits for the requests. *)
Inductive loop_request : Type :=
| CreateTask (u : list unit_step)
    (* [asyncio.create_task(...)]: the unit is scheduled, the caller goes on *)
| AwaitGather (us : list (list unit_step))
    (* [await asyncio.gather] over the coroutines, with [return_exceptions=True] *)
| AwaitAsCompleted.
    (* [await self._gather_with_progress(tasks, len(prompts))] *)

Definition index_Q (i : nat) : Q := inject_Z (Z.of_nat i).

Definition run_benchmark (rps : Q) (prompts : list string) : outcome (list loop_request) :=
  (* print(f"   Estimated duration: {len(prompts) / self.rps:.1f} seconds\n") *)
  match py_truediv (index_Q (length prompts)) rps with
  | Raised err => Raised err
  | Returned _ =>
      if Qle_bool rps 0 then
        Returned [AwaitGather (imap (λ i prompt, _send_single_request prompt i) prompts)]
      else
        Returned
          (imap (λ i prompt,
                   let delay := (index_Q i * interval rps)%Q in
                   CreateTask (_send_request_with_delay prompt i delay)) prompts
           ++ [AwaitAsCompleted])
  end.

(** ** The summary aggregator *)

Record BenchmarkSummary : Type := mkBenchmarkSummary {
  total_requests : Z;
  successful_requests : Z;
  failed_requests : Z;
  benchmark_duration : Q;
  total_input_tokens : Z;
  total_output_tokens : Z;
  request_throughput : Q;
  output_token_throughput : Q;
  total_token_throughput : Q;
  ttft_values : list Q;
  mean_ttft : Q;
  median_ttft : Q;
  p99_ttft : Q;
  tpot_values : list Q;
  mean_tpot : Q;
  median_tpot : Q;
  p99_tpot : Q;
  itl_values : list Q;
  mean_itl : Q;
  median_itl : Q;
  p99_itl : Q;
  queue_time_values : list Q;
  mean_queue_time : Q;
  median_queue_time : Q;
  p99_queue_time : Q
}.

Section Summary.
(** [np.mean], [np.median] and [np.percentile] on a non-empty array. *)
Variable np_mean : list Q → Q.
Variable np_median : list Q → Q.
Variable np_percentile : list Q → Q → Q.

(** [sum(1 for r in results if r.success)] *)
Definition count_success (results : list RequestMetrics) : Z :=
  fold_left (λ acc r, if success r then acc + 1 else acc) results 0.

(** [sum(f(r) or 0 for r in rs)] *)
Definition sum_or_0 (f : RequestMetrics → option Z) (rs : list RequestMetrics) : Z :=
  fold_left (λ acc r, acc + default 0 (f r)) rs 0.

(** The four accumulators of the collecting loop. *)
Record collected : Type := mkCollected {
  c_ttft_values : list Q;
  c_tpot_values : list Q;
  c_itl_values : list Q;
  c_queue_time_values : list Q
}.

Definition collect_one (acc : collected) (result : RequestMetrics) : collected :=
  let ttft_values :=
    match client_ttft result with
    | Some v => c_ttft_values acc ++ [v]
    | None =>
        match server_ttft result with
        | Some v => c_ttft_values acc ++ [v]
        | None => c_ttft_values acc
        end
    end in
  let tpot_values :=
    match client_tpot result with
    | Some v => c_tpot_values acc ++ [v]
    | None => c_tpot_values acc
    end in
  let itl_values :=
    match client_itl_list result with
    | [] => c_itl_values acc
    | _ :: _ => c_itl_values acc ++ map (λ itl, itl * 1000)%Q (client_itl_list result)
    end in
  let queue_time_values :=
    match server_queue_time result with
    | Some v => c_queue_time_values acc ++ [v]
    | None => c_queue_time_values acc
    end in
  mkCollected ttft_values tpot_values itl_values queue_time_values.

Definition calculate_stats (vs : list Q) : Q * Q * Q :=
  match vs with
  | [] => (0, 0, 0)%Q
  | _ :: _ => (np_mean vs, np_median vs, np_percentile vs 99)
  end.

Definition calculate_benchmark_summary (results : list RequestMetrics)
    (start_time end_time : Q) : BenchmarkSummary :=
  (* summary = BenchmarkSummary() and the four assignments that follow *)
  let total := Z.of_nat (length results) in
  let successful := count_success results in
  let failed := total - successful in
  let duration := (end_time - start_time)%Q in
  let successful_results := filter (λ r, success r = true) results in
  match successful_results with
  | [] =>
      (* if not successful_results: return summary *)
      mkBenchmarkSummary total successful failed duration 0 0 0 0 0
        [] 0 0 0 [] 0 0 0 [] 0 0 0 [] 0 0 0
  | _ :: _ =>
      let total_input := sum_or_0 prompt_tokens successful_results in
      let total_output := sum_or_0 completion_tokens successful_results in
      let throughput :=
        if Qlt_le_dec 0 duration then
          ((inject_Z successful / duration)%Q,
           (inject_Z total_output / duration)%Q,
           (inject_Z (total_input + total_output) / duration)%Q)
        else (0%Q, 0%Q, 0%Q) in
      let c := fold_left collect_one successful_results (mkCollected [] [] [] []) in
      let s_ttft := calculate_stats (c_ttft_values c) in
      let s_tpot := calculate_stats (c_tpot_values c) in
      let s_itl := calculate_stats (c_itl_values c) in
      let s_queue := calculate_stats (c_queue_time_values c) in
      mkBenchmarkSummary total successful failed duration total_input total_output
        throughput.1.1 throughput.1.2 throughput.2
        (c_ttft_values c) s_ttft.1.1 s_ttft.1.2 s_ttft.2
        (c_tpot_values c) s_tpot.1.1 s_tpot.1.2 s_tpot.2
        (c_itl_values c) s_itl.1.1 s_itl.1.2 s_itl.2
        (c_queue_time_values c) s_queue.1.1 s_queue.1.2 s_queue.2
  end.
End Summary.

(** ** More of the client and of the benchmark driver *)

(** *** [get_server_metrics] *)

(** What [get_server_metrics] returns: the dictionary of the extraction
    (its annotation says [bool]), or [False] once the time is out. *)
Inductive metrics_or_false : Type :=
| Extracted (d : gmap string pyval)
| TimedOut.

Section GetServerMetrics.
Variable parse_float : string → option Q.
Variable parse_int : string → option Z.
Variable now : nat → Q.
Variable jaeger : nat → get_outcome.

(** The [while] loop, [k] iterations done; [None] when [fuel] runs out. *)
Fixpoint get_server_metrics_loop (timeout : Q) (fuel k : nat) : option metrics_or_false :=
  match fuel with
  | O => None
  | S fuel' =>
      if Qlt_le_dec (now (S k) - now 0) timeout then
        match jaeger k with
        | GetRaised => get_server_metrics_loop timeout fuel' (S k)
        | GetResponse status_code body =>
            if status_code =? 200 then
              match body with
              | Some trace_data =>
                  Some (Extracted
                          (_extract_server_metrics_from_trace parse_float parse_int
                             trace_data))
              | None => get_server_metrics_loop timeout fuel' (S k)
              end
            else get_server_metrics_loop timeout fuel' (S k)
        end
      else Some TimedOut
  end.

Definition get_server_metrics (fuel : nat) (timeout : Q) : option metrics_or_false :=
  get_server_metrics_loop timeout fuel 0.
End GetServerMetrics.

(** *** [load_sharegpt_prompts] *)

(** One turn of a conversation: [conv.get('from')] and [conv.get('value')];
    [None] for a missing key. *)
Record turn : Type := mkTurn {
  turn_from : option string;
  turn_value : option string
}.

(** One item of the dataset: [item.get('conversations', [])]. *)
Record sharegpt_item : Type := mkItem {
  conversations : list turn
}.

(** [l[:n]]: the first [n] elements, or all but the last [-n] when [n] is
    negative. *)
Definition slice_to {A : Type} (n : Z) (l : list A) : list A :=
  if 0 <=? n then take (Z.to_nat n) l
  else take (length l - Z.to_nat (- n)) l.

(** The inner loop: the stripped value of the first turn that comes from
    "human", at which the loop breaks. *)
Fixpoint first_human (convs : list turn) : option string :=
  match convs with
  | [] => None
  | conv :: convs' =>
      if bool_decide (turn_from conv = Some "human")
      then Some (strip (default "" (turn_value conv)))
      else first_human convs'
  end.

(** The prompts extracted from the parsed dataset. *)
Definition load_sharegpt_prompts (data : list sharegpt_item) (num_prompts : Z)
    : list string :=
  fold_left
    (λ prompts item,
       match first_human (conversations item) with
       | Some prompt => if negb (String.eqb prompt "") then prompts ++ [prompt] else prompts
       | None => prompts
       end)
    (slice_to num_prompts data) [].

(** *** [_send_single_request] and [_gather_with_progress] *)

(** What a unit of work returns: the record of [send_request], or, if that
    call raises, a failed record made on the spot. *)
Definition _send_single_request_result (index : nat) (sent : outcome RequestMetrics)
    : RequestMetrics :=
  match sent with
  | Returned metrics => metrics
  | Raised e => new_RequestMetrics ("req_" +:+ pretty index) "failed" false e None
  end.

(** The lines [_gather_with_progress] prints. *)
Inductive progress_line : Type :=
| Progress (completed total successful : nat)
| RequestFailed (err : string).

Definition count_successful (results : list RequestMetrics) : nat :=
  length (filter (λ r, success r = true) results).

(** One completion, in the order the tasks finish. *)
Definition gather_step (total : nat)
    (st : nat * list RequestMetrics * list progress_line)
    (coro : outcome RequestMetrics) : nat * list RequestMetrics * list progress_line :=
  let '(completed, results, printed) := st in
  match coro with
  | Returned result =>
      let results := results ++ [result] in
      let completed := S completed in
      if (completed mod 50 =? 0)%nat || (completed =? total)%nat then
        if (total =? 0)%nat then
          (* [completed / total * 100] raises [ZeroDivisionError], which the
             [except] clause catches *)
          (S completed, results, printed ++ [RequestFailed "division by zero"])
        else
          (completed, results,
           printed ++ [Progress completed total (count_successful results)])
      else (completed, results, printed)
  | Raised e => (S completed, results, printed ++ [RequestFailed e])
  end.

Definition _gather_with_progress (tasks : list (outcome RequestMetrics)) (total : nat)
    : list RequestMetrics * list progress_line :=
  let '(_, results, printed) := fold_left (gather_step total) tasks (0%nat, [], []) in
  (results, printed).

(** *** [_collect_server_metrics] *)

Section CollectServerMetrics.
Variable parse_float : string → option Q.
Variable parse_int : string → option Z.
(** The wall clock as the enrichment of the i-th record reads it, and the
    trace store, by trace id. *)
Variable nows : nat → nat → Q.
Variable stores : string → nat → get_outcome.

(** Records that failed are not enriched. *)
Definition collect_record (fuel : nat) (i : nat) (metrics : RequestMetrics)
    : option RequestMetrics :=
  if success metrics then
    _collect_single_server_metrics parse_float parse_int (nows i)
      (stores (trace_id metrics)) fuel metrics
  else Some metrics.

(** The records after the pass; [None] when [fuel] does not suffice for one
    of the enrichments. *)
Definition _collect_server_metrics (fuel : nat) (results : list RequestMetrics)
    : option (list RequestMetrics) :=
  mapM id (imap (collect_record fuel) results).
End CollectServerMetrics.

(** ** Saving records ([save_request_metrics],
    [save_multiple_requests_metrics], [save_results]) *)

(** [s.lower()], for ASCII letters; no other character is lowered to a
    letter of "json" or of "csv", the two texts the result is compared
    with. *)
Definition lower_ascii (c : ascii) : ascii :=
  let n := nat_of_ascii c in
  if ((65 <=? n)%nat && (n <=? 90)%nat)%bool then ascii_of_nat (n + 32) else c.

Fixpoint lower (s : string) : string :=
  match s with
  | EmptyString => EmptyString
  | String c s' => String (lower_ascii c) (lower s')
  end.

(** What a save function hands to [json.dump], or to its [csv.DictWriter]:
    the header and one line of cells per row. The file system is taken to
    accept the write. *)
Inductive written : Type :=
| JsonFile (filepath : string) (data : pyval)
| CsvFile (filepath : string) (fieldnames : list string) (lines : list (list pyval)).

(** [d[k] = v]: a key that is present keeps its place. *)
Fixpoint dict_set (k : string) (v : pyval) (d : list (string * pyval))
    : list (string * pyval) :=
  match d with
  | [] => [(k, v)]
  | (k', v') :: d' =>
      if String.eqb k' k then (k', v) :: d' else (k', v') :: dict_set k v d'
  end.

(** [d.update(other)] *)
Definition dict_update (other d : list (string * pyval)) : list (string * pyval) :=
  fold_left (λ d kv, dict_set kv.1 kv.2 d) other d.

(** A dictionary display [{k1: e1, k2: e2, ...}] with distinct keys: the
    values are evaluated in order. *)
Fixpoint dict_display (entries : list (string * outcome pyval))
    : outcome (list (string * pyval)) :=
  match entries with
  | [] => Returned []
  | (k, e) :: entries' =>
      and_then e (λ v,
      and_then (dict_display entries') (λ d, Returned ((k, v) :: d)))
  end.

(** [v.items()] *)
Definition py_items (v : pyval) : outcome (list (string * pyval)) :=
  match v with
  | PyDict d => Returned d
  | _ => Raised ("'" +:+ py_type_name v +:+ "' object has no attribute 'items'")
  end.

(** [len(v)] *)
Definition py_len (v : pyval) : outcome Z :=
  match v with
  | PyStr s => Returned (Z.of_nat (str_len s))
  | PyList l => Returned (Z.of_nat (length l))
  | PyDict d => Returned (Z.of_nat (length d))
  | _ => Raised ("object of type '" +:+ py_type_name v +:+ "' has no len()")
  end.

(** [v[k1][k2]] *)
Definition py_getitem2 (k1 k2 : string) (v : pyval) : outcome pyval :=
  and_then (py_getitem k1 v) (py_getitem k2).

(** [len(v) if v else 0] *)
Definition len_or_0 (v : pyval) : outcome pyval :=
  if py_truthy v then and_then (py_len v) (λ n, Returned (PyInt n))
  else Returned (PyInt 0).

(** [csv.DictWriter(f, fieldnames).writerow(row)]: a [ValueError] when the
    row has a key that is no field name; a field the row lacks is written as
    the empty string. *)
Definition writerow (fieldnames : list string) (row : list (string * pyval))
    : option (list pyval) :=
  if forallb (λ kv : string * pyval, bool_decide (kv.1 ∈ fieldnames)) row
  then Some (map (λ k, default (PyStr "") (assoc k row)) fieldnames)
  else None.

(** [sum(1 for m in metrics_list if not m.success)] *)
Definition count_failed (metrics_list : list RequestMetrics) : Z :=
  fold_left (λ acc m, if negb (success m) then acc + 1 else acc) metrics_list 0.

Section Saving.
Variable strftime_localtime : Q → string.
Variable py_str : pyval → string.          (* the builtin [str] *)

(** The flattened dictionary of the single-record CSV. *)
Definition flattened_data (data : pyval) : outcome (list (string * pyval)) :=
  and_then (dict_display [
      ("request_id", py_getitem "request_id" data);
      ("trace_id", py_getitem "trace_id" data);
      ("success", py_getitem "success" data);
      ("error_message", py_getitem "error_message" data);
      ("timestamp", py_getitem "timestamp" data);
      ("send_time_iso", py_getitem "send_time_iso" data) ]) (λ basic,
  let flattened := dict_update basic [] in
  and_then (and_then (py_getitem "client_metrics" data) py_items) (λ items,
  let flattened :=
    fold_left (λ d kv, dict_set ("client_" +:+ kv.1) kv.2 d) items flattened in
  and_then (and_then (py_getitem "server_metrics" data) py_items) (λ items,
  let flattened :=
    fold_left (λ d kv, dict_set ("server_" +:+ kv.1) kv.2 d) items flattened in
  and_then (and_then (py_getitem "tokens" data) py_items) (λ items,
  let flattened := fold_left (λ d kv, dict_set kv.1 kv.2 d) items flattened in
  and_then (and_then (py_getitem "request_params" data) py_items) (λ items,
  let flattened :=
    fold_left (λ d kv, dict_set ("param_" +:+ kv.1) kv.2 d) items flattened in
  and_then (py_getitem2 "content" "generated_text" data) (λ v,
  let flattened := dict_set "generated_text" v flattened in
  and_then (py_getitem2 "content" "text_length" data) (λ v,
  let flattened := dict_set "text_length" v flattened in
  and_then (py_getitem2 "detailed_data" "itl_list_ms" data) (λ itl_list_ms,
  let flattened :=
    dict_set "itl_list_ms"
      (PyStr (if py_truthy itl_list_ms then py_str itl_list_ms else "[]"))
      flattened in
  and_then (len_or_0 itl_list_ms) (λ n,
  Returned (dict_set "itl_count" n flattened)))))))))).

(** [True] with what was written, or [False]. *)
Definition save_request_metrics (metrics : RequestMetrics) (filename format : string)
    : option written :=
  if String.eqb (lower format) "json" then
    Some (JsonFile (filename +:+ ".json") (to_dict strftime_localtime metrics))
  else if String.eqb (lower format) "csv" then
    match flattened_data (to_dict strftime_localtime metrics) with
    | Returned flattened =>
        let fieldnames := map fst flattened in
        line ← writerow fieldnames flattened;
        Some (CsvFile (filename +:+ ".csv") fieldnames [line])
    | Raised _ => None
    end
  else None.

(** The columns of the multi-record CSV. *)
Definition fieldnames : list string :=
  ["request_id"; "trace_id"; "success"; "error_message";
   "timestamp"; "send_time_iso";
   "client_e2e_latency_ms"; "client_ttft_ms"; "client_tpot_ms"; "client_itl_ms";
   "server_queue_time_ms"; "server_prefill_time_ms"; "server_decode_time_ms";
   "server_inference_time_ms"; "server_e2e_time_ms"; "server_ttft_ms";
   "prompt_tokens"; "completion_tokens";
   "param_model"; "param_temperature"; "param_top_p"; "param_max_tokens";
   "generated_text"; "text_length";
   "itl_list_ms"; "itl_count"].

(** One [row] of the multi-record CSV. *)
Definition csv_row (data : pyval) : outcome (list (string * pyval)) :=
  dict_display [
    ("request_id", py_getitem "request_id" data);
    ("trace_id", py_getitem "trace_id" data);
    ("success", py_getitem "success" data);
    ("error_message", py_getitem "error_message" data);
    ("timestamp", py_getitem "timestamp" data);
    ("send_time_iso", py_getitem "send_time_iso" data);
    ("client_e2e_latency_ms", py_getitem2 "client_metrics" "e2e_latency_ms" data);
    ("client_ttft_ms", py_getitem2 "client_metrics" "ttft_ms" data);
    ("client_tpot_ms", py_getitem2 "client_metrics" "tpot_ms" data);
    ("client_itl_ms", py_getitem2 "client_metrics" "itl_ms" data);
    ("server_queue_time_ms", py_getitem2 "server_metrics" "queue_time_ms" data);
    ("server_prefill_time_ms", py_getitem2 "server_metrics" "prefill_time_ms" data);
    ("server_decode_time_ms", py_getitem2 "server_metrics" "decode_time_ms" data);
    ("server_inference_time_ms", py_getitem2 "server_metrics" "inference_time_ms" data);
    ("server_e2e_time_ms", py_getitem2 "server_metrics" "e2e_time_ms" data);
    ("server_ttft_ms", py_getitem2 "server_metrics" "ttft_ms" data);
    ("prompt_tokens", py_getitem2 "tokens" "prompt_tokens" data);
    ("completion_tokens", py_getitem2 "tokens" "completion_tokens" data);
    ("param_model", py_getitem2 "request_params" "model" data);
    ("param_temperature", py_getitem2 "request_params" "temperature" data);
    ("param_top_p", py_getitem2 "request_params" "top_p" data);
    ("param_max_tokens", py_getitem2 "request_params" "max_tokens" data);
    ("generated_text", py_getitem2 "content" "generated_text" data);
    ("text_length", py_getitem2 "content" "text_length" data);
    ("itl_list_ms",
     and_then (py_getitem2 "detailed_data" "itl_list_ms" data)
       (λ v, Returned (PyStr (py_str v))));
    ("itl_count",
     and_then (py_getitem2 "detailed_data" "itl_list_ms" data) (λ v,
     if py_truthy v then
       and_then (py_getitem2 "detailed_data" "itl_list_ms" data) (λ v',
       and_then (py_len v') (λ n, Returned (PyInt n)))
     else Returned (PyInt 0))) ].

(** The line written for one record; [None] when building or writing the row
    raises. *)
Definition csv_line (metrics : RequestMetrics) : option (list pyval) :=
  match csv_row (to_dict strftime_localtime metrics) with
  | Returned row => writerow fieldnames row
  | Raised _ => None
  end.

(** [export_time] is [datetime.now().isoformat()]. *)
Definition save_multiple_requests_metrics (export_time : string)
    (metrics_list : list RequestMetrics) (filename format : string) : option written :=
  match metrics_list with
  | [] => None
  | _ :: _ =>
      if String.eqb (lower format) "json" then
        Some (JsonFile (filename +:+ ".json")
                (PyDict [
                   ("metadata", PyDict [
                      ("total_requests", PyInt (Z.of_nat (length metrics_list)));
                      ("successful_requests", PyInt (count_success metrics_list));
                      ("failed_requests", PyInt (count_failed metrics_list));
                      ("export_time", PyStr export_time);
                      ("format_version", PyStr "1.0") ]);
                   ("requests",
                    PyList (map (to_dict strftime_localtime) metrics_list)) ]))
      else if String.eqb (lower format) "csv" then
        lines ← mapM csv_line metrics_list;
        Some (CsvFile (filename +:+ ".csv") fieldnames lines)
      else None
  end.

(** [save_results] of the benchmark script: the JSON file, then the CSV. *)
Definition save_results (export_time_json export_time_csv : string)
    (results : list RequestMetrics) (base_filename : string)
    : option written * option written :=
  let json_filename := base_filename +:+ ".json" in
  let csv_filename := base_filename +:+ ".csv" in
  (save_multiple_requests_metrics export_time_json results json_filename "json",
   save_multiple_requests_metrics export_time_csv results csv_filename "csv").
End Saving.

(** ** Readers of the saved JSON
    ([extract_itl_data] of itl_cdf_analysis.py, [RequestTimelineData] of
    request_timeline_visualizer.py) *)

(** ['k' in v] for a string [k]. *)
Definition py_contains (k : string) (v : pyval) : outcome bool :=
  match v with
  | PyDict d => Returned (bool_decide (is_Some (assoc k d)))
  | PyList l =>
      Returned (existsb (λ x, match x with PyStr s => String.eqb s k | _ => false end) l)
  | PyStr s => Returned (bool_decide (is_Some (String.index 0 k s)))
  | _ => Raised ("argument of type '" +:+ py_type_name v +:+ "' is not iterable")
  end.

(** The elements [for x in v] goes through. *)
Definition py_iter (v : pyval) : outcome (list pyval) :=
  match v with
  | PyList l => Returned l
  | PyDict d => Returned (map (λ kv, PyStr kv.1) d)
  | PyStr s => Returned (map PyStr (chars s))
  | _ => Raised ("'" +:+ py_type_name v +:+ "' object is not iterable")
  end.

(** A [for] loop whose body may raise. *)
Fixpoint for_each {A S : Type} (body : S → A → outcome S) (l : list A) (s : S)
    : outcome S :=
  match l with
  | [] => Returned s
  | x :: l' => and_then (body s x) (for_each body l')
  end.

(** The body of the loop of [extract_itl_data]. *)
Definition extract_itl_step (all_itl_values : list pyval) (request : pyval)
    : outcome (list pyval) :=
  and_then (py_contains "detailed_data" request) (λ has_detail,
  if has_detail then
    and_then (and_then (py_getitem "detailed_data" request) (py_contains "itl_list_ms"))
      (λ has_list,
    if has_list then
      and_then (py_getitem2 "detailed_data" "itl_list_ms" request) (λ itl_list,
      and_then (py_iter itl_list) (λ items,       (* [all_itl_values.extend(itl_list)] *)
      Returned (all_itl_values ++ items)))
    else Returned all_itl_values)
  else Returned all_itl_values).

(** The values handed to [np.array]. *)
Definition extract_itl_data (json_data : pyval) : outcome (list pyval) :=
  and_then (and_then (py_getitem "requests" json_data) py_iter) (λ requests,
  for_each extract_itl_step requests []).

(** [v / d] for a float [d] other than zero. *)
Definition py_div_float (v : pyval) (d : Q) : outcome Q :=
  match v with
  | PyBool b => Returned ((if b then 1 else 0) / d)%Q
  | PyInt z => Returned (inject_Z z / d)%Q
  | PyFloat q => Returned (q / d)%Q
  | _ =>
      Raised ("unsupported operand type(s) for /: '" +:+ py_type_name v
              +:+ "' and 'float'")
  end.

(** [v.get(k, dflt)] *)
Definition py_get_default (k : string) (dflt : pyval) (v : pyval) : outcome pyval :=
  match v with
  | PyDict d => Returned (default dflt (assoc k d))
  | _ => Raised ("'" +:+ py_type_name v +:+ "' object has no attribute 'get'")
  end.

Record RequestTimelineData : Type := mkRequestTimelineData {
  tl_request_id : pyval;
  tl_start_time : pyval;
  tl_success : pyval;
  tl_queue_time_ms : pyval;
  tl_prefill_time_ms : pyval;
  tl_decode_time_ms : pyval;
  tl_client_ttft_ms : pyval;
  tl_prompt_tokens : pyval;
  tl_completion_tokens : pyval;
  tl_itl_list_ms : pyval;
  tl_queue_start : Q;
  tl_queue_end : Q;
  tl_prefill_start : Q;
  tl_prefill_end : Q;
  tl_token_times : list Q;
  tl_end_time : Q;
  tl_total_duration : Q
}.

(** The loop of [_calculate_timeline]: the state is [current_time] and
    [token_times]. *)
Definition token_time_step (st : Q * list Q) (itl_ms : pyval) : outcome (Q * list Q) :=
  and_then (py_div_float itl_ms 1000) (λ d,
  let current_time := (st.1 + d)%Q in
  Returned (current_time, st.2 ++ [current_time])).

(** [RequestTimelineData(request_data)]: [__init__], which ends with
    [_calculate_timeline]. *)
Definition new_RequestTimelineData (request_data : pyval) : outcome RequestTimelineData :=
  and_then (py_get_default "request_id" (PyStr "unknown") request_data) (λ request_id,
  and_then (py_get_default "timestamp" (PyInt 0) request_data) (λ start_time,
  and_then (py_get_default "success" (PyBool false) request_data) (λ success,
  and_then (py_get_default "server_metrics" (PyDict []) request_data) (λ server_metrics,
  and_then (py_get_default "queue_time_ms" (PyInt 0) server_metrics) (λ queue_time_ms,
  and_then (py_get_default "prefill_time_ms" (PyInt 0) server_metrics) (λ prefill_time_ms,
  and_then (py_get_default "decode_time_ms" (PyInt 0) server_metrics) (λ decode_time_ms,
  and_then (py_get_default "client_metrics" (PyDict []) request_data) (λ client_metrics,
  and_then (py_get_default "ttft_ms" (PyInt 0) client_metrics) (λ client_ttft_ms,
  and_then (py_get_default "tokens" (PyDict []) request_data) (λ tokens,
  and_then (py_get_default "prompt_tokens" (PyInt 0) tokens) (λ prompt_tokens,
  and_then (py_get_default "completion_tokens" (PyInt 0) tokens) (λ completion_tokens,
  and_then (py_get_default "detailed_data" (PyDict []) request_data) (λ detailed_data,
  and_then (py_get_default "itl_list_ms" (PyList []) detailed_data) (λ itl_list_ms,
  (* [_calculate_timeline] *)
  let queue_start := 0%Q in
  and_then (py_div_float queue_time_ms 1000) (λ queue_end,
  let prefill_start := queue_end in
  and_then (py_div_float prefill_time_ms 1000) (λ d,
  let prefill_end := (prefill_start + d)%Q in
  and_then (py_iter itl_list_ms) (λ items,
  and_then (for_each token_time_step items (prefill_end, [])) (λ st,
  let token_times := st.2 in
  let end_time := default prefill_end (last token_times) in
  let total_duration := (end_time - queue_start)%Q in
  Returned
    (mkRequestTimelineData request_id start_time success queue_time_ms prefill_time_ms
       decode_time_ms client_ttft_ms prompt_tokens completion_tokens itl_list_ms
       queue_start queue_end prefill_start prefill_end token_times end_time
       total_duration))))))))))))))))))).

(** * Vocabulary of the statements, and sample data *)

(** ** Records and summaries *)

Definition sample_record : RequestMetrics :=
  set_client_itl_list [0.05; 0.07; 0.03]%Q
    (new_RequestMetrics "req-1" "0af7651916cd43dd8448eb211c80319c" true ""
       (Some 1700000000%Q)).

Definition successful (results : list RequestMetrics) : list RequestMetrics :=
  filter (λ r, success r = true) results.

(** Every field of [m] is found in the dictionary [d], at its path. *)
Definition persisted_fields (d : pyval) (m : RequestMetrics) : Prop :=
  (dict_get "request_id" d = Some (PyStr (request_id m))
   ∧ dict_get "trace_id" d = Some (PyStr (trace_id m))
   ∧ dict_get "success" d = Some (PyBool (success m))
   ∧ dict_get "error_message" d = Some (PyStr (error_message m))
   ∧ dict_get "timestamp" d = Some (opt_float (send_time m)))
  ∧ (dict_get2 "client_metrics" "e2e_latency_ms" d = Some (PyFloat (client_e2e_latency m))
     ∧ dict_get2 "client_metrics" "ttft_ms" d = Some (opt_float (client_ttft m))
     ∧ dict_get2 "client_metrics" "tpot_ms" d = Some (opt_float (client_tpot m))
     ∧ dict_get2 "client_metrics" "itl_ms" d = Some (opt_float (client_itl m)))
  ∧ (dict_get2 "server_metrics" "queue_time_ms" d = Some (opt_float (server_queue_time m))
     ∧ dict_get2 "server_metrics" "prefill_time_ms" d
       = Some (opt_float (server_prefill_time m))
     ∧ dict_get2 "server_metrics" "decode_time_ms" d
       = Some (opt_float (server_decode_time m))
     ∧ dict_get2 "server_metrics" "inference_time_ms" d
       = Some (opt_float (server_inference_time m))
     ∧ dict_get2 "server_metrics" "e2e_time_ms" d = Some (opt_float (server_e2e_time m))
     ∧ dict_get2 "server_metrics" "ttft_ms" d = Some (opt_float (server_ttft m)))
  ∧ (dict_get2 "tokens" "prompt_tokens" d = Some (opt_int (prompt_tokens m))
     ∧ dict_get2 "tokens" "completion_tokens" d = Some (opt_int (completion_tokens m)))
  ∧ (dict_get2 "request_params" "model" d = Some (model_name m)
     ∧ dict_get2 "request_params" "temperature" d = Some (opt_float (temperature m))
     ∧ dict_get2 "request_params" "top_p" d = Some (opt_float (top_p m))
     ∧ dict_get2 "request_params" "max_tokens" d = Some (opt_int (max_tokens m)))
  ∧ (dict_get2 "content" "generated_text" d = Some (PyStr (generated_text m))
     ∧ dict_get2 "detailed_data" "itl_list_seconds" d
       = Some (PyList (map PyFloat (client_itl_list m)))).

(** TTFT of one record: the client's value, else the server's. *)
Definition ttft_of (r : RequestMetrics) : option Q :=
  match client_ttft r with
  | Some v => Some v
  | None => server_ttft r
  end.

Definition gaps_ms (r : RequestMetrics) : list Q :=
  map (λ itl, itl * 1000)%Q (client_itl_list r).

(** Mean, median and 99th percentile of a collection, all 0 when it is
    empty. *)
Definition stats_of (np_mean np_median : list Q → Q)
    (np_percentile : list Q → Q → Q) (vs : list Q) : Q * Q * Q :=
  match vs with
  | [] => (0, 0, 0)%Q
  | _ :: _ => (np_mean vs, np_median vs, np_percentile vs 99%Q)
  end.

(** ** Streams *)

(** What one line of the stream makes the loop do. *)
Inductive stream_event : Type :=
| EvRaise (err : string)
    (* an exception ends the loop: the iteration or the decoding raises, or
       a subscript on the decoded chunk does *)
| EvSkip
    (* nothing: not a "data: " line, a payload that is not JSON, or a chunk
       whose delta content is missing, null or empty *)
| EvDone
    (* the line "data: [DONE]" *)
| EvText (s : string)
    (* a content delta arrives, with the text [s] *)
| EvNonText (err : string).
    (* a content delta arrives whose content is not text: the time is
       taken, then appending the content raises *)

Definition chunk (loads : string → option pyval) (item : outcome string) : stream_event :=
  match item with
  | Raised err => EvRaise err
  | Returned decoded =>
      let line := strip decoded in
      if String.prefix "data: " line then
        let data_str := String.substring 6 (String.length line - 6) line in
        if String.eqb data_str "[DONE]" then EvDone
        else
          match loads data_str with
          | None => EvSkip
          | Some data =>
              match delta_content data with
              | Raised err => EvRaise err
              | Returned c =>
                  if py_truthy c then
                    match c with
                    | PyStr s => EvText s
                    | _ => EvNonText (concat_error c)
                    end
                  else EvSkip
              end
          end
      else EvSkip
  end.

Definition events (env : client_env) (response : http_response) : list stream_event :=
  map (chunk (json_loads env)) (content response).

(** The content deltas that arrive before the stream stops, each with its
    text (none for a delta that is not text), and the exception that stops
    the stream, if any. *)
Fixpoint delivered (evs : list stream_event) : list string :=
  match evs with
  | [] => []
  | EvText s :: evs' => s :: delivered evs'
  | EvNonText _ :: _ => [""]
  | EvSkip :: evs' => delivered evs'
  | (EvDone | EvRaise _) :: _ => []
  end.

Fixpoint stream_error (evs : list stream_event) : option string :=
  match evs with
  | [] => None
  | (EvRaise err | EvNonText err) :: _ => Some err
  | EvDone :: _ => None
  | (EvSkip | EvText _) :: evs' => stream_error evs'
  end.

(** The loop state after a content delta with the text [s]. *)
Definition on_text (clock : nat → Q) (start_time : Q) (st : stream_state)
    (s : string) : stream_state :=
  match on_token clock start_time (PyStr s) st with
  | Continue st' | Break st' | Throw _ st' => st'
  end.

(** Gap between the clock readings [k] and [k + 1]. *)
Definition gap (clock : nat → Q) (k : nat) : Q := (clock (S k) - clock k)%Q.

(** The loop state once the tokens [tokens] have been consumed. *)
Definition state_after (clock : nat → Q) (start_time : Q)
    (metrics0 : RequestMetrics) (tick0 : nat) (tokens : list string) : stream_state :=
  match tokens with
  | [] => mkStreamState metrics0 "" None [] start_time tick0
  | _ :: _ =>
      let n := length tokens in
      mkStreamState
        (set_client_ttft (Some ((clock tick0 - start_time) * 1000)%Q) metrics0)
        (fold_left String.app tokens "") (Some (clock tick0))
        (map (gap clock) (seq tick0 (n - 1))) (clock (tick0 + n - 1)%nat)
        (tick0 + n)%nat
  end.

(** The reply that [send_request] receives from [session.post]. *)
Definition reply (env : client_env) (messages : pyval) (model : string)
    (temperature : Q) (max_tokens : Z) (top_p : Q) (stream : bool) : post_outcome :=
  let request_id := uuid4 env 0%nat in
  let trace_context := _generate_trace_context (uuid4 env 1%nat) (uuid4 env 2%nat) in
  post env
    (mkRequestData messages stream temperature max_tokens top_p
       (if String.eqb model "auto" then None else Some model))
    (mkHeaders "application/json" (tc_traceparent trace_context) request_id).

(** The record [send_request] starts from. *)
Definition fresh_metrics (env : client_env) : RequestMetrics :=
  new_RequestMetrics (uuid4 env 0%nat)
    (tc_trace_id (_generate_trace_context (uuid4 env 1%nat) (uuid4 env 2%nat)))
    false "" (Some (time_time env)).

(** Clock readings 0, 0.2, 0.25, 0.32, 0.35 and 0.4 from then on: a first
    token after 200 ms and gaps of 0.05, 0.07 and 0.03 seconds. *)
Definition sample_clock (k : nat) : Q :=
  match k with
  | 0%nat => 0%Q
  | 1%nat => 0.2%Q
  | 2%nat => 0.25%Q
  | 3%nat => 0.32%Q
  | 4%nat => 0.35%Q
  | _ => 0.4%Q
  end.

Definition sample_uuid (k : nat) : string :=
  match k with
  | 0%nat => "6fa459ea-ee8a-3ca4-894e-db77e160355e"
  | 1%nat => "0af76519-16cd-43dd-8448-eb211c80319c"
  | _ => "b7ad6b71-6920-3331-9c3e-4d5b6f7a8b9c"
  end.

(** A chunk whose delta has the content [c]. *)
Definition content_chunk (c : pyval) : pyval :=
  PyDict [("choices", PyList [PyDict [("delta", PyDict [("content", c)])]])].

(** A stand-in for [json.loads] on the payloads of the samples: [text:s] is
    a chunk with the content [s], [role] a chunk whose delta has no
    content, [number] a chunk whose content is the number 7, [usage] a
    chunk with an empty list of choices; anything else is not JSON. *)
Definition sample_loads (data_str : string) : option pyval :=
  if String.prefix "text:" data_str then
    Some (content_chunk (PyStr (String.substring 5 (String.length data_str - 5) data_str)))
  else if String.eqb data_str "role" then
    Some (PyDict [("choices", PyList [PyDict [("delta", PyDict [("role", PyStr "assistant")])]])])
  else if String.eqb data_str "number" then Some (content_chunk (PyInt 7))
  else if String.eqb data_str "usage" then Some (PyDict [("choices", PyList [])])
  else None.

Definition env_with (lines : list (outcome string)) (body : outcome chat_body)
    : client_env :=
  mkClientEnv sample_uuid 1700000000 sample_clock sample_loads
    (λ _ _, PostResponse (mkResponse 200 (Returned "") lines body)).

(** Four content deltas, with lines the loop skips in between. *)
Definition four_tokens : list (outcome string) :=
  [Returned ": keep-alive"; Returned "data: text:Hel"; Returned "data: text:lo";
   Returned "data: {truncated"; Returned "data: text:"; Returned "  data: text:, wor";
   Returned "data: role"; Returned "data: text:ld  "; Returned "data: [DONE]";
   Returned "data: text:!"].

Definition streamed_record : RequestMetrics :=
  send_request (env_with four_tokens (Raised "not json"))
    (PyList []) "auto" 0.7 100 1 true.

(** The stream ends before any content delta arrives. *)
Definition empty_stream_record : RequestMetrics :=
  send_request (env_with [Returned "data: [DONE]"] (Raised "not json"))
    (PyList []) "auto" 0.7 100 1 true.

(** The connection drops after the first content delta. *)
Definition broken_stream : list (outcome string) :=
  [Returned "data: text:Hel"; Raised "Connection reset by peer"].

Definition broken_stream_record : RequestMetrics :=
  send_request (env_with broken_stream (Raised "not json"))
    (PyList []) "auto" 0.7 100 1 true.

(** A chunk without choices follows the first content delta. *)
Definition malformed_stream_record : RequestMetrics :=
  send_request
    (env_with [Returned "data: text:Hel"; Returned "data: usage"] (Raised "not json"))
    (PyList []) "auto" 0.7 100 1 true.

(** ** Trace stores *)

(** The first span named "llm_request" of a trace graph, in the order the
    two loops visit the spans, and the one a poll obtains. *)
Definition first_llm_span (trace_data : list (list span)) : option span :=
  head (filter (λ sp, operationName sp = Some "llm_request") (concat trace_data)).

Definition found_span (o : get_outcome) : option span :=
  match o with
  | GetRaised => None
  | GetResponse status_code body =>
      if status_code =? 200 then body ≫= first_llm_span else None
  end.

(** The dictionary the extraction returns for a matching span. *)
Definition span_result (parse_float : string → option Q)
    (parse_int : string → option Z) (sp : span) : gmap string pyval :=
  match tags_dict (tags sp) ∅ with
  | Some tgs => span_metrics parse_float parse_int tgs
  | None => ∅
  end.

(** A tag with both a key and a value, and the value of the last tag of a
    list that has the key [k]. *)
Definition well_formed_tag (t : raw_tag) : Prop :=
  is_Some (tag_key t) ∧ is_Some (tag_value t).

Fixpoint last_value (k : string) (ts : list raw_tag) : option pyval :=
  match ts with
  | [] => None
  | t :: ts' =>
      match last_value k ts' with
      | Some v => Some v
      | None => if bool_decide (tag_key t = Some k) then tag_value t else None
      end
  end.

(** The number a tag value stands for, if it is there and parses: a JSON
    number is itself (an integer too large for a float does not parse,
    [true] and [false] are 1 and 0), a string is what [float] reads in it;
    a missing tag, [null], a list and an object give nothing. *)
Definition tag_number (parse_float : string → option Q) (v : option pyval) : option Q :=
  match v with
  | Some (PyFloat q) => Some q
  | Some (PyInt z) => if Z.abs z <? 2 ^ 1024 - 2 ^ 970 then Some (inject_Z z) else None
  | Some (PyBool true) => Some 1%Q
  | Some (PyBool false) => Some 0%Q
  | Some (PyStr s) => parse_float s
  | Some PyNone | Some (PyList _) | Some (PyDict _) | None => None
  end.

(** A latency tag, in seconds, as milliseconds. *)
Definition tag_ms (parse_float : string → option Q) (v : option pyval) : option Q :=
  match tag_number parse_float v with
  | Some seconds => Some (seconds * 1000)%Q
  | None => None
  end.

(** The integer a tag value stands for: a JSON integer is itself, a JSON
    float is cut at the decimal point, a string is what [int] reads in
    it. *)
Definition tag_integer (parse_int : string → option Z) (v : option pyval) : option Z :=
  match v with
  | Some (PyInt z) => Some z
  | Some (PyFloat q) => Some (Z.quot (Qnum q) (Zpos (Qden q)))
  | Some (PyBool true) => Some 1
  | Some (PyBool false) => Some 0
  | Some (PyStr s) => parse_int s
  | Some PyNone | Some (PyList _) | Some (PyDict _) | None => None
  end.

Definition no_parse {A : Type} (s : string) : option A := None.

(** The wall clock read every half second. *)
Definition steady_now (k : nat) : Q := (index_Q k * 0.5)%Q.

(** A trace store so slow that the second loop test comes 21 s after the
    start. *)
Definition slow_now (k : nat) : Q :=
  match k with
  | 0%nat => 0%Q
  | 1%nat => 0.5%Q
  | _ => 21%Q
  end.

Definition store_without_trace (k : nat) : get_outcome := GetResponse 404 None.

Definition bare_span : span := mkSpan (Some "llm_request") [].

Definition store_with_bare_span (k : nat) : get_outcome :=
  GetResponse 200 (Some [[mkSpan (Some "GET /v1/chat/completions") []; bare_span]]).

Definition timed_span : span :=
  mkSpan (Some "llm_request")
    [mkTag (Some "gen_ai.latency.time_in_queue") (Some (PyFloat 0.012));
     mkTag (Some "gen_ai.usage.prompt_tokens") (Some (PyInt 17));
     mkTag (Some "gen_ai.response.model") (Some (PyStr "qwen"))].

Definition timed_tags : gmap string pyval :=
  <["gen_ai.response.model" := PyStr "qwen"]> (
  <["gen_ai.usage.prompt_tokens" := PyInt 17]> (
  <["gen_ai.latency.time_in_queue" := PyFloat 0.012]> ∅)).

(** The trace shows up at the second poll. *)
Definition store_with_timed_span (k : nat) : get_outcome :=
  match k with
  | 0%nat => GetResponse 404 None
  | _ => GetResponse 200 (Some [[]; [timed_span]])
  end.

(** A span named "llm_request" with a tag entry that has no value, and a
    store that answers every poll with it. *)
Definition malformed_span : span :=
  mkSpan (Some "llm_request")
    [mkTag (Some "gen_ai.latency.time_in_queue") (Some (PyFloat 0.012));
     mkTag (Some "gen_ai.usage.prompt_tokens") None].

Definition store_with_malformed_span (k : nat) : get_outcome :=
  GetResponse 200 (Some [[malformed_span]]).

(** A store that has the malformed span at the first poll and the timed one
    from the second poll on. *)
Definition store_with_late_repair (k : nat) : get_outcome :=
  match k with
  | 0%nat => GetResponse 200 (Some [[malformed_span]])
  | _ => GetResponse 200 (Some [[timed_span]])
  end.

(** ** More vocabulary *)

(** A non-streamed body the code gets through: no choices, or a first
    choice whose message content is read. *)
Definition body_error (body : outcome chat_body) : option string :=
  match body with
  | Raised err => Some err
  | Returned NoChoices => None
  | Returned (FirstChoice (Returned _)) => None
  | Returned (FirstChoice (Raised err)) => Some err
  end.

(** The exception, if any, that ends the processing of a reply with status
    200. *)
Definition processing_error (env : client_env) (stream : bool)
    (response : http_response) : option string :=
  if stream then stream_error (events env response) else body_error (json response).

(** A line the loop passes over: it is not a "data: " line, or its payload
    is not JSON, or the delta of its chunk has no content, a null content
    or an empty one. *)
Definition passed_over (loads : string → option pyval) (decoded : string) : Prop :=
  let line := strip decoded in
  let data_str := String.substring 6 (String.length line - 6) line in
  String.prefix "data: " line = false
  ∨ (String.prefix "data: " line = true
     ∧ data_str ≠ "[DONE]"
     ∧ (loads data_str = None
        ∨ ∃ data c, loads data_str = Some data
                    ∧ delta_content data = Returned c ∧ py_truthy c = false)).

(** A reply that is not streamed. *)
Definition plain_record : RequestMetrics :=
  send_request (env_with [] (Returned (FirstChoice (Returned "Hello"))))
    (PyList []) "auto" 0.7 100 1 false.

(** [sum(f(r) or 0 for r in rs)], declaratively. *)
Definition token_sum (f : RequestMetrics → option Z) (rs : list RequestMetrics) : Z :=
  foldr Z.add 0 (map (λ r, default 0 (f r)) rs).

(** Constant stand-ins for the numpy statistics, for the samples. *)
Definition no_stat (vs : list Q) : Q := 0%Q.
Definition no_percentile (vs : list Q) (p : Q) : Q := 0%Q.

(** The trace graph in a reply of the trace store, when the status is 200
    and the body is JSON. *)
Definition readable_trace (o : get_outcome) : option (list (list span)) :=
  match o with
  | GetRaised => None
  | GetResponse status_code body => if status_code =? 200 then body else None
  end.

(** The record a completion brings, if it returns one; the exception it
    raises otherwise; and the exception a printed line reports, if it is a
    "Request failed" line. *)
Definition returned (coro : outcome RequestMetrics) : option RequestMetrics :=
  match coro with
  | Returned result => Some result
  | Raised _ => None
  end.

Definition raised (coro : outcome RequestMetrics) : option string :=
  match coro with
  | Returned _ => None
  | Raised e => Some e
  end.

Definition reported (line : progress_line) : option string :=
  match line with
  | Progress _ _ _ => None
  | RequestFailed e => Some e
  end.

(** A span with the same tag twice, and a store whose first readable reply
    has no span named "llm_request". *)
Definition retagged_span : span :=
  mkSpan (Some "llm_request")
    [mkTag (Some "gen_ai.usage.prompt_tokens") (Some (PyInt 17));
     mkTag (Some "gen_ai.request.top_p") (Some (PyFloat 0.9));
     mkTag (Some "gen_ai.usage.prompt_tokens") (Some (PyInt 21))].

Definition store_with_early_reply (k : nat) : get_outcome :=
  match k with
  | 0%nat => GetRaised
  | 1%nat => GetResponse 200 (Some [[mkSpan (Some "GET /v1/chat/completions") []]])
  | _ => GetResponse 200 (Some [[timed_span]])
  end.

(** Two records of the same request with the same outcome and the same
    client-side measurements: they differ at most in the fields that the
    enrichment writes. *)
Definition same_client_side (m m' : RequestMetrics) : Prop :=
  request_id m' = request_id m ∧ trace_id m' = trace_id m
  ∧ success m' = success m ∧ error_message m' = error_message m
  ∧ send_time m' = send_time m
  ∧ client_e2e_latency m' = client_e2e_latency m
  ∧ client_ttft m' = client_ttft m ∧ client_tpot m' = client_tpot m
  ∧ client_itl m' = client_itl m
  ∧ generated_text m' = generated_text m
  ∧ client_itl_list m' = client_itl_list m.

(** ** The scheduler and the prompts *)

(** The requests a unit of work sends, in order. *)
Definition unit_sends (u : list unit_step) : list (string * nat) :=
  omap (λ s, match s with
             | SendRequest prompt index => Some (prompt, index)
             | Sleep _ => None
             end) u.

(** The units of work an event hands to the event loop. *)
Definition launched (ev : loop_request) : list (list unit_step) :=
  match ev with
  | CreateTask u => [u]
  | AwaitGather us => us
  | AwaitAsCompleted => []
  end.

(** The prompt an item of the dataset contributes: the stripped value of
    its first human turn, unless that is empty. *)
Definition item_prompt (item : sharegpt_item) : option string :=
  match first_human (conversations item) with
  | Some prompt => if String.eqb prompt "" then None else Some prompt
  | None => None
  end.

(** [s] begins with a white-space character, of one, two or three bytes,
    for the tests [sp2] and [sp3]. *)
Definition space_head (sp2 : ascii → ascii → bool) (sp3 : ascii → ascii → ascii → bool)
    (s : string) : bool :=
  match s with
  | String c1 (String c2 (String c3 _)) => is_space c1 || sp2 c1 c2 || sp3 c1 c2 c3
  | String c1 (String c2 EmptyString) => is_space c1 || sp2 c1 c2
  | String c1 EmptyString => is_space c1
  | EmptyString => false
  end.

Definition starts_with_space (s : string) : bool :=
  space_head is_space2 is_space3 s.

Definition ends_with_space (s : string) : bool :=
  space_head (λ c2 c1, is_space2 c1 c2) (λ c3 c2 c1, is_space3 c1 c2 c3)
    (String.rev s).

(** Neither the first nor the last character is white space, in the sense
    of [str.isspace]. *)
Definition trimmed (s : string) : Prop :=
  starts_with_space s = false ∧ ends_with_space s = false.

(** U+00A0, the no-break space, and U+3000, the ideographic space. *)
Definition nbsp : string := String (ascii_of_nat 194) (String (ascii_of_nat 160) "").
Definition ideographic_space : string :=
  String (ascii_of_nat 227) (String (ascii_of_nat 128) (String (ascii_of_nat 128) "")).

(** A dataset of three conversations: one opened by the model, one whose
    first human turn is blank, one without a human turn. *)
Definition sample_dataset : list sharegpt_item :=
  [mkItem [mkTurn (Some "gpt") (Some "Hello."); mkTurn (Some "human") (Some "  What is a monad? ")];
   mkItem [mkTurn (Some "human") (Some "   "); mkTurn (Some "human") (Some "Still there?")];
   mkItem [mkTurn (Some "gpt") (Some "Anyone?")]].

(** A dataset with white space that is not ASCII: a prompt between an
    ideographic space and a no-break space, and a human turn that holds a
    no-break space only. *)
Definition wide_space_dataset : list sharegpt_item :=
  [mkItem [mkTurn (Some "human") (Some (ideographic_space +:+ "hi" +:+ nbsp))];
   mkItem [mkTurn (Some "human") (Some nbsp)]].

(** ** Saved files *)

(** A [str] that prints the empty list as Python does. *)
Definition sample_str (v : pyval) : string :=
  match v with
  | PyList [] => "[]"
  | _ => "[...]"
  end.

Definition sample_strftime (t : Q) : string := "2023-11-14 22:13:20".

(** ** Trace contexts *)

Fixpoint dash_count (s : string) : nat :=
  match s with
  | EmptyString => 0
  | String c s' => ((if Ascii.eqb c "-"%char then 1 else 0) + dash_count s')%nat
  end.

(** The shape of [str(uuid.uuid4())]: 36 characters, four of them dashes. *)
Definition uuid_shaped (u : string) : Prop :=
  String.length u = 36%nat ∧ dash_count u = 4%nat.

(** * Properties *)

(** ** The persisted record *)

Lemma opt_float_inj (o1 o2 : option Q) : opt_float o1 = opt_float o2 → o1 = o2.
Proof. destruct o1, o2; simpl; congruence. Qed.

Lemma opt_int_inj (o1 o2 : option Z) : opt_int o1 = opt_int o2 → o1 = o2.
Proof. destruct o1, o2; simpl; congruence. Qed.

Lemma map_PyFloat_inj (l1 l2 : list Q) : map PyFloat l1 = map PyFloat l2 → l1 = l2.
Proof.
  revert l2; induction l1 as [|x l1 IH]; intros [|y l2] H; simpl in H;
    try discriminate; [reflexivity|].
  injection H as -> H. f_equal. by apply IH.
Qed.

Lemma to_dict_inj (f : Q → string) (m1 m2 : RequestMetrics) :
  to_dict f m1 = to_dict f m2 → m1 = m2.
Proof.
  destruct m1, m2. unfold to_dict. cbn [request_id trace_id success error_message
    send_time client_e2e_latency client_ttft client_tpot client_itl
    server_queue_time server_prefill_time server_decode_time
    server_inference_time server_e2e_time server_ttft prompt_tokens
    completion_tokens model_name temperature top_p max_tokens generated_text
    client_itl_list].
  intros H. injection H. intros.
  repeat match goal with
  | E : opt_float _ = opt_float _ |- _ => apply opt_float_inj in E
  | E : opt_int _ = opt_int _ |- _ => apply opt_int_inj in E
  | E : map PyFloat _ = map PyFloat _ |- _ => apply map_PyFloat_inj in E
  end.
  by subst.
Qed.

Lemma itl_list_ms_map (l : list Q) : itl_list_ms l = map (λ s, s * 1000)%Q l.
Proof. by destruct l. Qed.

(** C8. Nothing of a record is lost in the persisted dictionary: every
    field is found in it at its path, and two records with the same
    dictionary are equal in every field. The dictionary holds the gap list
    unchanged under [itl_list_seconds], and under [itl_list_ms] a list of
    the same length whose elements are the gaps times 1000; the gaps 0.05,
    0.07, 0.03 give 50, 70, 30, on the rationals and on binary64 floats
    alike. *)
Theorem to_dict_preserves_every_field (f : Q → string) :
  (∀ m1 m2, to_dict f m1 = to_dict f m2 → m1 = m2)
  ∧ (∀ m,
       persisted_fields (to_dict f m) m
       ∧ dict_get2 "detailed_data" "itl_list_ms" (to_dict f m)
         = Some (PyList (map PyFloat (itl_list_ms (client_itl_list m))))
       ∧ length (itl_list_ms (client_itl_list m)) = length (client_itl_list m)
       ∧ itl_list_ms (client_itl_list m)
         = map (λ value_s, value_s * 1000)%Q (client_itl_list m))
  ∧ Forall2 Qeq (itl_list_ms [0.05; 0.07; 0.03]%Q) [50; 70; 30]%Q
  ∧ Binary64.itl_list_ms [0.05; 0.07; 0.03]%float = [50; 70; 30]%float.
Proof.
  split; [exact (to_dict_inj f)|]. split.
  - intros m. repeat split.
    + rewrite itl_list_ms_map. by rewrite length_map.
    + apply itl_list_ms_map.
  - split.
    + repeat constructor.
    + vm_compute. reflexivity.
Qed.

Lemma to_dict_preserves_every_field_witness :
  to_dict (λ _, "2023-11-14 22:13:20") sample_record
    = to_dict (λ _, "2023-11-14 22:13:20") sample_record
  ∧ sample_record = sample_record.
Proof.
  split; [reflexivity|].
  apply (proj1 (to_dict_preserves_every_field (λ _, "2023-11-14 22:13:20"))).
  reflexivity.
Defined.

(** ** The scheduler *)

Lemma py_truediv_nonzero (a b : Q) : ¬ (b == 0)%Q → py_truediv a b = Returned (a / b)%Q.
Proof.
  intros Hb. unfold py_truediv. destruct (Qeq_bool b 0) eqn:E; [|done].
  apply Qeq_bool_iff in E. contradiction.
Qed.

(** With a positive rate every prompt becomes a task created at once, whose
    unit first sleeps for [i * (1 / rps)]; the only wait comes after the
    last task is created. *)
Lemma run_benchmark_paced (rps : Q) (prompts : list string) :
  (0 < rps)%Q →
  run_benchmark rps prompts =
    Returned
      (imap (λ i prompt,
               CreateTask [Sleep (index_Q i * (1 / rps))%Q; SendRequest prompt i]) prompts
       ++ [AwaitAsCompleted]).
Proof.
  intros Hpos. unfold run_benchmark.
  rewrite py_truediv_nonzero by (intros E; rewrite E in Hpos; by apply Qlt_irrefl in Hpos).
  destruct (Qle_bool rps 0) eqn:E.
  { apply Qle_bool_iff in E. by apply Qlt_not_le in Hpos. }
  unfold interval. destruct (Qlt_le_dec 0 rps) as [_|Hle]; [done|].
  by apply Qlt_not_le in Hpos.
Qed.

(** With a negative rate all units are handed to one [gather]; none sleeps
    before its request. *)
Lemma run_benchmark_unpaced (rps : Q) (prompts : list string) :
  (rps < 0)%Q →
  run_benchmark rps prompts =
    Returned [AwaitGather (imap (λ i prompt, [SendRequest prompt i]) prompts)].
Proof.
  intros Hneg. unfold run_benchmark.
  rewrite py_truediv_nonzero by (intros E; rewrite E in Hneg; by apply Qlt_irrefl in Hneg).
  destruct (Qle_bool rps 0) eqn:E; [done|].
  assert (Qle_bool rps 0 = true) as E' by (apply Qle_bool_iff; by apply Qlt_le_weak).
  congruence.
Qed.

(** C1. With a rate of exactly 0, the documented way to ask for unlimited
    concurrency, [run_benchmark] raises [ZeroDivisionError] while printing
    the estimated duration: no request is launched, whatever the prompts. *)
Theorem run_benchmark_rate_zero_raises (prompts : list string) :
  run_benchmark 0 prompts = Raised "float division by zero".
Proof. reflexivity. Qed.

Example run_benchmark_rate_zero_five_prompts :
  run_benchmark 0 ["a"; "b"; "c"; "d"; "e"] = Raised "float division by zero".
Proof. reflexivity. Qed.

Example run_benchmark_two_per_second :
  run_benchmark 2 ["a"; "b"; "c"] =
    Returned [CreateTask [Sleep (0 * (1 / 2))%Q; SendRequest "a" 0];
              CreateTask [Sleep (1 * (1 / 2))%Q; SendRequest "b" 1];
              CreateTask [Sleep (2 * (1 / 2))%Q; SendRequest "c" 2];
              AwaitAsCompleted].
Proof. reflexivity. Qed.

(** ** The summary aggregator *)

Section SummaryFacts.
Variable np_mean : list Q → Q.
Variable np_median : list Q → Q.
Variable np_percentile : list Q → Q → Q.

Local Abbreviation stats_of := (stats_of np_mean np_median np_percentile).

Lemma count_success_from (results : list RequestMetrics) (acc : Z) :
  fold_left (λ acc r, if success r then acc + 1 else acc) results acc
    = acc + Z.of_nat (length (successful results)).
Proof.
  revert acc. induction results as [|r rs IH]; intros acc; simpl.
  - lia.
  - rewrite IH. unfold successful. rewrite filter_cons.
    destruct (success r) eqn:E.
    + rewrite decide_True by done. simpl length. lia.
    + rewrite decide_False by congruence. lia.
Qed.

Lemma count_success_spec (results : list RequestMetrics) :
  count_success results = Z.of_nat (length (successful results)).
Proof. unfold count_success. by rewrite count_success_from. Qed.

Lemma sum_or_0_from (f : RequestMetrics → option Z) (rs : list RequestMetrics) (acc : Z) :
  fold_left (λ acc r, acc + default 0 (f r)) rs acc
    = acc + foldr Z.add 0 (map (λ r, default 0 (f r)) rs).
Proof.
  revert acc. induction rs as [|r rs IH]; intros acc; simpl; [lia|].
  rewrite IH. lia.
Qed.

Lemma sum_or_0_spec (f : RequestMetrics → option Z) (rs : list RequestMetrics) :
  sum_or_0 f rs = foldr Z.add 0 (map (λ r, default 0 (f r)) rs).
Proof. unfold sum_or_0. by rewrite sum_or_0_from. Qed.

Lemma collect_from (rs : list RequestMetrics) (acc : collected) :
  fold_left collect_one rs acc =
    mkCollected (c_ttft_values acc ++ omap ttft_of rs)
                (c_tpot_values acc ++ omap client_tpot rs)
                (c_itl_values acc ++ flat_map gaps_ms rs)
                (c_queue_time_values acc ++ omap server_queue_time rs).
Proof.
  revert acc. induction rs as [|r rs IH]; intros [a b c d]; simpl.
  - by rewrite !app_nil_r.
  - rewrite IH. unfold collect_one, ttft_of, gaps_ms. simpl.
    destruct (client_ttft r), (server_ttft r), (client_tpot r),
      (client_itl_list r), (server_queue_time r); simpl;
      by rewrite <- ?app_assoc.
Qed.

Lemma collect_spec (rs : list RequestMetrics) :
  fold_left collect_one rs (mkCollected [] [] [] []) =
    mkCollected (omap ttft_of rs) (omap client_tpot rs)
                (flat_map gaps_ms rs) (omap server_queue_time rs).
Proof. by rewrite collect_from. Qed.

Lemma calculate_stats_spec (vs : list Q) :
  calculate_stats np_mean np_median np_percentile vs = stats_of vs.
Proof. reflexivity. Qed.



(** Five successful requests with 10 to 50 completion tokens in a run of
    ten seconds: 15 output tokens per second. *)
Example five_requests_in_ten_seconds :
  let record (n : Z) := set_completion_tokens (Some n) (new_RequestMetrics "r" "t" true "" None) in
  let s := calculate_benchmark_summary np_mean np_median np_percentile
             (map record [10; 20; 30; 40; 50]) 100 110 in
  successful_requests s = 5 ∧ total_output_tokens s = 150
  ∧ (output_token_throughput s == 15)%Q ∧ (request_throughput s == 0.5)%Q.
Proof. by vm_compute. Qed.

(** C5. The collections behind the per-dimension statistics, and the
    statistics themselves: mean, median and 99th percentile of each
    collection, all three 0 when the collection is empty. *)
Theorem summary_statistics (results : list RequestMetrics) (start_time end_time : Q) :
  let s := calculate_benchmark_summary np_mean np_median np_percentile
             results start_time end_time in
  (ttft_values s = omap ttft_of (successful results)
   ∧ tpot_values s = omap client_tpot (successful results)
   ∧ itl_values s = flat_map gaps_ms (successful results)
   ∧ queue_time_values s = omap server_queue_time (successful results))
  ∧ (mean_ttft s, median_ttft s, p99_ttft s) = stats_of (ttft_values s)
  ∧ (mean_tpot s, median_tpot s, p99_tpot s) = stats_of (tpot_values s)
  ∧ (mean_itl s, median_itl s, p99_itl s) = stats_of (itl_values s)
  ∧ (mean_queue_time s, median_queue_time s, p99_queue_time s)
      = stats_of (queue_time_values s).
Proof.
  cbv zeta. unfold calculate_benchmark_summary. fold (successful results).
  destruct (successful results) as [|r rs] eqn:E.
  - repeat split.
  - rewrite collect_spec, !calculate_stats_spec.
    cbn [ttft_values tpot_values itl_values queue_time_values
         mean_ttft median_ttft p99_ttft mean_tpot median_tpot p99_tpot
         mean_itl median_itl p99_itl mean_queue_time median_queue_time
         p99_queue_time c_ttft_values c_tpot_values c_itl_values
         c_queue_time_values].
    repeat split; by rewrite <- ?surjective_pairing.
Qed.
End SummaryFacts.

(** ** The streamed request *)

Section StreamingFacts.
Variable clock : nat → Q.
Variable loads : string → option pyval.
Variable start_time : Q.
Variable metrics0 : RequestMetrics.
Variable tick0 : nat.

Local Abbreviation gap := (gap clock).
Local Abbreviation state_after := (state_after clock start_time metrics0 tick0).
Local Abbreviation on_text := (on_text clock start_time).

(** The loop ends in the state that the delivered deltas lead to; when an
    exception ends it, only the record and the clock readings taken matter,
    the locals being lost. *)
Lemma stream_loop_spec (items : list (outcome string)) (st : stream_state) :
  let evs := map (chunk loads) items in
  let final := fold_left on_text (delivered evs) st in
  ∃ st',
    stream_loop clock loads start_time items st = (st', stream_error evs)
    ∧ st_metrics st' = st_metrics final
    ∧ st_tick st' = st_tick final
    ∧ (stream_error evs = None → st' = final).
Proof.
  revert st. induction items as [|item items IH]; intros st.
  { by exists st. }
  cbn [map stream_loop]. unfold stream_body, chunk at 1 3 5 7 9.
  destruct item as [decoded|err]; [|by exists st].
  cbv zeta. destruct (String.prefix _ _); [|apply IH].
  destruct (String.eqb _ "[DONE]"); [by exists st|].
  destruct (loads _) as [data|]; [|apply IH].
  destruct (delta_content data) as [c|err]; [|by exists st].
  destruct (py_truthy c); [|apply IH].
  destruct c as [|b|z|q|s|l|d]; cbn [delivered stream_error fold_left].
  5:{ destruct (IH (on_text st s)) as (st' & Hl & Hm & Ht & Hn).
      exists st'. split; [|done].
      rewrite <- Hl. unfold on_text, on_token.
      by destruct (st_first_token_time st). }
  all: unfold on_text, on_token; destruct (st_first_token_time st);
    eexists; (split; [reflexivity|]); by repeat split.
Qed.

Lemma on_text_fold (tokens : list string) :
  fold_left on_text tokens (mkStreamState metrics0 "" None [] start_time tick0)
    = state_after tokens.
Proof.
  induction tokens as [|s tokens IH] using rev_ind; [done|].
  rewrite fold_left_app, IH. simpl. clear IH.
  destruct tokens as [|t ts]; unfold on_text, on_token; simpl.
  - f_equal; [f_equal; lia | lia].
  - rewrite fold_left_app. simpl.
    rewrite length_app. simpl.
    replace (length ts + 1 - 0)%nat with (S (length ts)) by lia.
    replace (length ts - 0)%nat with (length ts) by lia.
    rewrite seq_S, map_app. simpl. unfold gap at 2.
    replace (tick0 + S (length ts) - 1)%nat with (tick0 + length ts)%nat by lia.
    replace (tick0 + S (length ts + 1) - 1)%nat with (S (tick0 + length ts)) by lia.
    replace (tick0 + S (length ts + 1))%nat with (S (tick0 + S (length ts))) by lia.
    replace (tick0 + S (length ts))%nat with (S (tick0 + length ts)) by lia.
    reflexivity.
Qed.
End StreamingFacts.

Lemma process_streaming_spec (clock : nat → Q) (loads : string → option pyval)
    (start_time : Q) (items : list (outcome string)) (metrics : RequestMetrics)
    (tick : nat) :
  let evs := map (chunk loads) items in
  _process_streaming_response clock loads start_time items metrics tick =
    let st := state_after clock start_time metrics tick (delivered evs) in
    match stream_error evs with
    | Some err => (st_metrics st, st_tick st, Some err)
    | None => (stream_epilogue clock start_time st, None)
    end.
Proof.
  cbv zeta. unfold _process_streaming_response.
  destruct (stream_loop_spec clock loads start_time items
              (mkStreamState metrics "" None [] start_time tick))
    as (st' & -> & Hm & Ht & Hn).
  rewrite on_text_fold in Hm, Ht, Hn.
  destruct (stream_error _) as [err|]; [by rewrite Hm, Ht|].
  rewrite (Hn eq_refl). by destruct (stream_epilogue _ _ _).
Qed.

(** What [stream_epilogue] writes, in terms of the loop state. *)
Lemma stream_epilogue_timing (clock : nat → Q) (start_time : Q) (st : stream_state) :
  let m := (stream_epilogue clock start_time st).1 in
  let gaps := st_inter_token_latencies st in
  client_itl_list m = gaps
  ∧ client_tpot m =
      match gaps with
      | [] => client_tpot (st_metrics st)
      | _ :: _ => Some (py_mean gaps * 1000)%Q
      end
  ∧ client_itl m =
      match gaps with
      | [] => client_itl (st_metrics st)
      | _ :: _ => Some (py_mean gaps * 1000)%Q
      end
  ∧ client_e2e_latency m = ((clock (st_tick st) - start_time) * 1000)%Q
  ∧ client_ttft m = client_ttft (st_metrics st)
  ∧ success m = success (st_metrics st).
Proof.
  unfold stream_epilogue. destruct (st_inter_token_latencies st); repeat split.
Qed.

Lemma send_request_unfold (env : client_env) (messages : pyval) (model : string)
    (temperature : Q) (max_tokens : Z) (top_p : Q) (stream : bool) :
  send_request env messages model temperature max_tokens top_p stream =
    match reply env messages model temperature max_tokens top_p stream with
    | PostRaised err => set_error_message err (fresh_metrics env)
    | PostResponse response =>
        if negb (status response =? 200) then
          match text response with
          | Returned error_text =>
              set_error_message
                ("HTTP " +:+ pretty (status response) +:+ ": " +:+ error_text)
                (fresh_metrics env)
          | Raised err => set_error_message err (fresh_metrics env)
          end
        else
          let '(m, _, exn) :=
            if stream then
              _process_streaming_response (perf_counter env) (json_loads env)
                (perf_counter env 0%nat) (content response) (fresh_metrics env) 1%nat
            else
              _process_non_streaming_response (perf_counter env)
                (perf_counter env 0%nat) (json response) (fresh_metrics env) 1%nat in
          match exn with
          | None => set_success true m
          | Some err => set_error_message err m
          end
    end.
Proof. reflexivity. Qed.

(** A streamed request that succeeded: the reply had status 200, its stream
    raised nothing, and the record is the epilogue's. *)
Lemma send_request_streamed_success (env : client_env) (messages : pyval)
    (model : string) (temperature : Q) (max_tokens : Z) (top_p : Q) :
  let m := send_request env messages model temperature max_tokens top_p true in
  success m = true →
  ∃ response,
    reply env messages model temperature max_tokens top_p true = PostResponse response
    ∧ status response = 200
    ∧ stream_error (events env response) = None
    ∧ m = set_success true
            (stream_epilogue (perf_counter env) (perf_counter env 0%nat)
               (state_after (perf_counter env) (perf_counter env 0%nat)
                  (fresh_metrics env) 1%nat (delivered (events env response)))).1.
Proof.
  cbv zeta. rewrite send_request_unfold.
  destruct (reply _ _ _ _ _ _ _) as [err|response]; [discriminate|].
  destruct (status response =? 200) eqn:Hs; simpl negb; cbv iota.
  2:{ by destruct (text response). }
  rewrite process_streaming_spec. cbv zeta. fold (events env response).
  destruct (stream_error (events env response)) as [err|] eqn:He.
  { destruct (delivered (events env response)); discriminate. }
  intros _. exists response. apply Z.eqb_eq in Hs.
  repeat split; done.
Qed.

(** The two means are one, taken over the record's own gap list. *)
Lemma streamed_tpot_of_gap_list (env : client_env) (messages : pyval)
    (model : string) (temperature : Q) (max_tokens : Z) (top_p : Q) :
  let m := send_request env messages model temperature max_tokens top_p true in
  success m = true →
  client_tpot m = client_itl m
  ∧ client_tpot m =
      match client_itl_list m with
      | [] => None
      | _ :: _ => Some (py_mean (client_itl_list m) * 1000)%Q
      end.
Proof.
  intros m Hok.
  destruct (send_request_streamed_success env messages model temperature
              max_tokens top_p Hok) as (response & _ & _ & _ & Hm).
  subst m. rewrite Hm. clear Hm Hok.
  set (st := state_after _ _ _ _ _).
  destruct (stream_epilogue_timing (perf_counter env) (perf_counter env 0%nat) st)
    as (Hl & Ht & Hi & _).
  cbn [client_tpot client_itl client_itl_list set_success].
  rewrite Hl, Ht, Hi.
  assert (client_tpot (st_metrics st) = None ∧ client_itl (st_metrics st) = None)
    as [-> ->].
  { subst st. by destruct (delivered (events env response)). }
  by destruct (st_inter_token_latencies st).
Qed.

(** The gap list holds the time between consecutive content deltas: the
    first delta is clock reading 1, and [n] deltas leave [n - 1] gaps. *)
Lemma streamed_gaps_are_arrival_differences (env : client_env) (messages : pyval)
    (model : string) (temperature : Q) (max_tokens : Z) (top_p : Q) :
  let m := send_request env messages model temperature max_tokens top_p true in
  success m = true →
  ∃ response,
    reply env messages model temperature max_tokens top_p true = PostResponse response
    ∧ client_itl_list m
      = map (gap (perf_counter env))
          (seq 1 (length (delivered (events env response)) - 1)).
Proof.
  intros m Hok.
  destruct (send_request_streamed_success env messages model temperature
              max_tokens top_p Hok) as (response & Hr & _ & _ & Hm).
  exists response. split; [exact Hr|].
  subst m. rewrite Hm.
  set (st := state_after _ _ _ _ _).
  destruct (stream_epilogue_timing (perf_counter env) (perf_counter env 0%nat) st)
    as (Hl & _).
  cbn [client_itl_list set_success]. rewrite Hl. subst st.
  by destruct (delivered (events env response)).
Qed.

(** C3. On the record of a streamed request that completed, the gap list
    is the list of the times between consecutive content deltas, read off
    [perf_counter] (the [k]-th delta arrives at reading [k], so [n] deltas
    leave [n - 1] gaps), and the time-per-output-token and the inter-token
    latency are one and the same value: the sum of these gaps, taken from
    the left, divided by their number and multiplied by 1000, or [None],
    not zero, when there is no gap. *)
Theorem streamed_tpot_and_itl_are_the_gap_mean (env : client_env) (messages : pyval)
    (model : string) (temperature : Q) (max_tokens : Z) (top_p : Q)
    (response : http_response) :
  let m := send_request env messages model temperature max_tokens top_p true in
  let n := length (delivered (events env response)) in
  let gaps :=
    map (λ k, perf_counter env (S k) - perf_counter env k)%Q (seq 1 (n - 1)) in
  success m = true →
  reply env messages model temperature max_tokens top_p true = PostResponse response →
  client_itl_list m = gaps
  ∧ client_tpot m = client_itl m
  ∧ client_tpot m =
      match gaps with
      | [] => None
      | _ :: _ =>
          Some (fold_left Qplus gaps 0 / inject_Z (Z.of_nat (length gaps)) * 1000)%Q
      end.
Proof.
  intros m n gaps Hok Hr.
  destruct (streamed_gaps_are_arrival_differences env messages model temperature
              max_tokens top_p Hok) as (response' & Hr' & Hl).
  assert (response' = response) as -> by congruence.
  destruct (streamed_tpot_of_gap_list env messages model temperature max_tokens
              top_p Hok) as [Heq Ht].
  fold m in Hl, Heq, Ht. fold n in Hl.
  change (map (gap (perf_counter env)) (seq 1 (n - 1))) with gaps in Hl.
  split; [exact Hl|]. split; [exact Heq|].
  rewrite Ht, Hl. by destruct gaps.
Qed.

(** The sample clock never goes back. *)
Lemma sample_clock_monotone (k : nat) : (sample_clock k <= sample_clock (S k))%Q.
Proof. do 5 (destruct k as [|k]; [by vm_compute|]). by vm_compute. Qed.

Lemma streamed_tpot_and_itl_witness :
  client_itl_list streamed_record = [0.25 - 0.2; 0.32 - 0.25; 0.35 - 0.32]%Q
  ∧ client_tpot streamed_record = client_itl streamed_record
  ∧ client_tpot streamed_record
    = Some (fold_left Qplus [0.25 - 0.2; 0.32 - 0.25; 0.35 - 0.32] 0
            / inject_Z 3 * 1000)%Q.
Proof.
  exact (streamed_tpot_and_itl_are_the_gap_mean
           (env_with four_tokens (Raised "not json")) (PyList []) "auto" 0.7 100 1
           (mkResponse 200 (Returned "") four_tokens (Raised "not json"))
           eq_refl eq_refl).
Defined.

Example streamed_record_gaps :
  Forall2 Qeq (client_itl_list streamed_record) [0.05; 0.07; 0.03]%Q
  ∧ generated_text streamed_record = "Hello, world"
  ∧ option_Forall2 Qeq (client_ttft streamed_record) (Some 200%Q)
  ∧ option_Forall2 Qeq (client_itl streamed_record) (Some 50%Q)
  ∧ (client_e2e_latency streamed_record == 400)%Q.
Proof. repeat split; repeat constructor. Qed.

(** *** End-to-end latency and time to first token *)

Lemma clock_from_zero (clock : nat → Q) :
  (∀ k, (clock k <= clock (S k))%Q) → ∀ k, (clock 0%nat <= clock k)%Q.
Proof.
  intros Hmono k. induction k as [|k IH]; [apply Qle_refl|].
  eapply Qle_trans; [exact IH | apply Hmono].
Qed.

Lemma elapsed_ms_nonneg (t0 t1 : Q) : (t0 <= t1)%Q → (0 <= (t1 - t0) * 1000)%Q.
Proof.
  intros H. apply Qmult_le_0_compat; [|done].
  unfold Qminus. by rewrite <- Qle_minus_iff.
Qed.

Lemma state_after_tick (clock : nat → Q) (start_time : Q) (metrics : RequestMetrics)
    (tick : nat) (tokens : list string) :
  st_tick (state_after clock start_time metrics tick tokens) = (tick + length tokens)%nat.
Proof. destruct tokens; simpl; lia. Qed.

(** A request that succeeded has its end-to-end latency measured at a later
    clock reading than the start. *)
Lemma send_request_success_e2e (env : client_env) (messages : pyval) (model : string)
    (temperature : Q) (max_tokens : Z) (top_p : Q) (stream : bool) :
  let m := send_request env messages model temperature max_tokens top_p stream in
  success m = true →
  ∃ k, client_e2e_latency m
       = ((perf_counter env (S k) - perf_counter env 0%nat) * 1000)%Q.
Proof.
  destruct stream.
  - intros m Hok.
    destruct (send_request_streamed_success env messages model temperature
                max_tokens top_p Hok) as (response & _ & _ & _ & Hm).
    subst m. rewrite Hm.
    set (st := state_after _ _ _ _ _).
    destruct (stream_epilogue_timing (perf_counter env) (perf_counter env 0%nat) st)
      as (_ & _ & _ & He & _).
    exists (length (delivered (events env response))).
    cbn [client_e2e_latency set_success]. rewrite He.
    subst st. by rewrite state_after_tick.
  - cbv zeta. rewrite send_request_unfold.
    destruct (reply _ _ _ _ _ _ _) as [err|response]; [discriminate|].
    destruct (status response =? 200); simpl negb; cbv iota.
    2:{ by destruct (text response). }
    destruct (json response) as [[|[s|err]]|err]; simpl; try discriminate;
      intros _; by exists 0%nat.
Qed.

(** C7, as stated, fails: a stream that ends before any content delta gives
    a successful record without a time to first token. *)
Lemma streamed_success_without_ttft :
  ¬ (success empty_stream_record = true →
     ∃ t, client_ttft empty_stream_record = Some t ∧ (0 <= t)%Q).
Proof. intros H. destruct (H eq_refl) as (t & Ht & _). discriminate Ht. Qed.

(** C7, amended. With a monotonic [perf_counter], a successful record has
    its end-to-end latency set, to the time elapsed since the request was
    sent, and non-negative; if the request was streamed and at least one
    non-empty content delta arrived, the time to first token is set, to the
    time elapsed at that delta, and non-negative. *)
Theorem success_latencies_set_and_nonnegative (env : client_env) (messages : pyval)
    (model : string) (temperature : Q) (max_tokens : Z) (top_p : Q) (stream : bool) :
  (∀ k, (perf_counter env k <= perf_counter env (S k))%Q) →
  let m := send_request env messages model temperature max_tokens top_p stream in
  success m = true →
  (∃ k, client_e2e_latency m
        = ((perf_counter env (S k) - perf_counter env 0%nat) * 1000)%Q)
  ∧ (0 <= client_e2e_latency m)%Q
  ∧ (stream = true →
     ∀ response,
       reply env messages model temperature max_tokens top_p stream
         = PostResponse response →
       delivered (events env response) ≠ [] →
       client_ttft m
         = Some ((perf_counter env 1%nat - perf_counter env 0%nat) * 1000)%Q
       ∧ (0 <= (perf_counter env 1%nat - perf_counter env 0%nat) * 1000)%Q).
Proof.
  intros Hmono m Hok.
  destruct (send_request_success_e2e env messages model temperature max_tokens
              top_p stream Hok) as [k Hk].
  fold m in Hk. split; [by exists k|]. split.
  { rewrite Hk. apply elapsed_ms_nonneg, clock_from_zero, Hmono. }
  intros -> response Hr Htok.
  split; [|apply elapsed_ms_nonneg, Hmono].
  destruct (send_request_streamed_success env messages model temperature
              max_tokens top_p Hok) as (response' & Hr' & _ & _ & Hm).
  assert (response' = response) as -> by congruence.
  subst m. rewrite Hm.
  set (st := state_after _ _ _ _ _).
  destruct (stream_epilogue_timing (perf_counter env) (perf_counter env 0%nat) st)
    as (_ & _ & _ & _ & Ht & _).
  cbn [client_ttft set_success]. rewrite Ht. subst st.
  by destruct (delivered (events env response)).
Qed.

Lemma success_latencies_witness :
  (∀ k, (sample_clock k <= sample_clock (S k))%Q)
  ∧ success streamed_record = true
  ∧ (0 <= client_e2e_latency streamed_record)%Q
  ∧ client_ttft streamed_record = Some ((sample_clock 1 - sample_clock 0) * 1000)%Q.
Proof.
  split; [exact sample_clock_monotone|]. split; [reflexivity|].
  destruct (success_latencies_set_and_nonnegative
              (env_with four_tokens (Raised "not json")) (PyList []) "auto"
              0.7 100 1 true sample_clock_monotone eq_refl) as (_ & He & Ht).
  split; [exact He|].
  refine (proj1 (Ht eq_refl _ eq_refl _)). discriminate.
Defined.

(** *** Failed requests *)

(** A chunk that parses but has no choices fails the request, after the
    first delta has left its time on the record. *)
Example malformed_chunk_fails_the_request :
  success malformed_stream_record = false
  ∧ error_message malformed_stream_record = "list index out of range"
  ∧ generated_text malformed_stream_record = ""
  ∧ client_ttft malformed_stream_record
    = Some ((sample_clock 1 - sample_clock 0) * 1000)%Q.
Proof. repeat split. Qed.

(** So does a content that is not text; its arrival is still timed. *)
Example number_content_fails_the_request :
  let m := send_request (env_with [Returned "data: number"] (Raised "not json"))
             (PyList []) "auto" 0.7 100 1 true in
  success m = false
  ∧ error_message m
    = "can only concatenate str (not " +:+ dquote +:+ "int" +:+ dquote +:+ ") to str"
  ∧ client_ttft m = Some ((sample_clock 1 - sample_clock 0) * 1000)%Q.
Proof. repeat split. Qed.

(** C2, as stated, fails: when the stream raises after the first content
    delta, the failed record still carries the time to first token. *)
Lemma failed_stream_keeps_ttft :
  ¬ (success broken_stream_record = false → client_ttft broken_stream_record = None).
Proof. intros H. specialize (H eq_refl). discriminate H. Qed.

(** C2, amended. On a failed record the time per output token, the
    inter-token latency, the gap list, the generated text and every
    server-side field are unset; for a streamed request the end-to-end
    latency is still at its default 0.0. The time to first token is unset
    too, except when the reply had status 200, the request was streamed
    and a content delta had arrived when the exception was raised: the
    record then keeps the time elapsed at the first delta. *)
Theorem failed_record_timing (env : client_env) (messages : pyval) (model : string)
    (temperature : Q) (max_tokens : Z) (top_p : Q) (stream : bool) :
  let m := send_request env messages model temperature max_tokens top_p stream in
  success m = false →
  (client_tpot m = None ∧ client_itl m = None ∧ client_itl_list m = []
   ∧ generated_text m = "")
  ∧ (server_queue_time m = None ∧ server_prefill_time m = None
     ∧ server_decode_time m = None ∧ server_inference_time m = None
     ∧ server_e2e_time m = None ∧ server_ttft m = None)
  ∧ (stream = true → client_e2e_latency m = 0%Q)
  ∧ client_ttft m =
      match reply env messages model temperature max_tokens top_p stream with
      | PostResponse response =>
          if stream && (status response =? 200) then
            match delivered (events env response) with
            | [] => None
            | _ :: _ =>
                Some ((perf_counter env 1%nat - perf_counter env 0%nat) * 1000)%Q
            end
          else None
      | PostRaised _ => None
      end.
Proof.
  cbv zeta. rewrite send_request_unfold.
  destruct (reply _ _ _ _ _ _ _) as [err|response]; [by destruct stream|].
  destruct (status response =? 200); simpl negb; cbv iota.
  2:{ rewrite andb_false_r. by destruct (text response). }
  rewrite andb_true_r. destruct stream.
  - rewrite process_streaming_spec. cbv zeta. fold (events env response).
    destruct (stream_error (events env response)) as [err|].
    + by destruct (delivered (events env response)).
    + destruct (stream_epilogue _ _ _). discriminate.
  - destruct (json response) as [[|[s|err]]|err]; simpl; try discriminate; done.
Qed.

Lemma failed_record_timing_witness :
  success broken_stream_record = false
  ∧ client_itl_list broken_stream_record = []
  ∧ client_e2e_latency broken_stream_record = 0%Q
  ∧ client_ttft broken_stream_record
    = Some ((sample_clock 1 - sample_clock 0) * 1000)%Q.
Proof.
  split; [reflexivity|].
  destruct (failed_record_timing
              (env_with broken_stream (Raised "not json"))
              (PyList []) "auto" 0.7 100 1 true eq_refl)
    as ((_ & _ & Hl & _) & _ & He & Ht).
  split; [exact Hl|]. split; [exact (He eq_refl)|exact Ht].
Defined.

(** ** Enrichment *)

Section EnrichmentFacts.
Variable parse_float : string → option Q.
Variable parse_int : string → option Z.

Local Abbreviation span_result := (span_result parse_float parse_int).

Lemma dict_truthy_empty : dict_truthy ∅ = false.
Proof. unfold dict_truthy. by rewrite map_to_list_empty. Qed.

Lemma dict_truthy_insert (k : string) (v : pyval) (d : gmap string pyval) :
  dict_truthy (<[k := v]> d) = true.
Proof.
  unfold dict_truthy. destruct (map_to_list (<[k := v]> d)) eqn:E; [|done].
  apply map_to_list_empty_iff in E. by apply insert_non_empty in E.
Qed.

Lemma span_metrics_truthy (tgs : gmap string pyval) :
  dict_truthy (span_metrics parse_float parse_int tgs) = true.
Proof. apply dict_truthy_insert. Qed.

Lemma scan_spans_spec (spans : list span) :
  scan_spans parse_float parse_int spans
    = span_result <$> head (filter (λ sp, operationName sp = Some "llm_request") spans).
Proof.
  induction spans as [|sp spans IH]; [done|].
  simpl. rewrite filter_cons. case_bool_decide as Hn.
  - rewrite decide_True by done. simpl. unfold span_result.
    by destruct (tags_dict (tags sp) ∅).
  - by rewrite decide_False by done.
Qed.

Lemma scan_traces_spec (data : list (list span)) :
  scan_traces parse_float parse_int data = span_result <$> first_llm_span data.
Proof.
  unfold first_llm_span. induction data as [|trace data IH]; [done|].
  simpl. rewrite scan_spans_spec, filter_app, IH.
  by destruct (filter _ trace).
Qed.

(** The tag dictionary of a span, tag by tag. *)
Lemma tags_dict_from (ts : list raw_tag) : ∀ acc,
  match tags_dict ts acc with
  | Some d =>
      Forall well_formed_tag ts
      ∧ ∀ k, d !! k = match last_value k ts with Some v => Some v | None => acc !! k end
  | None => ¬ Forall well_formed_tag ts
  end.
Proof.
  induction ts as [|t ts IH]; intros acc; [done|].
  cbn [tags_dict last_value].
  destruct (tag_key t) as [key|] eqn:Hk.
  2:{ intros H. apply Forall_cons in H as [[[? ?] _] _]. congruence. }
  destruct (tag_value t) as [v|] eqn:Hv.
  2:{ intros H. apply Forall_cons in H as [[_ [? ?]] _]. congruence. }
  specialize (IH (<[key := v]> acc)).
  destruct (tags_dict ts (<[key := v]> acc)) as [d|].
  - destruct IH as [Hwf Hd]. split.
    + apply Forall_cons. split; [|done]. split; [by rewrite Hk|by rewrite Hv].
    + intros k. rewrite Hd. destruct (last_value k ts); [done|].
      case_bool_decide as E.
      * injection E as ->. by rewrite lookup_insert_eq.
      * rewrite lookup_insert_ne; [done|congruence].
  - intros H. apply Forall_cons in H as [_ H]. by apply IH.
Qed.

(** The extraction of a span whose tags are well formed binds each key to
    the last tag that carries it; that of another span is empty. *)
Lemma tags_dict_well_formed (ts : list raw_tag) :
  Forall well_formed_tag ts →
  ∃ tgs, tags_dict ts ∅ = Some tgs ∧ ∀ k, tgs !! k = last_value k ts.
Proof.
  intros Hwf. pose proof (tags_dict_from ts ∅) as H.
  destruct (tags_dict ts ∅) as [tgs|]; [|done].
  exists tgs. split; [done|]. intros k. destruct H as [_ H]. rewrite H.
  destruct (last_value k ts); [done|apply lookup_empty].
Qed.

Lemma span_result_malformed (sp : span) :
  ¬ Forall well_formed_tag (tags sp) → span_result sp = ∅.
Proof.
  intros Hwf. unfold span_result. pose proof (tags_dict_from (tags sp) ∅) as H.
  destruct (tags_dict (tags sp) ∅); [|done]. by destruct H.
Qed.

(** The conversions of the code, on the value of a tag. *)
Lemma safe_float_ms_tag (o : option pyval) :
  _safe_float_ms parse_float (default PyNone o) = tag_ms parse_float o.
Proof.
  destruct o as [[|[]|z|q|s|l|d]|]; unfold tag_ms; cbn [default id from_option
    _safe_float_ms py_float tag_number fmap option_fmap option_map]; try done;
    try (by destruct (_ <? _)); try (by destruct (parse_float _)).
Qed.

Lemma safe_float_tag (o : option pyval) :
  _safe_float parse_float (default PyNone o) = tag_number parse_float o.
Proof. by destruct o as [[|[]|z|q|s|l|d]|]. Qed.

Lemma safe_int_tag (o : option pyval) :
  _safe_int parse_int (default PyNone o) = tag_integer parse_int o.
Proof. by destruct o as [[|[]|z|q|s|l|d]|]. Qed.

Variable now : nat → Q.
Variable jaeger : nat → get_outcome.

Lemma poll_once_spec (k : nat) :
  poll_once parse_float parse_int jaeger k
    = from_option span_result ∅ (found_span (jaeger k)).
Proof.
  unfold poll_once, found_span, _extract_server_metrics_from_trace.
  destruct (jaeger k) as [|status_code [trace_data|]]; try done.
  - destruct (status_code =? 200); [|done].
    simpl. rewrite scan_traces_spec. by destruct (first_llm_span trace_data).
  - by destruct (status_code =? 200).
Qed.

Lemma poll_once_not_found (k : nat) :
  found_span (jaeger k) = None →
  dict_truthy (poll_once parse_float parse_int jaeger k) = false.
Proof. intros H. rewrite poll_once_spec, H. apply dict_truthy_empty. Qed.

Lemma poll_once_found (k : nat) (sp : span) (tgs : gmap string pyval) :
  found_span (jaeger k) = Some sp →
  tags_dict (tags sp) ∅ = Some tgs →
  poll_once parse_float parse_int jaeger k = span_metrics parse_float parse_int tgs.
Proof. intros H Ht. rewrite poll_once_spec, H. simpl. unfold span_result. by rewrite Ht. Qed.

Lemma poll_once_truthy_inv (k : nat) :
  dict_truthy (poll_once parse_float parse_int jaeger k) = true →
  ∃ sp tgs, found_span (jaeger k) = Some sp ∧ tags_dict (tags sp) ∅ = Some tgs.
Proof.
  rewrite poll_once_spec. destruct (found_span (jaeger k)) as [sp|]; simpl.
  - unfold span_result. destruct (tags_dict (tags sp) ∅) as [tgs|] eqn:E.
    + intros _. by exists sp, tgs.
    + by rewrite dict_truthy_empty.
  - by rewrite dict_truthy_empty.
Qed.

(** Polls that come in time and bring nothing are skipped. *)
Lemma poll_loop_skip (timeout : Q) (n : nat) : ∀ fuel k,
  (∀ j, (k ≤ j < k + n)%nat →
        (now (S j) - now 0%nat < timeout)%Q
        ∧ dict_truthy (poll_once parse_float parse_int jaeger j) = false) →
  poll_loop parse_float parse_int now jaeger timeout (n + fuel) k
    = poll_loop parse_float parse_int now jaeger timeout fuel (k + n).
Proof.
  induction n as [|n IH]; intros fuel k H.
  - by rewrite Nat.add_0_r.
  - destruct (H k ltac:(lia)) as [Ht Hf]. simpl.
    destruct (Qlt_le_dec _ _) as [_|Hle]; [|by apply Qlt_not_le in Ht].
    rewrite Hf, IH; [f_equal; lia|].
    intros j Hj. apply H. lia.
Qed.

Lemma poll_loop_timeout (timeout : Q) (fuel k : nat) :
  (timeout <= now (S k) - now 0%nat)%Q →
  poll_loop parse_float parse_int now jaeger timeout (S fuel) k = Some ∅.
Proof.
  intros H. simpl. destruct (Qlt_le_dec _ _) as [Hlt|_]; [|done].
  by apply Qlt_not_le in Hlt.
Qed.

Lemma poll_loop_hit (timeout : Q) (fuel k : nat) :
  (now (S k) - now 0%nat < timeout)%Q →
  dict_truthy (poll_once parse_float parse_int jaeger k) = true →
  poll_loop parse_float parse_int now jaeger timeout (S fuel) k
    = Some (poll_once parse_float parse_int jaeger k).
Proof.
  intros Ht Hd. simpl. destruct (Qlt_le_dec _ _) as [_|Hle].
  - by rewrite Hd.
  - by apply Qlt_not_le in Ht.
Qed.

(** Whatever the loop ends with is empty or what one of the polls brought. *)
Lemma poll_loop_result (timeout : Q) (fuel : nat) : ∀ k d,
  poll_loop parse_float parse_int now jaeger timeout fuel k = Some d →
  dict_truthy d = true →
  ∃ j, d = poll_once parse_float parse_int jaeger j.
Proof.
  induction fuel as [|fuel IH]; intros k d; [done|].
  simpl. destruct (Qlt_le_dec _ _) as [_|_].
  - destruct (dict_truthy (poll_once _ _ _ k)) eqn:E.
    + intros [= <-] _. by exists k.
    + apply IH.
  - intros [= <-]. by rewrite dict_truthy_empty.
Qed.

(** The loop ends once the clock has passed the timeout, and more fuel
    does not change what it ends with. *)
Lemma poll_loop_total (timeout : Q) (n : nat) : ∀ k,
  (timeout <= now (S (k + n)) - now 0%nat)%Q →
  ∃ d, poll_loop parse_float parse_int now jaeger timeout (S n) k = Some d.
Proof.
  induction n as [|n IH]; intros k H.
  - rewrite Nat.add_0_r in H. exists ∅. by apply poll_loop_timeout.
  - cbn [poll_loop]. destruct (Qlt_le_dec _ _) as [_|_]; [|by exists ∅].
    destruct (dict_truthy _); [by eexists|].
    apply IH. by replace (S k + n)%nat with (k + S n)%nat by lia.
Qed.

Lemma poll_loop_more_fuel (timeout : Q) (fuel extra : nat) : ∀ k d,
  poll_loop parse_float parse_int now jaeger timeout fuel k = Some d →
  poll_loop parse_float parse_int now jaeger timeout (fuel + extra) k = Some d.
Proof.
  induction fuel as [|fuel IH]; intros k d; [done|].
  cbn [poll_loop Nat.add]. destruct (Qlt_le_dec _ _) as [_|_]; [|done].
  destruct (dict_truthy _); [done|]. apply IH.
Qed.

Lemma as_float_opt_float (o : option Q) : as_float (opt_float o) = o.
Proof. by destruct o. Qed.

Lemma as_int_opt_int (o : option Z) : as_int (opt_int o) = o.
Proof. by destruct o. Qed.

Ltac lookup_key :=
  unfold dict_get_or_none at 1, span_metrics;
  repeat (rewrite lookup_insert_ne by discriminate);
  rewrite lookup_insert_eq; simpl;
  rewrite ?as_float_opt_float, ?as_int_opt_int.

(** The twelve assignments after the loop, for the dictionary of a span. *)
Lemma apply_span_metrics (tgs : gmap string pyval) (metrics : RequestMetrics) :
  let get := dict_get_or_none tgs in
  let m := apply_server_data (span_metrics parse_float parse_int tgs) metrics in
  (server_queue_time m = _safe_float_ms parse_float (get "gen_ai.latency.time_in_queue")
   ∧ server_prefill_time m
     = _safe_float_ms parse_float (get "gen_ai.latency.time_in_model_prefill")
   ∧ server_decode_time m
     = _safe_float_ms parse_float (get "gen_ai.latency.time_in_model_decode")
   ∧ server_inference_time m
     = _safe_float_ms parse_float (get "gen_ai.latency.time_in_model_inference")
   ∧ server_e2e_time m = _safe_float_ms parse_float (get "gen_ai.latency.e2e")
   ∧ server_ttft m
     = _safe_float_ms parse_float (get "gen_ai.latency.time_to_first_token"))
  ∧ (prompt_tokens m = _safe_int parse_int (get "gen_ai.usage.prompt_tokens")
     ∧ completion_tokens m
       = _safe_int parse_int (get "gen_ai.usage.completion_tokens"))
  ∧ (model_name m = get "gen_ai.response.model"
     ∧ temperature m = _safe_float parse_float (get "gen_ai.request.temperature")
     ∧ top_p m = _safe_float parse_float (get "gen_ai.request.top_p")
     ∧ max_tokens m = _safe_int parse_int (get "gen_ai.request.max_tokens")).
Proof.
  cbv zeta. unfold apply_server_data.
  cbn [server_queue_time server_prefill_time server_decode_time
       server_inference_time server_e2e_time server_ttft prompt_tokens
       completion_tokens model_name temperature top_p max_tokens
       set_server_queue_time set_server_prefill_time set_server_decode_time
       set_server_inference_time set_server_e2e_time set_server_ttft
       set_prompt_tokens set_completion_tokens set_model_name set_temperature
       set_top_p set_max_tokens].
  repeat split; by lookup_key.
Qed.

(** The fields the enrichment leaves alone. *)
Lemma apply_server_data_frame (d : gmap string pyval) (metrics : RequestMetrics) :
  let m := apply_server_data d metrics in
  request_id m = request_id metrics ∧ trace_id m = trace_id metrics
  ∧ success m = success metrics ∧ error_message m = error_message metrics
  ∧ send_time m = send_time metrics
  ∧ client_e2e_latency m = client_e2e_latency metrics
  ∧ client_ttft m = client_ttft metrics ∧ client_tpot m = client_tpot metrics
  ∧ client_itl m = client_itl metrics
  ∧ generated_text m = generated_text metrics
  ∧ client_itl_list m = client_itl_list metrics.
Proof. repeat split. Qed.

(** The first poll that brings a span, if it comes in time, ends the call. *)
Lemma enrich_found (fuel : nat) (metrics : RequestMetrics) (timeout : Q)
    (k : nat) (sp : span) (tgs : gmap string pyval) :
  (∀ j, (j ≤ k)%nat → (now (S j) - now 0%nat < timeout)%Q) →
  (∀ j, (j < k)%nat → found_span (jaeger j) = None) →
  found_span (jaeger k) = Some sp →
  tags_dict (tags sp) ∅ = Some tgs →
  (k < fuel)%nat →
  enrich_with_server_metrics parse_float parse_int now jaeger fuel metrics timeout
    = Some (true, apply_server_data (span_metrics parse_float parse_int tgs) metrics).
Proof.
  intros Htime Hnone Hsp Htags Hfuel. unfold enrich_with_server_metrics.
  replace fuel with (k + S (fuel - S k))%nat by lia.
  rewrite poll_loop_skip.
  2:{ intros j Hj. split; [apply Htime; lia|]. apply poll_once_not_found, Hnone. lia. }
  rewrite Nat.add_0_l, poll_loop_hit.
  - rewrite (poll_once_found _ _ _ Hsp Htags), span_metrics_truthy. done.
  - apply Htime. lia.
  - rewrite (poll_once_found _ _ _ Hsp Htags). apply span_metrics_truthy.
Qed.

(** The same, when the polls before bring spans that are malformed. *)
Lemma enrich_found_well_formed (fuel : nat) (metrics : RequestMetrics) (timeout : Q)
    (k : nat) (sp : span) (tgs : gmap string pyval) :
  (∀ j, (j ≤ k)%nat → (now (S j) - now 0%nat < timeout)%Q) →
  (∀ j sp', (j < k)%nat → found_span (jaeger j) = Some sp' →
            ¬ Forall well_formed_tag (tags sp')) →
  found_span (jaeger k) = Some sp →
  tags_dict (tags sp) ∅ = Some tgs →
  (k < fuel)%nat →
  enrich_with_server_metrics parse_float parse_int now jaeger fuel metrics timeout
    = Some (true, apply_server_data (span_metrics parse_float parse_int tgs) metrics).
Proof.
  intros Htime Hnone Hsp Htags Hfuel. unfold enrich_with_server_metrics.
  replace fuel with (k + S (fuel - S k))%nat by lia.
  rewrite poll_loop_skip.
  2:{ intros j Hj. split; [apply Htime; lia|]. rewrite poll_once_spec.
      destruct (found_span (jaeger j)) as [sp'|] eqn:E; simpl.
      - rewrite (span_result_malformed sp'); [apply dict_truthy_empty|].
        apply (Hnone j); [lia|done].
      - apply dict_truthy_empty. }
  rewrite Nat.add_0_l, poll_loop_hit.
  - rewrite (poll_once_found _ _ _ Hsp Htags), span_metrics_truthy. done.
  - apply Htime. lia.
  - rewrite (poll_once_found _ _ _ Hsp Htags). apply span_metrics_truthy.
Qed.

(** No poll in time brings a span: the call gives up once the time is out. *)
Lemma enrich_not_found (fuel : nat) (metrics : RequestMetrics) (timeout : Q) (n : nat) :
  (∀ k, (k < n)%nat → (now (S k) - now 0%nat < timeout)%Q) →
  (timeout <= now (S n) - now 0%nat)%Q →
  (∀ k, (k < n)%nat →
        dict_truthy (poll_once parse_float parse_int jaeger k) = false) →
  (n < fuel)%nat →
  enrich_with_server_metrics parse_float parse_int now jaeger fuel metrics timeout
    = Some (false, metrics).
Proof.
  intros Htime Hout Hnone Hfuel. unfold enrich_with_server_metrics.
  replace fuel with (n + S (fuel - S n))%nat by lia.
  rewrite poll_loop_skip.
  2:{ intros j Hj. split; [apply Htime|apply Hnone]; lia. }
  rewrite Nat.add_0_l, poll_loop_timeout by done. by rewrite dict_truthy_empty.
Qed.

(** The call returns, given fuel for the polls that fit before the
    timeout. *)
Lemma enrich_terminates (metrics : RequestMetrics) (timeout : Q) (n : nat) :
  (timeout <= now (S n) - now 0%nat)%Q →
  ∃ b m,
    enrich_with_server_metrics parse_float parse_int now jaeger (S n) metrics timeout
      = Some (b, m).
Proof.
  intros H. unfold enrich_with_server_metrics.
  destruct (poll_loop_total timeout n 0 H) as [d ->].
  destruct (dict_truthy d); simpl; by eexists _, _.
Qed.

(** What a finished call can have done. *)
Lemma enrich_inv (fuel : nat) (metrics : RequestMetrics) (timeout : Q)
    (b : bool) (m' : RequestMetrics) :
  enrich_with_server_metrics parse_float parse_int now jaeger fuel metrics timeout
    = Some (b, m') →
  if b then
    ∃ k sp tgs,
      found_span (jaeger k) = Some sp ∧ tags_dict (tags sp) ∅ = Some tgs
      ∧ m' = apply_server_data (span_metrics parse_float parse_int tgs) metrics
  else m' = metrics.
Proof.
  unfold enrich_with_server_metrics.
  destruct (poll_loop _ _ _ _ _ _ _) as [d|] eqn:E; [|done].
  destruct (dict_truthy d) eqn:Hd; simpl; intros [= <- <-]; [|done].
  destruct (poll_loop_result _ _ _ _ E Hd) as [j ->].
  destruct (poll_once_truthy_inv _ Hd) as (sp & tgs & Hsp & Htags).
  exists j, sp, tgs. by rewrite (poll_once_found _ _ _ Hsp Htags).
Qed.
End EnrichmentFacts.

(** Against the steady clock the first two polls come within ten seconds. *)
Lemma steady_now_in_time (j : nat) : (j ≤ 1)%nat → (steady_now (S j) - steady_now 0 < 10)%Q.
Proof. intros H. destruct j as [|[|j]]; [by vm_compute..|lia]. Qed.

(** *** Enrichment that finds nothing *)

(** C6, as stated, fails: a span named "llm_request" without any attribute
    makes the call return [True]. *)
Lemma enrich_span_without_attributes_returns_true :
  fst <$> enrich_with_server_metrics no_parse no_parse steady_now
            store_with_bare_span 1 streamed_record 10
  = Some true.
Proof.
  rewrite (enrich_found no_parse no_parse steady_now store_with_bare_span 1
             streamed_record 10 0 bare_span ∅).
  - reflexivity.
  - intros j Hj. apply steady_now_in_time. lia.
  - intros j Hj. lia.
  - reflexivity.
  - reflexivity.
  - lia.
Qed.

(** C6, amended. If no poll made before the timeout obtains a trace with a
    span named "llm_request" (the GET raises, the status is not 200, the
    body is not JSON, or no trace has such a span), the call returns
    [False] and the record is unchanged in every field; the caller, which
    uses a timeout of 20 seconds, gets the record back as it was, its
    [success] flag included. Nothing is claimed for a span that is present
    without attributes. *)
Theorem enrich_without_span_returns_false (parse_float : string → option Q)
    (parse_int : string → option Z) (now : nat → Q) (jaeger : nat → get_outcome)
    (fuel : nat) (metrics : RequestMetrics) (timeout : Q) (n : nat) :
  (∀ k, (k < n)%nat → (now (S k) - now 0%nat < timeout)%Q) →
  (timeout <= now (S n) - now 0%nat)%Q →
  (∀ k, (k < n)%nat → found_span (jaeger k) = None) →
  (n < fuel)%nat →
  enrich_with_server_metrics parse_float parse_int now jaeger fuel metrics timeout
    = Some (false, metrics)
  ∧ (timeout = 20%Q →
     _collect_single_server_metrics parse_float parse_int now jaeger fuel metrics
       = Some metrics).
Proof.
  intros Htime Hout Hnone Hfuel.
  assert (enrich_with_server_metrics parse_float parse_int now jaeger fuel metrics
            timeout = Some (false, metrics)) as He.
  { apply (enrich_not_found _ _ _ _ _ _ _ n); try done.
    intros k Hk. by apply poll_once_not_found, Hnone. }
  split; [exact He|].
  intros ->. unfold _collect_single_server_metrics. by rewrite He.
Qed.

Lemma enrich_without_span_witness :
  enrich_with_server_metrics no_parse no_parse slow_now store_without_trace 5
    streamed_record 20 = Some (false, streamed_record)
  ∧ _collect_single_server_metrics no_parse no_parse slow_now store_without_trace 5
      streamed_record = Some streamed_record.
Proof.
  destruct (enrich_without_span_returns_false no_parse no_parse slow_now
              store_without_trace 5 streamed_record 20 1) as [He Hc].
  - intros k Hk. destruct k; [by vm_compute|lia].
  - by vm_compute.
  - done.
  - lia.
  - split; [exact He|exact (Hc eq_refl)].
Defined.

(** *** Enrichment that finds the span *)

Lemma malformed_span_is_malformed : ¬ Forall well_formed_tag (tags malformed_span).
Proof.
  intros H. apply Forall_cons in H as [_ H]. apply Forall_cons in H as [[_ [v Hv]] _].
  discriminate Hv.
Qed.

(** C9, as stated, fails: a span named "llm_request" one of whose tag
    entries has no value makes the extraction raise and return the empty
    dictionary, so the poll that obtains it does not end the call, which
    returns [False] when the time is out. *)
Lemma enrich_span_with_malformed_tag_returns_false :
  found_span (store_with_malformed_span 0) = Some malformed_span
  ∧ operationName malformed_span = Some "llm_request"
  ∧ enrich_with_server_metrics no_parse no_parse slow_now store_with_malformed_span 5
      streamed_record 10
    = Some (false, streamed_record).
Proof.
  split; [reflexivity|]. split; [reflexivity|].
  apply (enrich_not_found no_parse no_parse slow_now store_with_malformed_span 5
           streamed_record 10 1).
  - intros k Hk. destruct k; [by vm_compute|lia].
  - by vm_compute.
  - intros k Hk. rewrite poll_once_spec. simpl.
    rewrite span_result_malformed; [apply dict_truthy_empty|].
    exact malformed_span_is_malformed.
  - lia.
Qed.

(** C9, amended. The call returns [True] at the first poll, made in time,
    that obtains a trace whose first span named "llm_request" has tag
    entries with a key and a value each, whichever of the expected tags
    they are; a poll before it that obtains such a span with a malformed
    tag entry counts for nothing. The call then overwrites the six server
    timings, the two token counts and the four request parameters, and
    leaves the other fields alone. Each of the twelve is what the last tag
    with its key stands for: a latency in seconds times 1000, a number, an
    integer, the model as it is; it is [None] for a missing tag, for [null]
    and for a value that does not parse, so none of the twelve need be set;
    with no tag at all, none is. *)
Theorem enrich_returns_true_on_span (parse_float : string → option Q)
    (parse_int : string → option Z) (now : nat → Q) (jaeger : nat → get_outcome)
    (fuel : nat) (metrics : RequestMetrics) (timeout : Q)
    (k : nat) (sp : span) :
  (∀ j, (j ≤ k)%nat → (now (S j) - now 0%nat < timeout)%Q) →
  (∀ j sp', (j < k)%nat → found_span (jaeger j) = Some sp' →
            ¬ Forall well_formed_tag (tags sp')) →
  found_span (jaeger k) = Some sp →
  Forall well_formed_tag (tags sp) →
  (k < fuel)%nat →
  let tag key := last_value key (tags sp) in
  ∃ m,
    enrich_with_server_metrics parse_float parse_int now jaeger fuel metrics timeout
      = Some (true, m)
    ∧ (server_queue_time m = tag_ms parse_float (tag "gen_ai.latency.time_in_queue")
       ∧ server_prefill_time m
         = tag_ms parse_float (tag "gen_ai.latency.time_in_model_prefill")
       ∧ server_decode_time m
         = tag_ms parse_float (tag "gen_ai.latency.time_in_model_decode")
       ∧ server_inference_time m
         = tag_ms parse_float (tag "gen_ai.latency.time_in_model_inference")
       ∧ server_e2e_time m = tag_ms parse_float (tag "gen_ai.latency.e2e")
       ∧ server_ttft m = tag_ms parse_float (tag "gen_ai.latency.time_to_first_token"))
    ∧ (prompt_tokens m = tag_integer parse_int (tag "gen_ai.usage.prompt_tokens")
       ∧ completion_tokens m
         = tag_integer parse_int (tag "gen_ai.usage.completion_tokens"))
    ∧ (model_name m = default PyNone (tag "gen_ai.response.model")
       ∧ temperature m = tag_number parse_float (tag "gen_ai.request.temperature")
       ∧ top_p m = tag_number parse_float (tag "gen_ai.request.top_p")
       ∧ max_tokens m = tag_integer parse_int (tag "gen_ai.request.max_tokens"))
    ∧ (request_id m = request_id metrics ∧ trace_id m = trace_id metrics
       ∧ success m = success metrics ∧ error_message m = error_message metrics
       ∧ send_time m = send_time metrics
       ∧ client_e2e_latency m = client_e2e_latency metrics
       ∧ client_ttft m = client_ttft metrics ∧ client_tpot m = client_tpot metrics
       ∧ client_itl m = client_itl metrics
       ∧ generated_text m = generated_text metrics
       ∧ client_itl_list m = client_itl_list metrics)
    ∧ (tags sp = [] →
         server_queue_time m = None ∧ server_prefill_time m = None
         ∧ server_decode_time m = None ∧ server_inference_time m = None
         ∧ server_e2e_time m = None ∧ server_ttft m = None
         ∧ prompt_tokens m = None ∧ completion_tokens m = None
         ∧ model_name m = PyNone ∧ temperature m = None ∧ top_p m = None
         ∧ max_tokens m = None).
Proof.
  intros Htime Hnone Hsp Hwf Hfuel tag.
  destruct (tags_dict_well_formed (tags sp) Hwf) as (tgs & Htags & Hlast).
  exists (apply_server_data (span_metrics parse_float parse_int tgs) metrics).
  destruct (apply_span_metrics parse_float parse_int tgs metrics)
    as ((H1 & H2 & H3 & H4 & H5 & H6) & (H7 & H8) & (H9 & H10 & H11 & H12)).
  unfold dict_get_or_none in H1, H2, H3, H4, H5, H6, H7, H8, H9, H10, H11, H12.
  rewrite Hlast in H1, H2, H3, H4, H5, H6, H7, H8, H9, H10, H11, H12.
  rewrite safe_float_ms_tag in H1, H2, H3, H4, H5, H6.
  rewrite safe_int_tag in H7, H8, H12. rewrite safe_float_tag in H10, H11.
  split; [apply (enrich_found_well_formed _ _ _ _ _ _ _ k sp tgs); assumption|].
  split; [exact (conj H1 (conj H2 (conj H3 (conj H4 (conj H5 H6)))))|].
  split; [exact (conj H7 H8)|].
  split; [exact (conj H9 (conj H10 (conj H11 H12)))|].
  split; [apply apply_server_data_frame|].
  intros Hempty.
  rewrite H1, H2, H3, H4, H5, H6, H7, H8, H9, H10, H11, H12, Hempty.
  repeat split.
Qed.

Lemma enrich_returns_true_witness :
  ∃ m,
    enrich_with_server_metrics no_parse no_parse steady_now store_with_late_repair 5
      streamed_record 10 = Some (true, m)
    ∧ server_queue_time m = Some (0.012 * 1000)%Q
    ∧ server_prefill_time m = None
    ∧ prompt_tokens m = Some 17
    ∧ model_name m = PyStr "qwen".
Proof.
  destruct (enrich_returns_true_on_span no_parse no_parse steady_now
              store_with_late_repair 5 streamed_record 10 1 timed_span)
    as (m & He & (Hq & Hp & _) & (Ht & _) & (Hm & _) & _).
  - exact steady_now_in_time.
  - intros j sp' Hj Hsp. destruct j; [|lia].
    injection Hsp as <-. exact malformed_span_is_malformed.
  - reflexivity.
  - repeat constructor; by eexists.
  - lia.
  - exists m. exact (conj He (conj Hq (conj Hp (conj Ht Hm)))).
Defined.

(** *** Where the request parameters and the token counts come from *)



(** * Further properties *)

(** ** The request and its record *)


(** X2. A request succeeds exactly when the POST returns, the status is
    200 and the processing of the reply raises nothing. *)
Theorem send_request_success_iff (env : client_env) (messages : pyval) (model : string)
    (temperature0 : Q) (max_tokens0 : Z) (top_p0 : Q) (stream : bool) :
  success (send_request env messages model temperature0 max_tokens0 top_p0 stream) =
    match reply env messages model temperature0 max_tokens0 top_p0 stream with
    | PostRaised _ => false
    | PostResponse response =>
        (status response =? 200)
        && bool_decide (processing_error env stream response = None)
    end.
Proof.
  rewrite send_request_unfold. unfold processing_error.
  destruct (reply _ _ _ _ _ _ _) as [err|response]; [done|].
  destruct (status response =? 200); simpl negb; cbv iota.
  2:{ by destruct (text response). }
  destruct stream.
  - rewrite process_streaming_spec. cbv zeta. fold (events env response).
    destruct (stream_error (events env response)) as [err|].
    + by destruct (delivered (events env response)).
    + by destruct (stream_epilogue _ _ _).
  - by destruct (json response) as [[|[s|err]]|err].
Qed.

(** X3. The error message of the record: empty on success; otherwise the
    text of the exception, or "HTTP <status>: <body>" for a status other
    than 200, in which case neither the stream nor the body is read. *)
Theorem send_request_error_message (env : client_env) (messages : pyval)
    (model : string) (temperature0 : Q) (max_tokens0 : Z) (top_p0 : Q) (stream : bool) :
  error_message (send_request env messages model temperature0 max_tokens0 top_p0 stream) =
    match reply env messages model temperature0 max_tokens0 top_p0 stream with
    | PostRaised err => err
    | PostResponse response =>
        if status response =? 200 then
          default "" (processing_error env stream response)
        else
          match text response with
          | Returned body => "HTTP " +:+ pretty (status response) +:+ ": " +:+ body
          | Raised err => err
          end
    end.
Proof.
  rewrite send_request_unfold. unfold processing_error.
  destruct (reply _ _ _ _ _ _ _) as [err|response]; [done|].
  destruct (status response =? 200); simpl negb; cbv iota.
  2:{ by destruct (text response). }
  destruct stream.
  - rewrite process_streaming_spec. cbv zeta. fold (events env response).
    destruct (stream_error (events env response)) as [err|]; [done|].
    unfold stream_epilogue.
    destruct (delivered (events env response)) as [|t ts]; [done|].
    simpl. by destruct (map _ _).
  - by destruct (json response) as [[|[s|err]]|err].
Qed.

(** X4. A request that is not streamed and succeeds has only its
    end-to-end latency measured, at the first clock reading after the
    start: no time to first token, no time per output token, no
    inter-token latency and no gaps. *)
Theorem non_streamed_success_has_no_token_timing (env : client_env) (messages : pyval)
    (model : string) (temperature0 : Q) (max_tokens0 : Z) (top_p0 : Q) :
  let m := send_request env messages model temperature0 max_tokens0 top_p0 false in
  success m = true →
  client_ttft m = None ∧ client_tpot m = None ∧ client_itl m = None
  ∧ client_itl_list m = []
  ∧ client_e2e_latency m
    = ((perf_counter env 1%nat - perf_counter env 0%nat) * 1000)%Q.
Proof.
  cbv zeta. rewrite send_request_unfold.
  destruct (reply _ _ _ _ _ _ _) as [err|response]; [done|].
  destruct (status response =? 200); simpl negb; cbv iota.
  2:{ by destruct (text response). }
  by destruct (json response) as [[|[s|err]]|err].
Qed.

Lemma non_streamed_success_witness :
  success plain_record = true
  ∧ client_ttft plain_record = None
  ∧ client_itl_list plain_record = []
  ∧ generated_text plain_record = "Hello".
Proof.
  split; [reflexivity|].
  destruct (non_streamed_success_has_no_token_timing
              (env_with [] (Returned (FirstChoice (Returned "Hello"))))
              (PyList []) "auto" 0.7 100 1 eq_refl) as (Ht & _ & _ & Hl & _).
  split; [exact Ht|]. split; [exact Hl|reflexivity].
Defined.

(** ** The stream *)

Section StreamFacts.
Variable clock : nat → Q.
Variable loads : string → option pyval.
Variable start_time : Q.



Lemma delivered_stop (evs1 evs2 : list stream_event) (ev : stream_event) :
  match ev with EvDone | EvRaise _ | EvNonText _ => True | _ => False end →
  delivered (evs1 ++ ev :: evs2) = delivered (evs1 ++ [ev])
  ∧ stream_error (evs1 ++ ev :: evs2) = stream_error (evs1 ++ [ev]).
Proof.
  intros Hev. induction evs1 as [|e evs1 [IHd IHe]].
  - by destruct ev.
  - destruct e; simpl; by rewrite ?IHd, ?IHe.
Qed.


(** X6. Nothing after the line "data: [DONE]" is read: the lines that
    follow it, whatever they are, change neither the record nor the
    outcome. *)
Theorem lines_after_done_are_ignored (items1 rest : list (outcome string))
    (decoded : string) (metrics : RequestMetrics) (tick : nat) :
  strip decoded = "data: [DONE]" →
  _process_streaming_response clock loads start_time
      (items1 ++ Returned decoded :: rest) metrics tick
  = _process_streaming_response clock loads start_time
      (items1 ++ [Returned decoded]) metrics tick.
Proof.
  intros H. rewrite !process_streaming_spec. cbv zeta.
  rewrite !map_app. cbn [map].
  assert (chunk loads (Returned decoded) = EvDone) as ->.
  { unfold chunk. by rewrite H. }
  by destruct (delivered_stop (map (chunk loads) items1) (map (chunk loads) rest)
                 EvDone I) as [-> ->].
Qed.
End StreamFacts.


Lemma lines_after_done_witness :
  strip "data: [DONE]  " = "data: [DONE]"
  ∧ _process_streaming_response sample_clock sample_loads 0
      ([Returned "data: text:Hel"] ++ Returned "data: [DONE]  " :: [Returned "data: text:lo"])
      (fresh_metrics (env_with [] (Raised "not json"))) 1
    = _process_streaming_response sample_clock sample_loads 0
        ([Returned "data: text:Hel"] ++ [Returned "data: [DONE]  "])
        (fresh_metrics (env_with [] (Raised "not json"))) 1.
Proof.
  split; [reflexivity|].
  exact (lines_after_done_are_ignored sample_clock sample_loads 0
           [Returned "data: text:Hel"] [Returned "data: text:lo"] "data: [DONE]  "
           (fresh_metrics (env_with [] (Raised "not json"))) 1 eq_refl).
Defined.

(** White space that is not ASCII is stripped as well: behind a no-break
    space the line "data: [DONE]" still ends the stream, and is not a line
    that is passed over. *)
Example done_behind_a_no_break_space :
  strip (nbsp +:+ "data: [DONE]" +:+ ideographic_space) = "data: [DONE]"
  ∧ chunk sample_loads (Returned (nbsp +:+ "data: [DONE]")) = EvDone
  ∧ ¬ passed_over sample_loads (nbsp +:+ "data: [DONE]").
Proof.
  split; [reflexivity|]. split; [reflexivity|].
  intros [H | (_ & H & _)]; [discriminate H|]. by apply H.
Qed.

(** ** The record of a streamed request that completed *)

Lemma gaps_nonneg (clock : nat → Q) (a k : nat) :
  (∀ j, (clock j <= clock (S j))%Q) →
  Forall (λ g, (0 <= g)%Q) (map (gap clock) (seq a k)).
Proof.
  intros Hmono. apply Forall_map, Forall_forall. intros j _.
  unfold gap. unfold Qminus. rewrite <- Qle_minus_iff. apply Hmono.
Qed.

(** The fields of a streamed record that succeeded, in terms of the content
    deltas delivered and of the clock. *)
Lemma streamed_success_fields (env : client_env) (messages : pyval) (model : string)
    (temperature0 : Q) (max_tokens0 : Z) (top_p0 : Q) (response : http_response) :
  let m := send_request env messages model temperature0 max_tokens0 top_p0 true in
  let tokens := delivered (events env response) in
  success m = true →
  reply env messages model temperature0 max_tokens0 top_p0 true = PostResponse response →
  generated_text m = fold_left String.app tokens ""
  ∧ client_itl_list m = map (gap (perf_counter env)) (seq 1 (length tokens - 1))
  ∧ client_ttft m
    = match tokens with
      | [] => None
      | _ :: _ => Some ((perf_counter env 1%nat - perf_counter env 0%nat) * 1000)%Q
      end
  ∧ client_e2e_latency m
    = ((perf_counter env (S (length tokens)) - perf_counter env 0%nat) * 1000)%Q.
Proof.
  intros m tokens Hok Hr.
  destruct (send_request_streamed_success env messages model temperature0
              max_tokens0 top_p0 Hok) as (response' & Hr' & _ & _ & Hm).
  assert (response' = response) as -> by congruence.
  subst m. rewrite Hm. fold tokens.
  unfold stream_epilogue. destruct tokens as [|t ts]; [done|].
  cbn -[fold_left seq length Nat.sub]. destruct (map _ _) eqn:E; cbn -[fold_left seq length Nat.sub];
    rewrite <- ?E; repeat split.
Qed.

(** X7. The generated text of a streamed record that succeeded is the
    concatenation, in order, of the contents delivered, and [n] contents
    leave [n - 1] gaps in the gap list. *)
Theorem streamed_text_and_gap_count (env : client_env) (messages : pyval)
    (model : string) (temperature0 : Q) (max_tokens0 : Z) (top_p0 : Q)
    (response : http_response) :
  let m := send_request env messages model temperature0 max_tokens0 top_p0 true in
  let tokens := delivered (events env response) in
  success m = true →
  reply env messages model temperature0 max_tokens0 top_p0 true = PostResponse response →
  generated_text m = fold_left String.app tokens ""
  ∧ length (client_itl_list m) = (length tokens - 1)%nat.
Proof.
  intros m tokens Hok Hr.
  destruct (streamed_success_fields env messages model temperature0 max_tokens0
              top_p0 response Hok Hr) as (Hg & Hl & _).
  split; [exact Hg|]. fold m in Hl. rewrite Hl.
  by rewrite length_map, length_seq.
Qed.

Lemma streamed_text_and_gap_count_witness :
  success streamed_record = true
  ∧ generated_text streamed_record
    = fold_left String.app ["Hel"; "lo"; ", wor"; "ld"] ""
  ∧ length (client_itl_list streamed_record) = 3%nat.
Proof.
  split; [reflexivity|].
  exact (streamed_text_and_gap_count (env_with four_tokens (Raised "not json"))
           (PyList []) "auto" 0.7 100 1
           (mkResponse 200 (Returned "") four_tokens (Raised "not json"))
           eq_refl eq_refl).
Defined.

Lemma clock_monotone (clock : nat → Q) :
  (∀ k, (clock k <= clock (S k))%Q) → ∀ a n, (clock a <= clock (a + n)%nat)%Q.
Proof.
  intros Hmono a n. induction n as [|n IH].
  - rewrite Nat.add_0_r. apply Qle_refl.
  - replace (a + S n)%nat with (S (a + n)) by lia.
    eapply Qle_trans; [exact IH|apply Hmono].
Qed.

Lemma py_sum_nonneg (l : list Q) : Forall (λ g, (0 <= g)%Q) l → (0 <= py_sum l)%Q.
Proof.
  intros H. unfold py_sum.
  assert (∀ acc, (0 <= acc)%Q → (0 <= fold_left Qplus l acc)%Q) as Hacc.
  { induction H as [|g l Hg _ IH]; intros acc Hacc; [done|].
    cbn [fold_left]. apply IH.
    replace 0%Q with (0 + 0)%Q by reflexivity. by apply Qplus_le_compat. }
  apply Hacc, Qle_refl.
Qed.

(** X8. With a monotonic [perf_counter], the timings of a streamed record
    that succeeded are ordered: no gap is negative, the time to first
    token, when there is one, is not negative and not more than the
    end-to-end latency, and the time per output token, when there is one,
    is not negative. *)
Theorem streamed_timings_are_ordered (env : client_env) (messages : pyval)
    (model : string) (temperature0 : Q) (max_tokens0 : Z) (top_p0 : Q)
    (response : http_response) :
  let m := send_request env messages model temperature0 max_tokens0 top_p0 true in
  (∀ k, (perf_counter env k <= perf_counter env (S k))%Q) →
  success m = true →
  reply env messages model temperature0 max_tokens0 top_p0 true = PostResponse response →
  Forall (λ g, (0 <= g)%Q) (client_itl_list m)
  ∧ (∀ ttft, client_ttft m = Some ttft →
       (0 <= ttft)%Q ∧ (ttft <= client_e2e_latency m)%Q)
  ∧ (∀ tpot, client_tpot m = Some tpot → (0 <= tpot)%Q).
Proof.
  intros m Hmono Hok Hr.
  destruct (streamed_success_fields env messages model temperature0 max_tokens0
              top_p0 response Hok Hr) as (_ & Hl & Ht & He).
  destruct (streamed_tpot_of_gap_list env messages model temperature0 max_tokens0
              top_p0 Hok) as [_ Hp].
  fold m in Hl, Ht, He, Hp.
  assert (Forall (λ g, (0 <= g)%Q) (client_itl_list m)) as Hgaps.
  { rewrite Hl. by apply gaps_nonneg. }
  split; [exact Hgaps|]. split.
  - intros ttft Httft. rewrite Ht in Httft. rewrite He.
    destruct (delivered (events env response)) as [|t ts]; [discriminate|].
    injection Httft as <-. split.
    + apply elapsed_ms_nonneg, Hmono.
    + apply Qmult_le_compat_r; [|done].
      unfold Qminus. apply Qplus_le_compat; [|apply Qle_refl].
      apply (clock_monotone _ Hmono 1 (length (t :: ts))).
  - intros tpot Htpot. rewrite Hp in Htpot.
    destruct (client_itl_list m) as [|g gs] eqn:E; [discriminate|].
    injection Htpot as <-. unfold py_mean.
    apply Qmult_le_0_compat; [|done].
    apply Qle_shift_div_l; [by vm_compute|]. rewrite Qmult_0_l.
    by apply py_sum_nonneg.
Qed.

Lemma streamed_timings_witness :
  Forall (λ g, (0 <= g)%Q) (client_itl_list streamed_record)
  ∧ (∀ ttft, client_ttft streamed_record = Some ttft →
       (0 <= ttft)%Q ∧ (ttft <= client_e2e_latency streamed_record)%Q)
  ∧ (∀ tpot, client_tpot streamed_record = Some tpot → (0 <= tpot)%Q).
Proof.
  exact (streamed_timings_are_ordered (env_with four_tokens (Raised "not json"))
           (PyList []) "auto" 0.7 100 1
           (mkResponse 200 (Returned "") four_tokens (Raised "not json"))
           sample_clock_monotone eq_refl eq_refl).
Defined.

(** ** More on the summary *)

Section SummaryMore.
Variable np_mean : list Q → Q.
Variable np_median : list Q → Q.
Variable np_percentile : list Q → Q → Q.

Local Abbreviation summary := (calculate_benchmark_summary np_mean np_median np_percentile).

(** The summary is a function of the number of records and of the records
    that succeeded. *)
Lemma summary_from_successful (results1 results2 : list RequestMetrics)
    (start_time end_time : Q) :
  length results1 = length results2 →
  successful results1 = successful results2 →
  summary results1 start_time end_time = summary results2 start_time end_time.
Proof.
  intros Hl Hs. unfold calculate_benchmark_summary.
  rewrite !count_success_spec. fold (successful results1) (successful results2).
  by rewrite Hl, Hs.
Qed.

(** Every field but the statistics, in closed form. *)
Lemma summary_fields (results : list RequestMetrics) (start_time end_time : Q) :
  let s := summary results start_time end_time in
  let ok := successful results in
  let d := (end_time - start_time)%Q in
  let paced (x : Z) : Q :=
    match ok with
    | [] => 0%Q
    | _ :: _ => if Qlt_le_dec 0 d then (inject_Z x / d)%Q else 0%Q
    end in
  (total_requests s = Z.of_nat (length results)
   ∧ successful_requests s = Z.of_nat (length ok)
   ∧ failed_requests s = Z.of_nat (length results) - Z.of_nat (length ok)
   ∧ benchmark_duration s = d)
  ∧ (total_input_tokens s = token_sum prompt_tokens ok
     ∧ total_output_tokens s = token_sum completion_tokens ok)
  ∧ (request_throughput s = paced (Z.of_nat (length ok))
     ∧ output_token_throughput s = paced (token_sum completion_tokens ok)
     ∧ total_token_throughput s
       = paced (token_sum prompt_tokens ok + token_sum completion_tokens ok))
  ∧ (ttft_values s = omap ttft_of ok
     ∧ tpot_values s = omap client_tpot ok
     ∧ itl_values s = flat_map gaps_ms ok
     ∧ queue_time_values s = omap server_queue_time ok).
Proof.
  cbv zeta. unfold calculate_benchmark_summary, token_sum.
  rewrite count_success_spec, !sum_or_0_spec. fold (successful results).
  destruct (successful results) as [|r rs] eqn:E.
  - repeat split.
  - rewrite collect_spec.
    cbn [total_requests successful_requests failed_requests benchmark_duration
         total_input_tokens total_output_tokens request_throughput
         output_token_throughput total_token_throughput ttft_values tpot_values
         itl_values queue_time_values c_ttft_values c_tpot_values c_itl_values
         c_queue_time_values].
    destruct (Qlt_le_dec 0 (end_time - start_time)); repeat split.
Qed.

Lemma token_sum_Permutation (f : RequestMetrics → option Z)
    (rs1 rs2 : list RequestMetrics) :
  rs1 ≡ₚ rs2 → token_sum f rs1 = token_sum f rs2.
Proof.
  unfold token_sum. induction 1; simpl; lia.
Qed.

(** X9. The order of the records does not matter to the summary: two
    lists that are permutations of each other give the same counts,
    duration, token totals and throughputs, and collections of values that
    are permutations of each other. *)
Theorem summary_ignores_record_order (results1 results2 : list RequestMetrics)
    (start_time end_time : Q) :
  let s1 := summary results1 start_time end_time in
  let s2 := summary results2 start_time end_time in
  results1 ≡ₚ results2 →
  (total_requests s1 = total_requests s2
   ∧ successful_requests s1 = successful_requests s2
   ∧ failed_requests s1 = failed_requests s2
   ∧ benchmark_duration s1 = benchmark_duration s2)
  ∧ (total_input_tokens s1 = total_input_tokens s2
     ∧ total_output_tokens s1 = total_output_tokens s2)
  ∧ (request_throughput s1 = request_throughput s2
     ∧ output_token_throughput s1 = output_token_throughput s2
     ∧ total_token_throughput s1 = total_token_throughput s2)
  ∧ (ttft_values s1 ≡ₚ ttft_values s2 ∧ tpot_values s1 ≡ₚ tpot_values s2
     ∧ itl_values s1 ≡ₚ itl_values s2
     ∧ queue_time_values s1 ≡ₚ queue_time_values s2).
Proof.
  intros s1 s2 Hp.
  destruct (summary_fields results1 start_time end_time)
    as ((A1 & A2 & A3 & A4) & (B1 & B2) & (C1 & C2 & C3) & (D1 & D2 & D3 & D4)).
  destruct (summary_fields results2 start_time end_time)
    as ((A1' & A2' & A3' & A4') & (B1' & B2') & (C1' & C2' & C3') & (D1' & D2' & D3' & D4')).
  fold s1 in A1, A2, A3, A4, B1, B2, C1, C2, C3, D1, D2, D3, D4.
  fold s2 in A1', A2', A3', A4', B1', B2', C1', C2', C3', D1', D2', D3', D4'.
  assert (successful results1 ≡ₚ successful results2) as Hs
    by (unfold successful; by rewrite Hp).
  assert (length results1 = length results2) as Hl by (by rewrite Hp).
  assert (length (successful results1) = length (successful results2)) as Hls
    by (by rewrite Hs).
  pose proof (token_sum_Permutation prompt_tokens _ _ Hs) as Hi.
  pose proof (token_sum_Permutation completion_tokens _ _ Hs) as Ho.
  rewrite A1, A2, A3, A4, B1, B2, C1, C2, C3, D1, D2, D3, D4.
  rewrite A1', A2', A3', A4', B1', B2', C1', C2', C3', D1', D2', D3', D4'.
  rewrite Hl, Hls, Hi, Ho.
  split; [done|]. split; [done|]. split.
  - destruct (successful results1) as [|a l1], (successful results2) as [|b l2];
      try done.
  - split; [by rewrite Hs|]. split; [by rewrite Hs|].
    split; [by apply Permutation_flat_map|by rewrite Hs].
Qed.

(** X10. What a failed record holds does not matter to the summary, only
    that it is there: two lists of the same length with the same
    successful records have the same summary. The counts are consistent:
    neither is negative and they add up to the total. *)
Theorem summary_ignores_failed_records (results1 results2 : list RequestMetrics)
    (start_time end_time : Q) :
  let s1 := summary results1 start_time end_time in
  length results1 = length results2 →
  successful results1 = successful results2 →
  s1 = summary results2 start_time end_time
  ∧ (0 ≤ successful_requests s1 ∧ 0 ≤ failed_requests s1
     ∧ successful_requests s1 + failed_requests s1 = total_requests s1).
Proof.
  intros s1 Hl Hs. split; [by apply summary_from_successful|].
  destruct (summary_fields results1 start_time end_time) as ((A1 & A2 & A3 & _) & _).
  fold s1 in A1, A2, A3. rewrite A1, A2, A3.
  pose proof (length_filter (λ r, success r = true) results1) as Hle.
  fold (successful results1) in Hle. lia.
Qed.

(** X11. Sizes of the collections: at most one TTFT, one TPOT and one queue
    time per successful record, and one ITL value per gap of every
    successful record. *)
Theorem summary_collection_sizes (results : list RequestMetrics)
    (start_time end_time : Q) :
  let s := summary results start_time end_time in
  let ok := successful results in
  (length (ttft_values s) ≤ length ok)%nat
  ∧ (length (tpot_values s) ≤ length ok)%nat
  ∧ (length (queue_time_values s) ≤ length ok)%nat
  ∧ length (itl_values s)
    = foldr Nat.add 0%nat (map (λ r, length (client_itl_list r)) ok).
Proof.
  intros s ok.
  destruct (summary_fields results start_time end_time) as (_ & _ & _ & (D1 & D2 & D3 & D4)).
  fold s ok in D1, D2, D3, D4. rewrite D1, D2, D3, D4.
  assert (∀ (f : RequestMetrics → option Q) rs, (length (omap f rs) ≤ length rs)%nat)
    as Hom.
  { intros f rs. unfold omap. induction rs as [|r rs IH]; [done|].
    simpl. destruct (f r); simpl; lia. }
  repeat split; try apply Hom.
  clear. induction ok as [|r rs IH]; [done|].
  simpl. rewrite length_app, IH.
  unfold gaps_ms. by rewrite length_map.
Qed.
End SummaryMore.

Lemma summary_ignores_record_order_witness :
  [streamed_record; broken_stream_record] ≡ₚ [broken_stream_record; streamed_record]
  ∧ successful_requests
      (calculate_benchmark_summary no_stat no_stat no_percentile
         [streamed_record; broken_stream_record] 0 10)
    = successful_requests
        (calculate_benchmark_summary no_stat no_stat no_percentile
           [broken_stream_record; streamed_record] 0 10).
Proof.
  assert ([streamed_record; broken_stream_record]
            ≡ₚ [broken_stream_record; streamed_record]) as Hp by apply perm_swap.
  split; [exact Hp|].
  exact (proj1 (proj2 (proj1 (summary_ignores_record_order no_stat no_stat no_percentile
                                 _ _ 0 10 Hp)))).
Defined.

Lemma summary_ignores_failed_records_witness :
  calculate_benchmark_summary no_stat no_stat no_percentile
    [streamed_record; broken_stream_record] 0 10
  = calculate_benchmark_summary no_stat no_stat no_percentile
      [streamed_record; malformed_stream_record] 0 10.
Proof.
  exact (proj1 (summary_ignores_failed_records no_stat no_stat no_percentile
                  [streamed_record; broken_stream_record]
                  [streamed_record; malformed_stream_record] 0 10 eq_refl eq_refl)).
Defined.

(** ** More on the trace store *)

Section TraceFacts.
Variable parse_float : string → option Q.
Variable parse_int : string → option Z.

(** X12. Only the first span named "llm_request" counts, in the order
    traces and spans are listed: the extraction returns its dictionary,
    which is empty if one of its tags lacks a key or a value, whatever the
    spans after it hold; without such a span it returns the empty
    dictionary. *)
Theorem extraction_reads_the_first_span (trace_data : list (list span)) :
  _extract_server_metrics_from_trace parse_float parse_int trace_data =
    match first_llm_span trace_data with
    | None => ∅
    | Some sp =>
        match tags_dict (tags sp) ∅ with
        | Some tgs => span_metrics parse_float parse_int tgs
        | None => ∅
        end
    end.
Proof.
  unfold _extract_server_metrics_from_trace. rewrite scan_traces_spec.
  by destruct (first_llm_span trace_data).
Qed.

(** X13. The tag dictionary of a span: it exists exactly when every tag
    has a key and a value, and then a key is bound to the value of the
    last tag that carries it, and to nothing if no tag does. *)
Theorem tags_dict_last_tag_wins (ts : list raw_tag) :
  match tags_dict ts ∅ with
  | Some d => Forall well_formed_tag ts ∧ ∀ k, d !! k = last_value k ts
  | None => ¬ Forall well_formed_tag ts
  end.
Proof.
  pose proof (tags_dict_from ts ∅) as H.
  destruct (tags_dict ts ∅) as [d|]; [|done].
  destruct H as [Hwf Hd]. split; [done|].
  intros k. rewrite Hd, lookup_empty. by destruct (last_value k ts).
Qed.

Variable now : nat → Q.
Variable jaeger : nat → get_outcome.

Lemma get_server_metrics_skip (timeout : Q) (n : nat) : ∀ fuel k,
  (∀ j, (k ≤ j < k + n)%nat →
        (now (S j) - now 0%nat < timeout)%Q ∧ readable_trace (jaeger j) = None) →
  get_server_metrics_loop parse_float parse_int now jaeger timeout (n + fuel) k
    = get_server_metrics_loop parse_float parse_int now jaeger timeout fuel (k + n).
Proof.
  induction n as [|n IH]; intros fuel k H.
  - by rewrite Nat.add_0_r.
  - destruct (H k ltac:(lia)) as [Ht Hf]. cbn [Nat.add get_server_metrics_loop].
    destruct (Qlt_le_dec _ _) as [_|Hle]; [|by apply Qlt_not_le in Ht].
    assert (get_server_metrics_loop parse_float parse_int now jaeger timeout
              (n + fuel) (S k)
            = get_server_metrics_loop parse_float parse_int now jaeger timeout
                fuel (k + S n)) as Hrec.
    { rewrite IH; [f_equal; lia|]. intros j Hj. apply H. lia. }
    unfold readable_trace in Hf.
    destruct (jaeger k) as [|status_code body]; [done|].
    destruct (status_code =? 200); [|done].
    by destruct body.
Qed.

(** X14. [get_server_metrics] ends at the first reply, made in time, with
    status 200 and a JSON body, and returns what the extraction makes of
    it: the empty dictionary when the trace has no span named
    "llm_request" yet. It does not poll again in that case. *)
Theorem get_server_metrics_stops_at_first_reply (fuel : nat) (timeout : Q) (k : nat)
    (trace_data : list (list span)) :
  (∀ j, (j ≤ k)%nat → (now (S j) - now 0%nat < timeout)%Q) →
  (∀ j, (j < k)%nat → readable_trace (jaeger j) = None) →
  readable_trace (jaeger k) = Some trace_data →
  (k < fuel)%nat →
  get_server_metrics parse_float parse_int now jaeger fuel timeout
    = Some (Extracted (_extract_server_metrics_from_trace parse_float parse_int
                         trace_data))
  ∧ (first_llm_span trace_data = None →
     get_server_metrics parse_float parse_int now jaeger fuel timeout
       = Some (Extracted ∅)).
Proof.
  intros Htime Hnone Hk Hfuel.
  assert (get_server_metrics parse_float parse_int now jaeger fuel timeout
          = Some (Extracted (_extract_server_metrics_from_trace parse_float parse_int
                               trace_data))) as He.
  { unfold get_server_metrics.
    replace fuel with (k + S (fuel - S k))%nat by lia.
    rewrite get_server_metrics_skip.
    2:{ intros j Hj. split; [apply Htime|apply Hnone]; lia. }
    rewrite Nat.add_0_l. cbn [get_server_metrics_loop].
    destruct (Qlt_le_dec _ _) as [_|Hle].
    2:{ specialize (Htime k ltac:(lia)). by apply Qlt_not_le in Htime. }
    unfold readable_trace in Hk.
    destruct (jaeger k) as [|status_code body]; [done|].
    destruct (status_code =? 200); [|done]. by subst body. }
  split; [exact He|].
  intros Hspan. rewrite He. unfold _extract_server_metrics_from_trace.
  by rewrite scan_traces_spec, Hspan.
Qed.

(** The dictionary a successful enrichment writes does not depend on the
    record. *)
Lemma enrich_true_any_record (fuel : nat) (metrics : RequestMetrics) (timeout : Q)
    (m' : RequestMetrics) :
  enrich_with_server_metrics parse_float parse_int now jaeger fuel metrics timeout
    = Some (true, m') →
  ∃ d, ∀ m0,
    enrich_with_server_metrics parse_float parse_int now jaeger fuel m0 timeout
      = Some (true, apply_server_data d m0).
Proof.
  unfold enrich_with_server_metrics.
  destruct (poll_loop _ _ _ _ _ _ _) as [d|]; [|done].
  destruct (dict_truthy d); simpl; [|done].
  intros _. by exists d.
Qed.
End TraceFacts.

(** X15. Enrichment does not accumulate: a successful enrichment overwrites
    all twelve server-side fields, so the record it leaves is the same
    whether or not the record had been enriched before, from whatever
    store. *)
Theorem enrichment_overwrites_earlier_enrichment (parse_float : string → option Q)
    (parse_int : string → option Z) (now1 now2 : nat → Q)
    (jaeger1 jaeger2 : nat → get_outcome) (fuel1 fuel2 : nat) (timeout1 timeout2 : Q)
    (metrics m1 m2 : RequestMetrics) (b1 : bool) :
  enrich_with_server_metrics parse_float parse_int now1 jaeger1 fuel1 metrics timeout1
    = Some (b1, m1) →
  enrich_with_server_metrics parse_float parse_int now2 jaeger2 fuel2 m1 timeout2
    = Some (true, m2) →
  enrich_with_server_metrics parse_float parse_int now2 jaeger2 fuel2 metrics timeout2
    = Some (true, m2).
Proof.
  intros H1 H2.
  destruct (enrich_true_any_record _ _ _ _ _ _ _ _ H2) as [d Hd].
  rewrite Hd in H2. injection H2 as <-. rewrite Hd. do 2 f_equal.
  apply enrich_inv in H1. destruct b1; [|by subst].
  by destruct H1 as (k & sp & tgs & _ & _ & ->).
Qed.

Lemma tags_dict_last_tag_wins_witness :
  ∃ d, tags_dict (tags retagged_span) ∅ = Some d
       ∧ d !! "gen_ai.usage.prompt_tokens" = Some (PyInt 21)
       ∧ d !! "gen_ai.request.top_k" = None.
Proof.
  pose proof (tags_dict_last_tag_wins (tags retagged_span)) as H.
  destruct (tags_dict (tags retagged_span) ∅) as [d|] eqn:E; [|discriminate E].
  exists d. destruct H as [_ H]. split; [reflexivity|].
  split; rewrite H; reflexivity.
Defined.

Lemma get_server_metrics_witness :
  get_server_metrics no_parse no_parse steady_now store_with_early_reply 5 10
    = Some (Extracted ∅).
Proof.
  refine (proj2 (get_server_metrics_stops_at_first_reply no_parse no_parse steady_now
                   store_with_early_reply 5 10 1
                   [[mkSpan (Some "GET /v1/chat/completions") []]]
                   steady_now_in_time _ eq_refl _) eq_refl).
  - intros j Hj. destruct j; [reflexivity|lia].
  - lia.
Defined.

Lemma enrichment_overwrites_witness :
  ∃ m1 m2,
    enrich_with_server_metrics no_parse no_parse steady_now store_with_bare_span 5
      streamed_record 10 = Some (true, m1)
    ∧ enrich_with_server_metrics no_parse no_parse steady_now store_with_timed_span 5
        m1 10 = Some (true, m2)
    ∧ enrich_with_server_metrics no_parse no_parse steady_now store_with_timed_span 5
        streamed_record 10 = Some (true, m2).
Proof.
  assert (∀ j, (j ≤ 0)%nat → (steady_now (S j) - steady_now 0 < 10)%Q) as Ht0.
  { intros j Hj. apply steady_now_in_time. lia. }
  assert (∀ j, (j < 0)%nat → found_span (store_with_bare_span j) = None) as Hn0.
  { intros j Hj. lia. }
  assert (∀ j, (j < 1)%nat → found_span (store_with_timed_span j) = None) as Hn1.
  { intros j Hj. destruct j; [reflexivity|lia]. }
  pose proof (enrich_found no_parse no_parse steady_now store_with_bare_span 5
                streamed_record 10 0 bare_span ∅ Ht0 Hn0 eq_refl eq_refl ltac:(lia))
    as H1.
  pose proof (enrich_found no_parse no_parse steady_now store_with_timed_span 5
                (apply_server_data (span_metrics no_parse no_parse ∅) streamed_record)
                10 1 timed_span timed_tags steady_now_in_time Hn1 eq_refl eq_refl
                ltac:(lia)) as H2.
  eexists _, _. split; [exact H1|]. split; [exact H2|].
  exact (enrichment_overwrites_earlier_enrichment _ _ _ _ _ _ _ _ _ _ _ _ _ _ H1 H2).
Defined.

(** ** Completions and the enrichment pass *)

Lemma gather_fold (total : nat) (tasks : list (outcome RequestMetrics)) :
  ∀ (completed : nat) (results : list RequestMetrics) (printed : list progress_line),
    (fold_left (gather_step total) tasks (completed, results, printed)).1.2
      = results ++ omap returned tasks
    ∧ (total ≠ 0%nat →
       (fold_left (gather_step total) tasks (completed, results, printed)).1.1
         = (completed + length tasks)%nat
       ∧ omap reported (fold_left (gather_step total) tasks (completed, results, printed)).2
         = omap reported printed ++ omap raised tasks).
Proof.
  induction tasks as [|coro tasks IH]; intros completed results printed.
  - cbn. rewrite Nat.add_0_r, !app_nil_r. done.
  - cbn [fold_left]. destruct coro as [result|e]; unfold gather_step at 2 4 6.
    + destruct (_ || _).
      * destruct (total =? 0)%nat eqn:E.
        -- apply Nat.eqb_eq in E.
           destruct (IH (S (S completed)) (results ++ [result])
                       (printed ++ [RequestFailed "division by zero"])) as [-> _].
           split; [cbn; by rewrite <- app_assoc|done].
        -- destruct (IH (S completed) (results ++ [result])
                       (printed ++ [Progress (S completed) total
                                      (count_successful (results ++ [result]))]))
             as [-> H].
           split; [cbn; by rewrite <- app_assoc|].
           intros Ht. destruct (H Ht) as [-> ->].
           split; [cbn; lia|]. rewrite omap_app. cbn. by rewrite app_nil_r.
      * destruct (IH (S completed) (results ++ [result]) printed) as [-> H].
        split; [cbn; by rewrite <- app_assoc|].
        intros Ht. destruct (H Ht) as [-> ->]. split; [cbn; lia|done].
    + destruct (IH (S completed) results (printed ++ [RequestFailed e])) as [-> H].
      split; [done|]. intros Ht. destruct (H Ht) as [-> ->].
      split; [cbn; lia|]. rewrite omap_app. cbn. by rewrite <- app_assoc.
Qed.

Lemma gather_results (tasks : list (outcome RequestMetrics)) (total : nat) :
  (_gather_with_progress tasks total).1 = omap returned tasks.
Proof.
  unfold _gather_with_progress.
  pose proof (gather_fold total tasks 0 [] []) as [H _].
  destruct (fold_left _ _ _) as [[c rs] out]. exact H.
Qed.

Lemma gather_reports (tasks : list (outcome RequestMetrics)) (total : nat) :
  total ≠ 0%nat →
  omap reported (_gather_with_progress tasks total).2 = omap raised tasks.
Proof.
  intros Ht. unfold _gather_with_progress.
  pose proof (gather_fold total tasks 0 [] []) as [_ H].
  destruct (H Ht) as [_ Hp].
  destruct (fold_left _ _ _) as [[c rs] out]. exact Hp.
Qed.

(** X16. [_gather_with_progress] returns the records of the tasks that
    returned one, in the order in which they completed; a task that raised
    is left out and, the total not being zero, reported: the "Request
    failed" lines are those of the tasks that raised, in order. When every
    task is accounted for and the last one returned, the last line printed
    reports all of them completed and counts the successful records of the
    whole result. *)
Theorem gather_keeps_completion_order (tasks : list (outcome RequestMetrics))
    (total : nat) :
  (_gather_with_progress tasks total).1 = omap returned tasks
  ∧ (∀ tasks' result,
      tasks = tasks' ++ [Returned result] →
      total = length tasks →
      last (_gather_with_progress tasks total).2
        = Some (Progress total total (count_successful (omap returned tasks))))
  ∧ (total ≠ 0%nat →
     omap reported (_gather_with_progress tasks total).2 = omap raised tasks).
Proof.
  split; [apply gather_results|]. split; [|apply gather_reports].
  unfold _gather_with_progress.
  intros tasks' result -> Htotal.
  rewrite length_app in Htotal. cbn in Htotal.
  rewrite fold_left_app. cbn [fold_left].
  pose proof (gather_fold total tasks' 0 [] []) as [Hr Hc].
  destruct (Hc ltac:(lia)) as [Hc' _]. clear Hc.
  destruct (fold_left (gather_step total) tasks' _) as [[c rs] out].
  cbn in Hc', Hr. subst c rs.
  unfold gather_step.
  replace (S (length tasks') =? total)%nat with true
    by (symmetry; apply Nat.eqb_eq; lia).
  replace (total =? 0)%nat with false by (symmetry; apply Nat.eqb_neq; lia).
  rewrite orb_true_r. cbn [snd]. rewrite last_snoc.
  rewrite (omap_app returned tasks' [Returned result]).
  cbn. do 3 f_equal; lia.
Qed.

Lemma gather_keeps_completion_order_witness :
  last (_gather_with_progress
          ([Returned broken_stream_record; Raised "cancelled"] ++ [Returned streamed_record])
          3).2
  = Some (Progress 3 3
            (count_successful
               (omap returned
                  ([Returned broken_stream_record; Raised "cancelled"]
                   ++ [Returned streamed_record])))).
Proof.
  exact (proj1 (proj2 (gather_keeps_completion_order
                         ([Returned broken_stream_record; Raised "cancelled"]
                          ++ [Returned streamed_record]) 3))
           [Returned broken_stream_record; Raised "cancelled"] streamed_record
           eq_refl eq_refl).
Defined.

Section CollectFacts.
Variable parse_float : string → option Q.
Variable parse_int : string → option Z.
Variable nows : nat → nat → Q.
Variable stores : string → nat → get_outcome.

Lemma same_client_side_refl (m : RequestMetrics) : same_client_side m m.
Proof. repeat split. Qed.

Lemma collect_record_frame (fuel i : nat) (m m' : RequestMetrics) :
  collect_record parse_float parse_int nows stores fuel i m = Some m' →
  same_client_side m m' ∧ (success m = false → m' = m).
Proof.
  unfold collect_record, _collect_single_server_metrics.
  destruct (success m) eqn:Hs.
  - destruct (enrich_with_server_metrics _ _ _ _ _ _ _) as [[b m'']|] eqn:E; [|done].
    cbn. intros [= <-]. split; [|done].
    apply enrich_inv in E. destruct b; [|subst; apply same_client_side_refl].
    destruct E as (k & sp & tgs & _ & _ & ->). repeat split.
  - intros [= <-]. split; [apply same_client_side_refl|done].
Qed.

Lemma collect_record_returns (n i : nat) (m : RequestMetrics) :
  (20 <= nows i (S n) - nows i 0%nat)%Q →
  is_Some (collect_record parse_float parse_int nows stores (S n) i m).
Proof.
  intros H. unfold collect_record, _collect_single_server_metrics.
  destruct (success m); [|done].
  destruct (enrich_terminates parse_float parse_int (nows i) (stores (trace_id m))
              m 20 n H) as (b & m' & ->).
  done.
Qed.

(** X17. The enrichment pass returns once every enrichment has seen its
    twenty seconds pass, and it keeps the list as it is: the same number of
    records in the same positions, each with the same identity, outcome
    and client-side measurements as before, and a record that had failed
    unchanged in every field. *)
Theorem collect_server_metrics_keeps_client_side (n : nat)
    (results : list RequestMetrics) :
  (∀ i, (20 <= nows i (S n) - nows i 0%nat)%Q) →
  ∃ results',
    _collect_server_metrics parse_float parse_int nows stores (S n) results
      = Some results'
    ∧ length results' = length results
    ∧ ∀ i m, results !! i = Some m →
        ∃ m', results' !! i = Some m'
              ∧ same_client_side m m' ∧ (success m = false → m' = m).
Proof.
  intros Hclock. unfold _collect_server_metrics.
  destruct (mapM id (imap (collect_record parse_float parse_int nows stores (S n))
                       results)) as [results'|] eqn:E.
  - exists results'. split; [done|].
    apply mapM_Some_1 in E.
    pose proof (Forall2_length _ _ _ E) as Hl. rewrite length_imap in Hl.
    split; [done|].
    intros i m Hi.
    destruct (Forall2_lookup_l _ _ _ i
                (collect_record parse_float parse_int nows stores (S n) i m) E)
      as (m' & Hm' & Hc).
    { by rewrite list_lookup_imap, Hi. }
    exists m'. split; [done|]. by apply (collect_record_frame (S n) i).
  - exfalso. assert (is_Some (mapM id (imap (collect_record parse_float parse_int
                                              nows stores (S n)) results))) as [? H].
    { apply mapM_is_Some, Forall_forall. intros o Ho.
      apply list_elem_of_lookup in Ho as [i Ho].
      rewrite list_lookup_imap in Ho.
      destruct (results !! i) as [m|]; [|done]. injection Ho as <-.
      by apply collect_record_returns. }
    congruence.
Qed.

Lemma collect_Forall2 (fuel : nat) (results results' : list RequestMetrics) :
  _collect_server_metrics parse_float parse_int nows stores fuel results
    = Some results' →
  Forall2 same_client_side results results'.
Proof.
  unfold _collect_server_metrics. intros E. apply mapM_Some_1 in E.
  pose proof (Forall2_length _ _ _ E) as Hl. rewrite length_imap in Hl.
  apply Forall2_same_length_lookup. split; [done|].
  intros i m m' Hi Hi'.
  destruct (Forall2_lookup_l _ _ _ i
              (collect_record parse_float parse_int nows stores fuel i m) E)
    as (m'' & Hm'' & Hc).
  { by rewrite list_lookup_imap, Hi. }
  assert (m'' = m') as -> by congruence.
  by apply (collect_record_frame fuel i).
Qed.

Lemma successful_Forall2 (results results' : list RequestMetrics) :
  Forall2 same_client_side results results' →
  Forall2 same_client_side (successful results) (successful results').
Proof.
  unfold successful. induction 1 as [|m m' l l' Hm Hl IH]; [constructor|].
  rewrite !filter_cons.
  pose proof Hm as (_ & _ & Hs & _).
  destruct (success m) eqn:E.
  - rewrite !decide_True by done. by constructor.
  - rewrite !decide_False by congruence. done.
Qed.

(** X18. Run before or after the enrichment pass, the summary has the same
    counts, the same request throughput and the same TPOT and ITL
    collections: the pass can only change the token totals, the queue
    times, and the TTFT of records that have no client-side one. *)
Theorem summary_counts_survive_enrichment (np_mean np_median : list Q → Q)
    (np_percentile : list Q → Q → Q) (fuel : nat)
    (results results' : list RequestMetrics) (start_time end_time : Q) :
  let s := calculate_benchmark_summary np_mean np_median np_percentile
             results start_time end_time in
  let s' := calculate_benchmark_summary np_mean np_median np_percentile
              results' start_time end_time in
  _collect_server_metrics parse_float parse_int nows stores fuel results
    = Some results' →
  total_requests s' = total_requests s
  ∧ successful_requests s' = successful_requests s
  ∧ failed_requests s' = failed_requests s
  ∧ request_throughput s' = request_throughput s
  ∧ tpot_values s' = tpot_values s
  ∧ itl_values s' = itl_values s.
Proof.
  intros s s' E. apply collect_Forall2 in E.
  pose proof (Forall2_length _ _ _ E) as Hl.
  pose proof (successful_Forall2 _ _ E) as Hs.
  pose proof (Forall2_length _ _ _ Hs) as Hls.
  destruct (summary_fields np_mean np_median np_percentile results start_time end_time)
    as ((A1 & A2 & A3 & _) & _ & (C1 & _) & (_ & D2 & D3 & _)).
  destruct (summary_fields np_mean np_median np_percentile results' start_time end_time)
    as ((A1' & A2' & A3' & _) & _ & (C1' & _) & (_ & D2' & D3' & _)).
  fold s in A1, A2, A3, C1, D2, D3. fold s' in A1', A2', A3', C1', D2', D3'.
  rewrite A1, A2, A3, C1, D2, D3, A1', A2', A3', C1', D2', D3', <- Hl, <- Hls.
  split; [done|]. split; [done|]. split; [done|]. split.
  { destruct Hs; [done|]. done. }
  clear -Hs. split.
  - unfold omap. induction Hs as [|m m' l l' Hm _ IH]; [done|].
    destruct Hm as (_ & _ & _ & _ & _ & _ & _ & Ht & _).
    cbn. by rewrite Ht, IH.
  - induction Hs as [|m m' l l' Hm _ IH]; [done|].
    destruct Hm as (_ & _ & _ & _ & _ & _ & _ & _ & _ & _ & Hg).
    cbn [flat_map]. rewrite IH. unfold gaps_ms. by rewrite Hg.
Qed.
End CollectFacts.

Lemma collect_server_metrics_witness :
  ∃ results',
    _collect_server_metrics no_parse no_parse (λ _, steady_now)
      (λ _, store_with_timed_span) 40 [streamed_record; broken_stream_record]
      = Some results'
    ∧ length results' = length [streamed_record; broken_stream_record]
    ∧ ∀ i m, [streamed_record; broken_stream_record] !! i = Some m →
        ∃ m', results' !! i = Some m'
              ∧ same_client_side m m' ∧ (success m = false → m' = m).
Proof.
  apply (collect_server_metrics_keeps_client_side no_parse no_parse (λ _, steady_now)
           (λ _, store_with_timed_span) 39 [streamed_record; broken_stream_record]).
  intros _. by vm_compute.
Defined.

Lemma summary_counts_survive_enrichment_witness :
  let enriched :=
    [apply_server_data (span_metrics no_parse no_parse timed_tags) streamed_record;
     broken_stream_record] in
  _collect_server_metrics no_parse no_parse (λ _, steady_now)
    (λ _, store_with_timed_span) 5 [streamed_record; broken_stream_record]
    = Some enriched
  ∧ itl_values (calculate_benchmark_summary no_stat no_stat no_percentile enriched 0 10)
    = itl_values (calculate_benchmark_summary no_stat no_stat no_percentile
                    [streamed_record; broken_stream_record] 0 10).
Proof.
  intros enriched.
  assert (_collect_server_metrics no_parse no_parse (λ _, steady_now)
            (λ _, store_with_timed_span) 5 [streamed_record; broken_stream_record]
          = Some enriched) as H.
  { unfold _collect_server_metrics. cbn [imap]. unfold collect_record at 1.
    replace (success streamed_record) with true by reflexivity.
    unfold _collect_single_server_metrics.
    rewrite (enrich_found no_parse no_parse steady_now store_with_timed_span 5
               streamed_record 20 1 timed_span timed_tags).
    - reflexivity.
    - intros j Hj. destruct j as [|[|j]]; [by vm_compute..|lia].
    - intros j Hj. destruct j; [reflexivity|lia].
    - reflexivity.
    - reflexivity.
    - lia. }
  split; [exact H|].
  exact (proj2 (proj2 (proj2 (proj2 (proj2
           (summary_counts_survive_enrichment no_parse no_parse (λ _, steady_now)
              (λ _, store_with_timed_span) no_stat no_stat no_percentile 5
              [streamed_record; broken_stream_record] enriched 0 10 H)))))).
Defined.

(** ** The scheduler and the prompts *)

Lemma launched_tasks (g : nat → string → list unit_step) (prompts : list string)
    (tail : list loop_request) :
  flat_map launched (imap (λ i prompt, CreateTask (g i prompt)) prompts ++ tail)
    = imap g prompts ++ flat_map launched tail.
Proof.
  revert g. induction prompts as [|p prompts IH]; intros g; [done|].
  cbn [imap app flat_map launched]. f_equal. apply (IH (g ∘ S)).
Qed.

(** X19. Whatever the rate, zero apart, [run_benchmark] hands the event
    loop one unit of work per prompt, in the order of the prompts, and the
    unit of prompt [i] sends that prompt once, with index [i], and nothing
    else. With a positive rate the unit first sleeps [i / rps] seconds;
    with a negative one it does not sleep. *)
Theorem every_prompt_is_sent_once (rps : Q) (prompts : list string) :
  ¬ (rps == 0)%Q →
  ∃ evs,
    run_benchmark rps prompts = Returned evs
    ∧ length (flat_map launched evs) = length prompts
    ∧ ∀ i prompt, prompts !! i = Some prompt →
        ∃ u, flat_map launched evs !! i = Some u
             ∧ unit_sends u = [(prompt, i)]
             ∧ (start_delay u
                == if Qlt_le_dec 0 rps then index_Q i / rps else 0)%Q.
Proof.
  intros Hnz. destruct (Q_dec rps 0) as [[Hneg|Hpos]|Hz]; [| |contradiction].
  - exists [AwaitGather (imap (λ i prompt, [SendRequest prompt i]) prompts)].
    split; [by apply run_benchmark_unpaced|].
    cbn [flat_map launched]. rewrite app_nil_r, length_imap. split; [done|].
    intros i prompt Hi. exists [SendRequest prompt i].
    rewrite list_lookup_imap, Hi. split; [done|]. split; [done|].
    destruct (Qlt_le_dec 0 rps) as [H|_]; [|done].
    exfalso. apply (Qlt_irrefl 0). exact (Qlt_trans 0 rps 0 H Hneg).
  - eexists. split; [by apply run_benchmark_paced|].
    rewrite (launched_tasks
               (λ i prompt, [Sleep (index_Q i * (1 / rps))%Q; SendRequest prompt i])).
    cbn [flat_map]. rewrite app_nil_r, length_imap. split; [done|].
    intros i prompt Hi.
    exists [Sleep (index_Q i * (1 / rps))%Q; SendRequest prompt i].
    rewrite list_lookup_imap, Hi. split; [done|]. split; [done|].
    destruct (Qlt_le_dec 0 rps) as [_|H].
    + cbn [start_delay]. field. intros E. rewrite E in Hpos.
      by apply Qlt_irrefl in Hpos.
    + exfalso. apply (Qlt_irrefl 0). exact (Qlt_le_trans 0 rps 0 Hpos H).
Qed.

Lemma every_prompt_is_sent_once_witness :
  ∃ evs,
    run_benchmark 2 ["a"; "b"; "c"] = Returned evs
    ∧ length (flat_map launched evs) = 3%nat
    ∧ ∀ i prompt, ["a"; "b"; "c"] !! i = Some prompt →
        ∃ u, flat_map launched evs !! i = Some u
             ∧ unit_sends u = [(prompt, i)]
             ∧ (start_delay u == if Qlt_le_dec 0 2 then index_Q i / 2 else 0)%Q.
Proof.
  apply (every_prompt_is_sent_once 2 ["a"; "b"; "c"]). by vm_compute.
Defined.

Lemma load_from (items : list sharegpt_item) (prompts : list string) :
  fold_left
    (λ prompts item,
       match first_human (conversations item) with
       | Some prompt => if negb (String.eqb prompt "") then prompts ++ [prompt] else prompts
       | None => prompts
       end) items prompts
  = prompts ++ omap item_prompt items.
Proof.
  revert prompts. induction items as [|item items IH]; intros prompts.
  - by rewrite app_nil_r.
  - cbn [fold_left]. rewrite IH. unfold omap at 2. cbn [list_omap].
    unfold item_prompt at 2.
    destruct (first_human (conversations item)) as [p|]; [|done].
    destruct (String.eqb p ""); cbn [negb]; [done|]. by rewrite <- app_assoc.
Qed.

Lemma append_String (c : ascii) (s1 s2 : string) :
  String c s1 +:+ s2 = String c (s1 +:+ s2).
Proof. reflexivity. Qed.

Lemma append_assoc (s1 s2 s3 : string) : s1 +:+ (s2 +:+ s3) = (s1 +:+ s2) +:+ s3.
Proof. induction s1 as [|c s1 IH]; [done|]. rewrite !append_String. by f_equal. Qed.

Lemma append_nil_r (s : string) : s +:+ "" = s.
Proof. induction s as [|c s IH]; [done|]. rewrite append_String. by f_equal. Qed.

Lemma rev_app_spec (s acc : string) : String.rev_app s acc = String.rev s +:+ acc.
Proof.
  unfold String.rev. revert acc. induction s as [|c s IH]; intros acc; [done|].
  cbn [String.rev_app]. rewrite (IH (String c "")), IH.
  by rewrite <- append_assoc.
Qed.

Lemma rev_String (c : ascii) (s : string) :
  String.rev (String c s) = String.rev s +:+ String c "".
Proof. unfold String.rev at 1. cbn [String.rev_app]. apply rev_app_spec. Qed.

Lemma rev_append (s1 s2 : string) :
  String.rev (s1 +:+ s2) = String.rev s2 +:+ String.rev s1.
Proof.
  induction s1 as [|c s1 IH].
  - change ("" +:+ s2) with s2. by rewrite append_nil_r.
  - rewrite append_String, !rev_String, IH. by rewrite append_assoc.
Qed.

Lemma rev_rev (s : string) : String.rev (String.rev s) = s.
Proof.
  induction s as [|c s IH]; [done|].
  by rewrite rev_String, rev_append, IH.
Qed.

Lemma lstrip_by_head (sp2 : ascii → ascii → bool) (sp3 : ascii → ascii → ascii → bool)
    (n : nat) : ∀ s,
  (String.length s ≤ n)%nat → space_head sp2 sp3 (lstrip_by sp2 sp3 s) = false.
Proof.
  induction n as [|n IH]; intros [|c1 s1] Hn; try done; [cbn in Hn; lia|].
  cbn [String.length] in Hn. cbn [lstrip_by].
  destruct (is_space c1) eqn:E1; [apply IH; lia|].
  destruct s1 as [|c2 s2]; [cbn; by rewrite E1|].
  cbn [String.length] in Hn.
  destruct (sp2 c1 c2) eqn:E2; [apply IH; lia|].
  destruct s2 as [|c3 s3]; [cbn; by rewrite E1, E2|].
  cbn [String.length] in Hn.
  destruct (sp3 c1 c2 c3) eqn:E3; [apply IH; lia|].
  cbn. by rewrite E1, E2, E3.
Qed.

Lemma lstrip_by_suffix (sp2 : ascii → ascii → bool) (sp3 : ascii → ascii → ascii → bool)
    (n : nat) : ∀ s,
  (String.length s ≤ n)%nat → ∃ w, s = w +:+ lstrip_by sp2 sp3 s.
Proof.
  induction n as [|n IH]; intros [|c1 s1] Hn; try (by exists ""); [cbn in Hn; lia|].
  cbn [String.length] in Hn. cbn [lstrip_by].
  destruct (is_space c1).
  { destruct (IH s1 ltac:(lia)) as [w Hw]. exists (String c1 w).
    rewrite append_String. by f_equal. }
  destruct s1 as [|c2 s2]; [by exists ""|].
  cbn [String.length] in Hn.
  destruct (sp2 c1 c2).
  { destruct (IH s2 ltac:(lia)) as [w Hw]. exists (String c1 (String c2 w)).
    rewrite !append_String. by do 2 f_equal. }
  destruct s2 as [|c3 s3]; [by exists ""|].
  cbn [String.length] in Hn.
  destruct (sp3 c1 c2 c3); [|by exists ""].
  destruct (IH s3 ltac:(lia)) as [w Hw]. exists (String c1 (String c2 (String c3 w))).
  rewrite !append_String. by do 3 f_equal.
Qed.

(** A string that begins with white space still does when it is extended. *)
Lemma space_head_append (sp2 : ascii → ascii → bool) (sp3 : ascii → ascii → ascii → bool)
    (s1 s2 : string) :
  space_head sp2 sp3 s1 = true → space_head sp2 sp3 (s1 +:+ s2) = true.
Proof.
  destruct s1 as [|c1 [|c2 [|c3 s1]]]; [done|..]; rewrite ?append_String;
    change ("" +:+ s2) with s2; cbn [space_head]; intros H.
  - destruct s2 as [|c2 [|c3 s2]]; by rewrite H.
  - destruct s2 as [|c3 s2]; [done|]. by rewrite H.
  - destruct (s1 +:+ s2); exact H.
Qed.

(** What [strip] returns has no white space at either end. *)
Lemma strip_trimmed (s : string) : trimmed (strip s).
Proof.
  unfold trimmed, starts_with_space, ends_with_space, strip, rstrip, lstrip.
  set (a := lstrip_by is_space2 is_space3 s).
  set (sp2' := λ c2 c1, is_space2 c1 c2). set (sp3' := λ c3 c2 c1, is_space3 c1 c2 c3).
  set (b := lstrip_by sp2' sp3' (String.rev a)).
  rewrite rev_rev. split; [|by apply (lstrip_by_head _ _ (String.length (String.rev a)))].
  destruct (space_head is_space2 is_space3 (String.rev b)) eqn:E; [|done].
  destruct (lstrip_by_suffix sp2' sp3' _ (String.rev a) (Nat.le_refl _)) as [w Hw].
  fold b in Hw.
  assert (a = String.rev b +:+ String.rev w) as Ha.
  { by rewrite <- rev_append, <- Hw, rev_rev. }
  pose proof (lstrip_by_head is_space2 is_space3 _ s (Nat.le_refl _)) as Hhead.
  fold a in Hhead. rewrite Ha in Hhead.
  by rewrite (space_head_append _ _ _ _ E) in Hhead.
Qed.

(** X20. [load_sharegpt_prompts] looks at the items of the slice
    [data[:num_prompts]] only and takes from each at most one prompt, in
    the order of the dataset: the value of its first human turn, stripped,
    unless that is empty, in which case the item is passed over and its
    later turns are not looked at. So it returns no more prompts than the
    dataset has items, no more than [num_prompts] when that is not
    negative, and every prompt is non-empty without white space at either
    end. *)
Theorem load_sharegpt_prompts_spec (data : list sharegpt_item) (num_prompts : Z) :
  let prompts := load_sharegpt_prompts data num_prompts in
  prompts = omap item_prompt (slice_to num_prompts data)
  ∧ (length prompts ≤ length data)%nat
  ∧ (0 ≤ num_prompts → Z.of_nat (length prompts) ≤ num_prompts)
  ∧ Forall (λ prompt, prompt ≠ "" ∧ trimmed prompt) prompts.
Proof.
  intros prompts.
  assert (prompts = omap item_prompt (slice_to num_prompts data)) as E.
  { unfold prompts, load_sharegpt_prompts. by rewrite load_from. }
  assert (∀ items : list sharegpt_item,
            (length (omap item_prompt items) ≤ length items)%nat) as Hlen.
  { intros items. unfold omap. induction items as [|item items IH]; [done|].
    cbn. destruct (item_prompt item); cbn; lia. }
  split; [exact E|]. rewrite E. split; [|split].
  - etransitivity; [apply Hlen|]. unfold slice_to.
    destruct (0 <=? num_prompts); rewrite length_take; lia.
  - intros Hn. pose proof (Hlen (slice_to num_prompts data)) as H.
    unfold slice_to in *. destruct (0 <=? num_prompts) eqn:E'; [|lia].
    rewrite length_take in H. lia.
  - apply Forall_forall. intros prompt Hin.
    apply list_elem_of_omap in Hin as (item & _ & Hitem).
    unfold item_prompt in Hitem.
    destruct (first_human (conversations item)) as [p|] eqn:Hp; [|done].
    destruct (String.eqb_spec p "") as [|Hne]; [done|].
    injection Hitem as <-. split; [done|].
    clear -Hp. induction (conversations item) as [|conv convs IH]; [done|].
    cbn in Hp. destruct (bool_decide _); [|by apply IH].
    injection Hp as <-. apply strip_trimmed.
Qed.

Lemma load_sharegpt_prompts_witness :
  Z.of_nat (length (load_sharegpt_prompts sample_dataset 2)) ≤ 2
  ∧ load_sharegpt_prompts sample_dataset 2 = ["What is a monad?"].
Proof.
  split; [|reflexivity].
  apply (proj1 (proj2 (proj2 (load_sharegpt_prompts_spec sample_dataset 2)))). lia.
Defined.

Example load_sharegpt_prompts_wide_space :
  load_sharegpt_prompts wide_space_dataset 2 = ["hi"].
Proof. reflexivity. Qed.

(** X21. No request is lost between the units of work and the summary: a
    unit whose [send_request] raises still returns a record, failed, with
    the exception's text and the trace id "failed", so
    [_gather_with_progress] gets one record per unit, reports no failed
    task (the total it is given not being zero), and the summary counts as
    many requests as there were units. *)
Theorem no_request_is_lost (np_mean np_median : list Q → Q)
    (np_percentile : list Q → Q → Q)
    (sent : list (nat * outcome RequestMetrics)) (total : nat)
    (start_time end_time : Q) :
  let unit_result (x : nat * outcome RequestMetrics) :=
    _send_single_request_result x.1 x.2 in
  let gathered := _gather_with_progress (map (λ x, Returned (unit_result x)) sent) total in
  gathered.1 = map unit_result sent
  ∧ (total ≠ 0%nat → Forall (λ line, ∀ e, line ≠ RequestFailed e) gathered.2)
  ∧ total_requests
      (calculate_benchmark_summary np_mean np_median np_percentile gathered.1
         start_time end_time)
    = Z.of_nat (length sent)
  ∧ ∀ i index e, sent !! i = Some (index, Raised e) →
      ∃ r, gathered.1 !! i = Some r
           ∧ success r = false ∧ error_message r = e ∧ trace_id r = "failed"
           ∧ request_id r = "req_" +:+ pretty index.
Proof.
  intros unit_result gathered.
  assert (gathered.1 = map unit_result sent) as E.
  { unfold gathered. rewrite gather_results.
    unfold omap. induction sent as [|x sent IH]; [done|]. cbn. by rewrite IH. }
  split; [exact E|]. split; [|split].
  - intros Ht.
    pose proof (gather_reports (map (λ x, Returned (unit_result x)) sent) total Ht)
      as H.
    fold gathered in H.
    assert (omap raised (map (λ x, Returned (unit_result x)) sent) = []) as Hnone.
    { clear. unfold omap. induction sent as [|x sent IH]; [done|]. exact IH. }
    rewrite Hnone in H. apply Forall_forall. intros line Hin e ->.
    assert (e ∈ omap reported gathered.2) as Habs.
    { apply list_elem_of_omap. by exists (RequestFailed e). }
    rewrite H in Habs. by apply not_elem_of_nil in Habs.
  - rewrite E.
    destruct (summary_fields np_mean np_median np_percentile (map unit_result sent)
                start_time end_time) as ((-> & _) & _).
    by rewrite length_map.
  - intros i index e Hi. rewrite E, list_lookup_fmap, Hi. eexists. split; [done|].
    by cbn.
Qed.

(** ** Saved files *)

Section SavingFacts.
Variable strftime_localtime : Q → string.
Variable py_str : pyval → string.

Local Abbreviation save_one := (save_request_metrics strftime_localtime py_str).
Local Abbreviation save_many := (save_multiple_requests_metrics strftime_localtime py_str).

(** The multi-record row of a record is accepted by the writer. *)
Lemma csv_line_returns (m : RequestMetrics) :
  ∃ line, csv_line strftime_localtime py_str m = Some line ∧ length line = 26%nat.
Proof.
  destruct m as [? ? ? ? ? ? ? ? ? ? ? ? ? ? ? ? ? ? ? ? ? ? itls].
  destruct itls as [|itl itls]; eexists; split; vm_compute; reflexivity.
Qed.

(** The single-record CSV has the columns of the multi-record one, and the
    same cells, provided [str([])] is "[]". *)
Lemma single_csv_line (m : RequestMetrics) (filename format : string) :
  py_str (PyList []) = "[]" →
  lower format = "csv" →
  save_one m filename format
    = line ← csv_line strftime_localtime py_str m;
      Some (CsvFile (filename +:+ ".csv") fieldnames [line]).
Proof.
  intros Hstr Hfmt. unfold save_request_metrics. rewrite Hfmt.
  change (String.eqb "csv" "json") with false.
  change (String.eqb "csv" "csv") with true. cbv iota.
  destruct m as [? ? ? ? ? ? ? ? ? ? ? ? ? ? ? ? ? ? ? ? ? ? itls].
  destruct itls as [|itl itls].
  - vm_compute. rewrite Hstr. reflexivity.
  - vm_compute. reflexivity.
Qed.

Lemma count_failed_from (results : list RequestMetrics) (acc : Z) :
  fold_left (λ acc m, if negb (success m) then acc + 1 else acc) results acc
    = acc + Z.of_nat (length results) - Z.of_nat (length (successful results)).
Proof.
  revert acc. unfold successful.
  induction results as [|r results IH]; intros acc; [cbn; lia|].
  cbn [fold_left]. rewrite IH, filter_cons.
  destruct (success r) eqn:E; cbn [negb].
  - rewrite decide_True by done. cbn [length]. lia.
  - rewrite decide_False by congruence. cbn [length]. lia.
Qed.

Lemma map_to_dict_inj (l1 l2 : list RequestMetrics) :
  map (to_dict strftime_localtime) l1 = map (to_dict strftime_localtime) l2 → l1 = l2.
Proof.
  revert l2. induction l1 as [|m1 l1 IH]; intros [|m2 l2] H; try done.
  pose proof (f_equal head H) as H1. pose proof (f_equal tail H) as H2.
  cbn [map head tail] in H1, H2. apply (inj Some) in H1.
  f_equal; [by apply (to_dict_inj strftime_localtime)|by apply IH].
Qed.

(** X22. The JSON document that [save_multiple_requests_metrics] writes for
    a non-empty list goes to [<filename>.json]; its metadata carry the three
    counts of the benchmark summary of the same list, and its "requests"
    entry determines the list: two lists saved with equal "requests" are
    the same list, field for field. *)
Theorem saved_json_counts_and_round_trip (np_mean np_median : list Q → Q)
    (np_percentile : list Q → Q → Q) (export_time : string)
    (metrics_list : list RequestMetrics) (filename format : string)
    (start_time end_time : Q) :
  lower format = "json" →
  metrics_list ≠ [] →
  ∃ data,
    save_many export_time metrics_list filename format
      = Some (JsonFile (filename +:+ ".json") data)
    ∧ (let s := calculate_benchmark_summary np_mean np_median np_percentile
                  metrics_list start_time end_time in
       dict_get2 "metadata" "total_requests" data = Some (PyInt (total_requests s))
       ∧ dict_get2 "metadata" "successful_requests" data
         = Some (PyInt (successful_requests s))
       ∧ dict_get2 "metadata" "failed_requests" data
         = Some (PyInt (failed_requests s)))
    ∧ ∀ export_time' metrics_list' filename' path' data',
        save_many export_time' metrics_list' filename' format
          = Some (JsonFile path' data') →
        dict_get "requests" data' = dict_get "requests" data →
        metrics_list' = metrics_list.
Proof.
  intros Hfmt Hne. unfold save_multiple_requests_metrics. rewrite Hfmt.
  change (String.eqb "json" "json") with true. cbv iota.
  destruct metrics_list as [|m ms]; [done|]. eexists. split; [reflexivity|].
  split.
  - destruct (summary_fields np_mean np_median np_percentile (m :: ms) start_time
                end_time) as ((-> & -> & -> & _) & _).
    unfold dict_get2. cbn [dict_get assoc String.eqb Ascii.eqb Bool.eqb mbind option_bind].
    rewrite count_success_spec. unfold count_failed.
    rewrite count_failed_from. repeat split; do 2 f_equal; lia.
  - intros export_time' [|m' ms'] filename' path' data' H; [done|].
    injection H as _ <-. cbn [dict_get assoc String.eqb Ascii.eqb Bool.eqb].
    intros H. apply (inj Some) in H.
    apply (f_equal (λ v, match v with PyList l => l | _ => [] end)) in H.
    by apply map_to_dict_inj.
Qed.

(** X23. In CSV format the two save functions agree: the file that
    [save_request_metrics] writes for a record has the header of the
    multi-record file, all 26 columns in the same order, and its one line is
    the line that [save_multiple_requests_metrics] writes for that record,
    given that [str([])] is "[]" as in Python. *)
Theorem csv_files_agree (export_time : string) (metrics_list : list RequestMetrics)
    (filename format : string) :
  py_str (PyList []) = "[]" →
  lower format = "csv" →
  metrics_list ≠ [] →
  ∃ lines,
    save_many export_time metrics_list filename format
      = Some (CsvFile (filename +:+ ".csv") fieldnames lines)
    ∧ Forall2 (λ m line,
                 save_one m filename format
                   = Some (CsvFile (filename +:+ ".csv") fieldnames [line])
                 ∧ length line = length fieldnames)
        metrics_list lines.
Proof.
  intros Hstr Hfmt Hne. unfold save_multiple_requests_metrics. rewrite Hfmt.
  change (String.eqb "csv" "json") with false.
  change (String.eqb "csv" "csv") with true. cbv iota.
  destruct metrics_list as [|m0 ms0]; [done|]. clear Hne.
  assert (∀ ms, ∃ lines,
            mapM (csv_line strftime_localtime py_str) ms = Some lines
            ∧ Forall2 (λ m line,
                         save_one m filename format
                           = Some (CsvFile (filename +:+ ".csv") fieldnames [line])
                         ∧ length line = length fieldnames) ms lines) as H.
  { induction ms as [|m ms (lines & Hl & Hall)]; [by exists []|].
    destruct (csv_line_returns m) as (line & Hline & Hlen).
    exists (line :: lines). split.
    - cbn [mapM]. by rewrite Hline, Hl.
    - constructor; [|done]. split; [|done].
      by rewrite (single_csv_line m filename format Hstr Hfmt), Hline. }
  destruct (H (m0 :: ms0)) as (lines & -> & Hall). by exists lines.
Qed.

(** X24. [save_multiple_requests_metrics] returns [False] exactly when the
    list is empty or the format, lower-cased, is neither "json" nor "csv";
    [save_request_metrics] exactly when the format is neither. Building a
    row never raises, and the writer never meets a key that is not a
    column. *)
Theorem save_fails_only_on_empty_list_or_format (export_time : string)
    (metrics_list : list RequestMetrics) (metrics : RequestMetrics)
    (filename format : string) :
  let unsupported := lower format ≠ "json" ∧ lower format ≠ "csv" in
  (save_many export_time metrics_list filename format = None
   ↔ metrics_list = [] ∨ unsupported)
  ∧ (save_one metrics filename format = None ↔ unsupported).
Proof.
  intros unsupported. unfold unsupported.
  unfold save_multiple_requests_metrics, save_request_metrics.
  destruct (String.eqb_spec (lower format) "json") as [Hj|Hj].
  { split; (split; [|intros H]).
    - by destruct metrics_list; [left|].
    - destruct H as [->|[]]; done.
    - done.
    - by destruct H. }
  destruct (String.eqb_spec (lower format) "csv") as [Hc|Hc].
  - assert (∀ ms, is_Some (mapM (csv_line strftime_localtime py_str) ms)) as Hm.
    { intros ms. apply mapM_is_Some, Forall_forall. intros m _.
      destruct (csv_line_returns m) as (line & Hline & _).
      unfold compose. by rewrite Hline. }
    split; (split; [|intros H]).
    + destruct metrics_list as [|m ms]; [by left|].
      destruct (Hm (m :: ms)) as [lines ->]. done.
    + destruct H as [->|[]]; done.
    + destruct metrics as [? ? ? ? ? ? ? ? ? ? ? ? ? ? ? ? ? ? ? ? ? ? itls].
      destruct itls; vm_compute; discriminate.
    + by destruct H.
  - split; (split; [|intros H]).
    + destruct metrics_list; [by left|by right].
    + by destruct metrics_list.
    + done.
    + done.
Qed.

(** X25. [save_results] of the benchmark script passes a file name that
    already ends in the extension, and the save function appends the
    extension again: the results of a run go to [<base>.json.json] and
    [<base>.csv.csv], the second with one line per record. *)
Theorem save_results_doubles_the_extension (export_time_json export_time_csv : string)
    (results : list RequestMetrics) (base_filename : string) :
  results ≠ [] →
  ∃ data lines,
    save_results strftime_localtime py_str export_time_json export_time_csv results
      base_filename
    = (Some (JsonFile (base_filename +:+ ".json.json") data),
       Some (CsvFile (base_filename +:+ ".csv.csv") fieldnames lines))
    ∧ length lines = length results.
Proof.
  intros Hne. unfold save_results, save_multiple_requests_metrics.
  change (lower "json") with "json". change (lower "csv") with "csv".
  change (String.eqb "json" "json") with true.
  change (String.eqb "csv" "json") with false.
  change (String.eqb "csv" "csv") with true. cbv iota.
  destruct results as [|m ms]; [done|].
  destruct (mapM (csv_line strftime_localtime py_str) (m :: ms)) as [lines|] eqn:E.
  - eexists _, lines. split; [|symmetry; by apply length_mapM in E].
    rewrite <- !append_assoc. reflexivity.
  - exfalso. assert (is_Some (mapM (csv_line strftime_localtime py_str) (m :: ms)))
      as [? H]; [|congruence].
    apply mapM_is_Some, Forall_forall. intros m' _.
    destruct (csv_line_returns m') as (line & Hline & _).
    unfold compose. by rewrite Hline.
Qed.
End SavingFacts.

Lemma saved_json_witness :
  ∃ data,
    save_multiple_requests_metrics sample_strftime sample_str "2026-01-01T00:00:00"
      [streamed_record; broken_stream_record] "run" "JSON"
      = Some (JsonFile "run.json" data)
    ∧ dict_get2 "metadata" "successful_requests" data = Some (PyInt 1).
Proof.
  destruct (saved_json_counts_and_round_trip sample_strftime sample_str
              no_stat no_stat no_percentile "2026-01-01T00:00:00"
              [streamed_record; broken_stream_record] "run" "JSON" 0 10
              eq_refl ltac:(discriminate)) as (data & H & (_ & Hs & _) & _).
  exists data. split; [exact H|exact Hs].
Defined.

Lemma csv_files_agree_witness :
  ∃ lines,
    save_multiple_requests_metrics sample_strftime sample_str "2026-01-01T00:00:00"
      [streamed_record; broken_stream_record] "run" "csv"
      = Some (CsvFile "run.csv" fieldnames lines)
    ∧ Forall2 (λ m line,
                 save_request_metrics sample_strftime sample_str m "run" "csv"
                   = Some (CsvFile "run.csv" fieldnames [line])
                 ∧ length line = 26%nat)
        [streamed_record; broken_stream_record] lines.
Proof.
  exact (csv_files_agree sample_strftime sample_str "2026-01-01T00:00:00"
           [streamed_record; broken_stream_record] "run" "csv"
           eq_refl eq_refl ltac:(discriminate)).
Defined.

Lemma save_results_witness :
  ∃ data lines,
    save_results sample_strftime sample_str "2026-01-01T00:00:00" "2026-01-01T00:00:01"
      [streamed_record] "sharegpt_benchmark_20260101_000000"
    = (Some (JsonFile "sharegpt_benchmark_20260101_000000.json.json" data),
       Some (CsvFile "sharegpt_benchmark_20260101_000000.csv.csv" fieldnames lines))
    ∧ length lines = 1%nat.
Proof.
  exact (save_results_doubles_the_extension sample_strftime sample_str
           "2026-01-01T00:00:00" "2026-01-01T00:00:01" [streamed_record]
           "sharegpt_benchmark_20260101_000000" ltac:(discriminate)).
Defined.

(** ** Trace contexts *)

Lemma length_append (s1 s2 : string) :
  String.length (s1 +:+ s2) = (String.length s1 + String.length s2)%nat.
Proof.
  induction s1 as [|c s1 IH]; [done|]. rewrite append_String. cbn [String.length].
  by rewrite IH.
Qed.

Lemma dash_count_append (s1 s2 : string) :
  dash_count (s1 +:+ s2) = (dash_count s1 + dash_count s2)%nat.
Proof.
  induction s1 as [|c s1 IH]; [done|]. rewrite append_String. cbn [dash_count].
  rewrite IH. lia.
Qed.

Lemma length_remove_dashes (s : string) :
  (String.length (remove_dashes s) + dash_count s = String.length s)%nat.
Proof.
  induction s as [|c s IH]; [done|]. cbn [remove_dashes dash_count].
  destruct (Ascii.eqb c "-"); cbn [String.length]; lia.
Qed.

Lemma dash_count_remove_dashes (s : string) : dash_count (remove_dashes s) = 0%nat.
Proof.
  induction s as [|c s IH]; [done|]. cbn [remove_dashes].
  destruct (Ascii.eqb c "-") eqn:E; [done|]. cbn [dash_count]. by rewrite E, IH.
Qed.

Lemma length_substring_0 (n : nat) (s : string) :
  String.length (String.substring 0 n s) = (n `min` String.length s)%nat.
Proof.
  revert n. induction s as [|c s IH]; intros [|n]; try done.
  cbn [String.substring String.length]. by rewrite IH.
Qed.

Lemma substring_0_all (n : nat) (s : string) :
  (String.length s ≤ n)%nat → String.substring 0 n s = s.
Proof.
  revert n. induction s as [|c s IH]; intros [|n] H; try done.
  - cbn in H. lia.
  - cbn [String.substring]. f_equal. apply IH. cbn in H. lia.
Qed.

Lemma dash_count_substring_0 (n : nat) (s : string) :
  dash_count s = 0%nat → dash_count (String.substring 0 n s) = 0%nat.
Proof.
  revert n. induction s as [|c s IH]; intros [|n] H; try done.
  cbn [String.substring dash_count] in *.
  destruct (Ascii.eqb c "-"); [done|]. by apply IH.
Qed.

(** X26. From two strings of the shape of a UUID, [_generate_trace_context]
    makes a trace id of 32 characters, which are all the characters of the
    first UUID but its dashes, a span id of 16 characters, neither with a
    dash, and a traceparent of 55 characters with exactly the three dashes
    that separate its four fields. *)
Theorem trace_context_is_well_formed (u_trace u_span : string) :
  uuid_shaped u_trace → uuid_shaped u_span →
  let ctx := _generate_trace_context u_trace u_span in
  tc_trace_id ctx = remove_dashes u_trace
  ∧ (String.length (tc_trace_id ctx) = 32 ∧ dash_count (tc_trace_id ctx) = 0)%nat
  ∧ (String.length (tc_span_id ctx) = 16 ∧ dash_count (tc_span_id ctx) = 0)%nat
  ∧ (String.length (tc_traceparent ctx) = 55 ∧ dash_count (tc_traceparent ctx) = 3)%nat
  ∧ tc_traceparent ctx = "00-" +:+ tc_trace_id ctx +:+ "-" +:+ tc_span_id ctx +:+ "-01".
Proof.
  intros [Hl1 Hd1] [Hl2 Hd2] ctx.
  pose proof (length_remove_dashes u_trace) as H1.
  pose proof (length_remove_dashes u_span) as H2.
  assert (String.length (tc_trace_id ctx) = 32%nat) as Ht.
  { cbn. rewrite length_substring_0. lia. }
  assert (String.length (tc_span_id ctx) = 16%nat) as Hs.
  { cbn. rewrite length_substring_0. lia. }
  assert (dash_count (tc_trace_id ctx) = 0%nat) as Hdt.
  { cbn. apply dash_count_substring_0, dash_count_remove_dashes. }
  assert (dash_count (tc_span_id ctx) = 0%nat) as Hds.
  { cbn. apply dash_count_substring_0, dash_count_remove_dashes. }
  split; [cbn; apply substring_0_all; lia|].
  split; [done|]. split; [done|]. split; [|done].
  change (tc_traceparent ctx)
    with ("00-" +:+ tc_trace_id ctx +:+ "-" +:+ tc_span_id ctx +:+ "-01").
  rewrite !length_append, !dash_count_append, Ht, Hs, Hdt, Hds. done.
Qed.

Lemma trace_context_witness :
  tc_traceparent (_generate_trace_context "0af76519-16cd-43dd-8448-eb211c80319c"
                    "b7ad6b71-6920-4331-a1b2-c3d4e5f60718")
  = "00-0af7651916cd43dd8448eb211c80319c-b7ad6b7169204331-01".
Proof.
  exact (proj2 (proj2 (proj2 (proj2
           (trace_context_is_well_formed "0af76519-16cd-43dd-8448-eb211c80319c"
              "b7ad6b71-6920-4331-a1b2-c3d4e5f60718"
              (conj eq_refl eq_refl) (conj eq_refl eq_refl)))))).
Defined.

(** ** Readers of the saved JSON *)

Lemma fold_Qplus_shift (l : list Q) (a : Q) :
  (fold_left Qplus l a == a + py_sum l)%Q.
Proof.
  unfold py_sum. revert a. induction l as [|x l IH]; intros a; cbn [fold_left].
  - ring.
  - rewrite (IH (a + x)%Q), (IH (0 + x)%Q). ring.
Qed.

Lemma py_sum_cons (x : Q) (l : list Q) : (py_sum (x :: l) == x + py_sum l)%Q.
Proof.
  unfold py_sum at 1. cbn [fold_left]. rewrite fold_Qplus_shift. ring.
Qed.

Lemma py_sum_scaled (l : list Q) :
  (py_sum (map (λ s, s * 1000) l) == py_sum l * 1000)%Q.
Proof.
  induction l as [|x l IH]; [by vm_compute|].
  cbn [map]. rewrite !py_sum_cons, IH. ring.
Qed.

(** The loop of [_calculate_timeline] over a list of floats: one time per
    gap, the last of them the start plus the sum of the gaps, in seconds. *)
Lemma token_times_loop (l : list Q) (t0 : Q) (acc : list Q) :
  ∃ t ts,
    for_each token_time_step (map PyFloat l) (t0, acc) = Returned (t, acc ++ ts)
    ∧ length ts = length l
    ∧ (t == t0 + py_sum l / 1000)%Q
    ∧ (l = [] → t = t0)
    ∧ (l ≠ [] → last (acc ++ ts) = Some t).
Proof.
  revert t0 acc. induction l as [|x l IH]; intros t0 acc.
  - exists t0, []. rewrite app_nil_r. repeat split; [|done..].
    vm_compute py_sum. field.
  - cbn [map for_each]. unfold token_time_step at 1. cbn [py_div_float and_then fst snd].
    destruct (IH (t0 + x / 1000)%Q (acc ++ [(t0 + x / 1000)%Q]))
      as (t & ts & Hrun & Hlen & Ht & Hnil & Hlast).
    exists t, ((t0 + x / 1000)%Q :: ts). rewrite Hrun, <- app_assoc.
    split; [done|]. split; [cbn; lia|]. split; [|split; [done|]].
    + rewrite Ht, py_sum_cons. field.
    + intros _. destruct l as [|y l].
      * rewrite (Hnil eq_refl). destruct ts; [|done].
        cbn [app]. by rewrite last_snoc.
      * rewrite <- app_assoc in Hlast. by apply Hlast.
Qed.

Section ReaderFacts.
Variable strftime_localtime : Q → string.
Variable py_str : pyval → string.

Lemma extract_itl_step_saved (acc : list pyval) (m : RequestMetrics) :
  extract_itl_step acc (to_dict strftime_localtime m)
    = Returned (acc ++ map PyFloat (gaps_ms m)).
Proof.
  destruct m as [? ? ? ? ? ? ? ? ? ? ? ? ? ? ? ? ? ? ? ? ? ? itls].
  destruct itls; vm_compute; reflexivity.
Qed.

Lemma extract_itl_loop_saved (ms : list RequestMetrics) (acc : list pyval) :
  for_each extract_itl_step (map (to_dict strftime_localtime) ms) acc
    = Returned (acc ++ map PyFloat (flat_map gaps_ms ms)).
Proof.
  revert acc. induction ms as [|m ms IH]; intros acc.
  - cbn. by rewrite app_nil_r.
  - cbn [map for_each flat_map]. rewrite extract_itl_step_saved. cbn [and_then].
    by rewrite IH, map_app, app_assoc.
Qed.

Lemma gaps_of_successful (ms : list RequestMetrics) :
  Forall (λ m, success m = false → client_itl_list m = []) ms →
  flat_map gaps_ms ms = flat_map gaps_ms (successful ms).
Proof.
  unfold successful. induction 1 as [|m ms Hm _ IH]; [done|].
  rewrite filter_cons. cbn [flat_map]. destruct (success m) eqn:E.
  - rewrite decide_True by done. cbn [flat_map]. by rewrite IH.
  - rewrite decide_False by congruence. unfold gaps_ms at 1.
    by rewrite (Hm eq_refl).
Qed.

(** X27. [extract_itl_data] reads back from the JSON document of a saved
    run the gaps of every record, in milliseconds and in the order of the
    records, without raising. When no failed record carries gaps, these are
    the ITL values of the benchmark summary of the same run. *)
Theorem extracted_itl_data_of_saved_run (np_mean np_median : list Q → Q)
    (np_percentile : list Q → Q → Q) (export_time : string)
    (metrics_list : list RequestMetrics) (filename format path : string)
    (data : pyval) (start_time end_time : Q) :
  save_multiple_requests_metrics strftime_localtime py_str export_time metrics_list
    filename format = Some (JsonFile path data) →
  extract_itl_data data = Returned (map PyFloat (flat_map gaps_ms metrics_list))
  ∧ (Forall (λ m, success m = false → client_itl_list m = []) metrics_list →
     extract_itl_data data
       = Returned (map PyFloat
                     (itl_values (calculate_benchmark_summary np_mean np_median
                                    np_percentile metrics_list start_time end_time)))).
Proof.
  intros Hsave.
  assert (data = PyDict [
            ("metadata", PyDict [
               ("total_requests", PyInt (Z.of_nat (length metrics_list)));
               ("successful_requests", PyInt (count_success metrics_list));
               ("failed_requests", PyInt (count_failed metrics_list));
               ("export_time", PyStr export_time);
               ("format_version", PyStr "1.0") ]);
            ("requests", PyList (map (to_dict strftime_localtime) metrics_list)) ])
    as ->.
  { unfold save_multiple_requests_metrics in Hsave.
    destruct metrics_list as [|m ms]; [done|].
    destruct (String.eqb (lower format) "json").
    - apply (inj Some) in Hsave.
      exact (f_equal (λ w, match w with JsonFile _ d => d | CsvFile _ _ _ => data end)
               (eq_sym Hsave)).
    - destruct (String.eqb (lower format) "csv"); [|done].
      destruct (mapM _ _); done. }
  assert (extract_itl_data
            (PyDict [
               ("metadata", PyDict [
                  ("total_requests", PyInt (Z.of_nat (length metrics_list)));
                  ("successful_requests", PyInt (count_success metrics_list));
                  ("failed_requests", PyInt (count_failed metrics_list));
                  ("export_time", PyStr export_time);
                  ("format_version", PyStr "1.0") ]);
               ("requests", PyList (map (to_dict strftime_localtime) metrics_list)) ])
          = Returned (map PyFloat (flat_map gaps_ms metrics_list))) as E.
  { unfold extract_itl_data.
    cbn [py_getitem assoc String.eqb Ascii.eqb Bool.eqb and_then py_iter].
    by rewrite extract_itl_loop_saved. }
  split; [exact E|]. intros Hfailed. rewrite E.
  destruct (summary_fields np_mean np_median np_percentile metrics_list start_time
              end_time) as (_ & _ & _ & (_ & _ & -> & _)).
  by rewrite gaps_of_successful.
Qed.

(** X28. [RequestTimelineData], given the saved dictionary of a record,
    raises [TypeError] when the record has no server-side queue time or no
    server-side prefill time. Otherwise it returns a timeline with one token
    time per gap, whose total duration is the queue time plus the prefill
    time plus the sum of the record's gaps, in seconds. *)
Theorem timeline_of_saved_record (m : RequestMetrics) :
  match server_queue_time m, server_prefill_time m with
  | Some queue_ms, Some prefill_ms =>
      ∃ timeline,
        new_RequestTimelineData (to_dict strftime_localtime m) = Returned timeline
        ∧ length (tl_token_times timeline) = length (client_itl_list m)
        ∧ (tl_total_duration timeline
           == queue_ms / 1000 + prefill_ms / 1000 + py_sum (client_itl_list m))%Q
  | _, _ =>
      new_RequestTimelineData (to_dict strftime_localtime m)
        = Raised "unsupported operand type(s) for /: 'NoneType' and 'float'"
  end.
Proof.
  destruct m as [? ? ? ? ? ? ? ? ? queue prefill ? ? ? ? ? ? ? ? ? ? ? itls].
  cbn [server_queue_time server_prefill_time client_itl_list].
  destruct queue as [q|]; [|reflexivity].
  destruct prefill as [p|]; [|reflexivity].
  destruct (token_times_loop (itl_list_ms itls) (q / 1000 + p / 1000)%Q [])
    as (t & ts & Hrun & Hlen & Ht & Hnil & Hlast).
  exists (mkRequestTimelineData (PyStr request_id0) (opt_float send_time0)
            (PyBool success0) (PyFloat q) (PyFloat p) (opt_float server_decode_time0)
            (opt_float client_ttft0) (opt_int prompt_tokens0)
            (opt_int completion_tokens0) (PyList (map PyFloat (itl_list_ms itls)))
            0 (q / 1000) (q / 1000) (q / 1000 + p / 1000) ts
            (default (q / 1000 + p / 1000)%Q (last ts))
            (default (q / 1000 + p / 1000)%Q (last ts) - 0))%Q.
  split; [|split].
  - unfold new_RequestTimelineData, to_dict.
    cbn -[for_each Qplus Qdiv Qminus Qmult itl_list_ms last map].
    rewrite Hrun. reflexivity.
  - cbn [tl_token_times]. by rewrite Hlen, itl_list_ms_map, length_map.
  - cbn [tl_total_duration].
    assert (default (q / 1000 + p / 1000) (last ts) == t)%Q as ->.
    { destruct itls as [|x itls].
      - rewrite (Hnil eq_refl). by destruct ts.
      - cbn [app] in Hlast. by rewrite Hlast. }
    rewrite Ht, itl_list_ms_map, py_sum_scaled. field.
Qed.
End ReaderFacts.

Lemma extracted_itl_data_witness :
  extract_itl_data
    (PyDict [
       ("metadata", PyDict [
          ("total_requests", PyInt 2);
          ("successful_requests", PyInt 1);
          ("failed_requests", PyInt 1);
          ("export_time", PyStr "2026-01-01T00:00:00");
          ("format_version", PyStr "1.0") ]);
       ("requests",
        PyList (map (to_dict sample_strftime) [sample_record; broken_stream_record])) ])
  = Returned [PyFloat (0.05 * 1000); PyFloat (0.07 * 1000); PyFloat (0.03 * 1000)].
Proof.
  exact (proj1 (extracted_itl_data_of_saved_run sample_strftime sample_str
                  no_stat no_stat no_percentile "2026-01-01T00:00:00"
                  [sample_record; broken_stream_record] "run" "json" "run.json" _ 0 10
                  eq_refl)).
Defined.
